(** * Acquifer Python API: filename metadata decoders, coordinate conversion
      and the TCP/IP status client ([acquifer/__init__.py]).

    The Python module is embedded shallowly.  Python values are modelled as
    the code has them: [str] as [string] (one [ascii] per character, read as
    the code points U+0000..U+00FF), [bytes] as [list byte], [int] as [Z],
    [float] as an IEEE 754 binary64 number ([spec_float] at precision 53),
    and a raised exception as the [Raise] branch of [result].  Filenames
    with characters above U+00FF are outside the model. *)

From Stdlib Require Import ZArith List String Ascii Strings.Byte Bool Lia.
From Stdlib Require Import Floats.SpecFloat.
From Stdlib Require Import DecimalString.
Import ListNotations.

Local Open Scope Z_scope.

(** ** The Python builtins the module relies on *)

Module Py.

(** Exceptions, by class.  [KeyError] keeps the argument the source passes. *)
Inductive exn : Type :=
| ValueError
| KeyError (arg : string)
| AttributeError
| OverflowError
| ZeroDivisionError
| UnicodeDecodeError.

Inductive result (A : Type) : Type :=
| Ok (a : A)
| Raise (e : exn).

Arguments Ok {A} a.
Arguments Raise {A} e.

Definition bind {A B : Type} (r : result A) (k : A -> result B) : result B :=
  match r with
  | Ok a => k a
  | Raise e => Raise e
  end.

Definition is_ok {A : Type} (r : result A) : bool :=
  match r with Ok _ => true | Raise _ => false end.

(** *** Sequences: [len], slices, [find] *)

(** A slice bound as Python normalises it: a negative bound counts from the
    end, and every bound is clamped to [0, len]. *)
Definition slice_bound (len i : Z) : Z :=
  if i <? 0 then Z.max 0 (i + len) else Z.min i len.

(** [s[i:j]] on a [str]. *)
Definition slice (s : string) (i j : Z) : string :=
  let len := Z.of_nat (String.length s) in
  let lo := slice_bound len i in
  let hi := slice_bound len j in
  substring (Z.to_nat lo) (Z.to_nat (hi - lo)) s.

(** [b[i:j]] on a [bytes] object. *)
Definition bslice (b : list byte) (i j : Z) : list byte :=
  let len := Z.of_nat (List.length b) in
  let lo := slice_bound len i in
  let hi := slice_bound len j in
  firstn (Z.to_nat (hi - lo)) (skipn (Z.to_nat lo) b).

Fixpoint bprefix (p b : list byte) : bool :=
  match p, b with
  | [], _ => true
  | x :: p', y :: b' => Byte.eqb x y && bprefix p' b'
  | _ :: _, [] => false
  end.

Fixpoint find_from (sub b : list byte) (pos : Z) : Z :=
  if bprefix sub b then pos
  else match b with
       | [] => -1
       | _ :: b' => find_from sub b' (pos + 1)
       end.

(** [b.find(sub)]: the lowest index where [sub] occurs, [-1] when it does not. *)
Definition find (b sub : list byte) : Z := find_from sub b 0.

(** [s.index(sub)]: the lowest index where [sub] occurs, [ValueError] when it
    does not. *)
Definition str_index (s sub : string) : result Z :=
  match String.index 0 sub s with
  | Some n => Ok (Z.of_nat n)
  | None => Raise ValueError
  end.

Definition ascii_uppercase : string := "ABCDEFGHIJKLMNOPQRSTUVWXYZ".

(** *** Characters of number literals *)

Definition code (c : ascii) : Z := Z.of_nat (nat_of_ascii c).

Definition is_digit (c : ascii) : bool := (48 <=? code c) && (code c <=? 57).

(** White space skipped around a number: the C white space, and the two
    non-ASCII spaces below U+0100 (NEL, NBSP) that the conversion turns into
    a blank first. *)
Definition is_space (c : ascii) : bool :=
  let n := code c in
  ((9 <=? n) && (n <=? 13)) || (n =? 32) || (n =? 133) || (n =? 160).

Definition digit_val (c : ascii) : Z := code c - 48.

Fixpoint lstrip (l : list ascii) : list ascii :=
  match l with
  | c :: l' => if is_space c then lstrip l' else l
  | [] => []
  end.

Definition strip (l : list ascii) : list ascii :=
  rev (lstrip (rev (lstrip l))).

(** The digits of a literal in which single underscores may separate digits:
    [digit (["_"] digit)*].  [None] when the text is not of that shape. *)
Fixpoint digit_part (l : list ascii) (prev_digit : bool) (acc : list ascii)
  : option (list ascii) :=
  match l with
  | [] => if prev_digit then Some (rev acc) else None
  | c :: l' =>
      if is_digit c then digit_part l' true (c :: acc)
      else if (code c =? 95) && prev_digit then digit_part l' false acc
      else None
  end.

Definition digits_val (l : list ascii) : Z :=
  fold_left (fun v c => 10 * v + digit_val c) l 0.

(** An optional sign: the flag is [true] for a minus. *)
Definition split_sign (l : list ascii) : bool * list ascii :=
  match l with
  | c :: l' =>
      if code c =? 45 then (true, l')
      else if code c =? 43 then (false, l')
      else (false, l)
  | [] => (false, [])
  end.

(** [int(s)] for a [str] in base 10. *)
Definition int_of_str (s : string) : result Z :=
  let '(neg, body) := split_sign (strip (list_ascii_of_string s)) in
  match digit_part body false [] with
  | Some ds => Ok (if neg then - digits_val ds else digits_val ds)
  | None => Raise ValueError
  end.

(** *** Floats: IEEE 754 binary64 *)

Definition float : Type := spec_float.

Definition prec : Z := 53.
Definition emax : Z := 1024.

Definition fadd : float -> float -> float := SFadd prec emax.
Definition fsub : float -> float -> float := SFsub prec emax.
Definition fmul : float -> float -> float := SFmul prec emax.
Definition fdiv : float -> float -> float := SFdiv prec emax.
Definition fopp : float -> float := SFopp.

(** [x == y] on floats. *)
Definition feqb : float -> float -> bool := SFeqb.

Definition is_zero (x : float) : bool :=
  match x with S754_zero _ => true | _ => false end.

Definition is_finite (x : float) : bool :=
  match x with S754_zero _ | S754_finite _ _ _ => true | _ => false end.

(** The float nearest to [n / d] (ties to even), with sign [s]. *)
Definition ratio_to_float (s : bool) (n d : positive) : float :=
  let '(mz, ez, lz) := SFdiv_core_binary prec emax (Zpos n) 0 (Zpos d) 0 in
  binary_round_aux prec emax s mz ez lz.

(** The float nearest to [m * 10 ^ e10] with sign [s]: the value of a decimal
    literal, as the compiler and [float(str)] read it. *)
Definition dec_to_float (s : bool) (m : Z) (e10 : Z) : float :=
  match m with
  | Zpos p =>
      if 0 <=? e10 then binary_round prec emax s (p * Z.to_pos (10 ^ e10)) 0
      else ratio_to_float s p (Z.to_pos (10 ^ (- e10)))
  | _ => S754_zero s
  end.

(** [float(n)] for an [int]: the nearest float, [OverflowError] beyond the
    range. *)
Definition float_of_int (z : Z) : result float :=
  match binary_normalize prec emax z 0 false with
  | S754_infinity _ => Raise OverflowError
  | f => Ok f
  end.

(** [a / b] on two [int]s: the correctly rounded quotient. *)
Definition int_truediv (a b : Z) : result float :=
  let s := xorb (a <? 0) (b <? 0) in
  match b, a with
  | Z0, _ => Raise ZeroDivisionError
  | _, Z0 => Ok (S754_zero s)
  | _, _ =>
      match ratio_to_float s (Z.to_pos (Z.abs a)) (Z.to_pos (Z.abs b)) with
      | S754_infinity _ => Raise OverflowError
      | f => Ok f
      end
  end.

(** *** [float(s)] for a [str] *)

Definition is_underscore (c : ascii) : bool := code c =? 95.

(** Underscores of a float literal: each one after a digit and before a
    digit; they are dropped. *)
Fixpoint drop_underscores (l : list ascii) (prev : option ascii)
  : option (list ascii) :=
  match l with
  | [] =>
      match prev with
      | Some p => if is_underscore p then None else Some []
      | None => Some []
      end
  | c :: l' =>
      if is_underscore c then
        match prev with
        | Some p => if is_digit p then drop_underscores l' (Some c) else None
        | None => None
        end
      else
        let bad :=
          match prev with
          | Some p => is_underscore p && negb (is_digit c)
          | None => false
          end in
        if bad then None
        else option_map (cons c) (drop_underscores l' (Some c))
  end.

Fixpoint span_digits (l : list ascii) : list ascii * list ascii :=
  match l with
  | c :: l' =>
      if is_digit c then let '(ds, r) := span_digits l' in (c :: ds, r)
      else ([], l)
  | [] => ([], [])
  end.

Definition lower (c : ascii) : ascii :=
  if (65 <=? code c) && (code c <=? 90)
  then ascii_of_nat (nat_of_ascii c + 32) else c.

Definition is_word (w : string) (l : list ascii) : bool :=
  String.eqb w (string_of_list_ascii (map lower l)).

(** The exponent part: empty, or [e] or [E], an optional sign and digits. *)
Definition exponent_part (l : list ascii) : option Z :=
  match l with
  | [] => Some 0
  | c :: l' =>
      if (code c =? 101) || (code c =? 69) then
        let '(neg, ds) := split_sign l' in
        match ds with
        | [] => None
        | _ :: _ =>
            if forallb is_digit ds
            then Some (if neg then - digits_val ds else digits_val ds)
            else None
        end
      else None
  end.

Definition float_of_str (s : string) : result float :=
  match drop_underscores (strip (list_ascii_of_string s)) None with
  | None => Raise ValueError
  | Some l =>
      let '(neg, body) := split_sign l in
      if is_word "inf" body || is_word "infinity" body
      then Ok (S754_infinity neg)
      else if is_word "nan" body then Ok S754_nan
      else
        let '(ip, r1) := span_digits body in
        let '(fp, r2) :=
          match r1 with
          | c :: r => if code c =? 46 then span_digits r else ([], r1)
          | [] => ([], [])
          end in
        match ip ++ fp, exponent_part r2 with
        | _ :: _, Some e =>
            Ok (dec_to_float neg (digits_val (ip ++ fp))
                  (e - Z.of_nat (List.length fp)))
        | _, _ => Raise ValueError
        end
  end.

(** *** Numbers and their arithmetic *)

Inductive pynum : Type :=
| PyInt (z : Z)
| PyFloat (f : float).

Definition to_float (x : pynum) : result float :=
  match x with
  | PyInt z => float_of_int z
  | PyFloat f => Ok f
  end.

(** A binary operator: exact on two [int]s, on floats once either operand is
    a float. *)
Definition arith (iop : Z -> Z -> Z) (fop : float -> float -> float)
  (x y : pynum) : result pynum :=
  match x, y with
  | PyInt a, PyInt b => Ok (PyInt (iop a b))
  | _, _ =>
      bind (to_float x) (fun a =>
      bind (to_float y) (fun b => Ok (PyFloat (fop a b))))
  end.

Definition add : pynum -> pynum -> result pynum := arith Z.add fadd.
Definition sub : pynum -> pynum -> result pynum := arith Z.sub fsub.
Definition mul : pynum -> pynum -> result pynum := arith Z.mul fmul.

Definition neg (x : pynum) : pynum :=
  match x with
  | PyInt z => PyInt (- z)
  | PyFloat f => PyFloat (fopp f)
  end.

(** [x / y] under [from __future__ import division]. *)
Definition truediv (x y : pynum) : result pynum :=
  match x, y with
  | PyInt a, PyInt b => bind (int_truediv a b) (fun f => Ok (PyFloat f))
  | _, _ =>
      bind (to_float x) (fun a =>
      bind (to_float y) (fun b =>
      if is_zero b then Raise ZeroDivisionError else Ok (PyFloat (fdiv a b))))
  end.

(** [10**-k] for a positive [k]: an [int] raised to a negative [int] is the
    float power, here the float nearest to the decimal [1e-k]. *)
Definition pow10_neg (k : positive) : pynum :=
  PyFloat (dec_to_float false 1 (- Zpos k)).

(** A non-negative [n / d] rounded to the nearest integer, ties to even. *)
Definition div_half_even (n d : Z) : Z :=
  let q := n / d in
  match (2 * (n mod d)) ?= d with
  | Lt => q
  | Eq => if Z.even q then q else q + 1
  | Gt => q + 1
  end.

(** [round(x, ndigits)] with [0 <= ndigits]: an [int] is returned as it is;
    a finite float is rounded, from its exact value and ties to even, to
    [ndigits] decimals, and the result is the float nearest to that
    decimal. *)
Definition round (x : pynum) (ndigits : Z) : result pynum :=
  match x with
  | PyInt z => Ok (PyInt z)
  | PyFloat (S754_finite s m e) =>
      let num := Zpos m * 2 ^ Z.max 0 e * 10 ^ ndigits in
      let den := 2 ^ Z.max 0 (- e) in
      match dec_to_float s (div_half_even num den) (- ndigits) with
      | S754_infinity _ => Raise OverflowError
      | f => Ok (PyFloat f)
      end
  | PyFloat f => Ok (PyFloat f)
  end.

(** *** [bytes.decode("UTF-8")] *)

(** Decoded text: its Unicode code points. *)
Definition text : Type := list N.

Definition is_cont (b : byte) : bool :=
  let n := Byte.to_N b in ((128 <=? n) && (n <=? 191))%N.

Definition in_range (lo hi : N) (b : byte) : bool :=
  let n := Byte.to_N b in ((lo <=? n) && (n <=? hi))%N.

Definition cont_bits (b : byte) : N := (Byte.to_N b - 128)%N.

(** Strict UTF-8: shortest forms only, no surrogates, nothing above
    U+10FFFF. *)
Fixpoint utf8_decode (fuel : nat) (b : list byte) : result text :=
  match fuel with
  | O => match b with [] => Ok [] | _ => Raise UnicodeDecodeError end
  | S fuel' =>
      match b with
      | [] => Ok []
      | b0 :: r0 =>
          let n0 := Byte.to_N b0 in
          if (n0 <? 128)%N then
            bind (utf8_decode fuel' r0) (fun t => Ok (n0 :: t))
          else if in_range 194 223 b0 then
            match r0 with
            | b1 :: r1 =>
                if is_cont b1 then
                  bind (utf8_decode fuel' r1) (fun t =>
                    Ok (((n0 - 192) * 64 + cont_bits b1)%N :: t))
                else Raise UnicodeDecodeError
            | _ => Raise UnicodeDecodeError
            end
          else if in_range 224 239 b0 then
            match r0 with
            | b1 :: b2 :: r2 =>
                let lo := if (n0 =? 224)%N then 160%N else 128%N in
                let hi := if (n0 =? 237)%N then 159%N else 191%N in
                if in_range lo hi b1 && is_cont b2 then
                  bind (utf8_decode fuel' r2) (fun t =>
                    Ok (((n0 - 224) * 4096 + cont_bits b1 * 64
                         + cont_bits b2)%N :: t))
                else Raise UnicodeDecodeError
            | _ => Raise UnicodeDecodeError
            end
          else if in_range 240 244 b0 then
            match r0 with
            | b1 :: b2 :: b3 :: r3 =>
                let lo := if (n0 =? 240)%N then 144%N else 128%N in
                let hi := if (n0 =? 244)%N then 143%N else 191%N in
                if in_range lo hi b1 && is_cont b2 && is_cont b3 then
                  bind (utf8_decode fuel' r3) (fun t =>
                    Ok (((n0 - 240) * 262144 + cont_bits b1 * 4096
                         + cont_bits b2 * 64 + cont_bits b3)%N :: t))
                else Raise UnicodeDecodeError
            | _ => Raise UnicodeDecodeError
            end
          else Raise UnicodeDecodeError
      end
  end.

(** [b.decode("UTF-8")]: every step consumes a byte, so the length of [b] is
    fuel enough. *)
Definition decode (b : list byte) : result text :=
  utf8_decode (List.length b) b.

(** *** Number equality and [dict] *)

(** [x == y] on numbers; an [int] equals a float when the float's exact value
    is that integer. *)
Definition int_eq_float (z : Z) (f : float) : bool :=
  match f with
  | S754_zero _ => z =? 0
  | S754_finite s m e =>
      let v := if s then Zneg m else Zpos m in
      if 0 <=? e then z =? v * 2 ^ e
      else (v mod 2 ^ (- e) =? 0) && (z =? v / 2 ^ (- e))
  | _ => false
  end.

Definition num_eqb (x y : pynum) : bool :=
  match x, y with
  | PyInt a, PyInt b => a =? b
  | PyFloat a, PyFloat b => feqb a b
  | PyInt a, PyFloat b => int_eq_float a b
  | PyFloat a, PyInt b => int_eq_float b a
  end.

(** A [dict] with number keys, in the order the source writes its items.
    [get d k] is [Some d[k]] when [k in d] and [None] when it is not, so the
    source's test [k in d] followed by [d[k]] is one [get]. *)
Definition dict (V : Type) : Type := list (pynum * V).

Fixpoint get {V : Type} (d : dict V) (k : pynum) : option V :=
  match d with
  | [] => None
  | (k', v) :: d' => if num_eqb k k' then Some v else get d' k
  end.

(** [k in d]. *)
Definition contains {V : Type} (d : dict V) (k : pynum) : bool :=
  match get d k with Some _ => true | None => false end.

Definition keys {V : Type} (d : dict V) : list pynum := map fst d.

(** *** [str.format] *)

(** A [str] as text, and [str(n)] for an [int]: what a replacement field
    [{}] puts for a [str] and for an [int]. *)
Definition text_of_str (s : string) : text :=
  map (fun c => N.of_nat (nat_of_ascii c)) (list_ascii_of_string s).

Definition str_of_int (z : Z) : string := NilZero.string_of_int (Z.to_int z).

End Py.

Import Py.

Declare Scope py_scope.
Delimit Scope py_scope with py.
Notation "x <- e ;; k" := (bind e (fun x => k))
  (at level 61, e at next level, right associativity) : py_scope.
Local Open Scope string_scope.
Local Open Scope list_scope.
Local Open Scope py_scope.
Local Open Scope Z_scope.

(** A decimal float literal [m * 10^e] of the source. *)
Definition dec (m e : Z) : pynum := PyFloat (dec_to_float false m e).

(** [int(s)] and [float(s)] as number-valued calls. *)
Definition int (s : string) : result pynum := n <- int_of_str s ;; Ok (PyInt n).
Definition float_ (s : string) : result pynum := f <- float_of_str s ;; Ok (PyFloat f).

(** ** class IM: the behaviour shared by all models *)

Module IM.

(** *** class IM.metadata *)

(** Pixel size (um) to objective magnification. *)
Definition pixelSizeToMag : dict pynum :=
  [ (dec 325 (-2), PyInt 2);
    (dec 1625 (-3), PyInt 4);
    (dec 650 (-3), PyInt 10);
    (dec 325 (-3), PyInt 20) ].

(** Pixel size (um) to objective numerical aperture. *)
Definition pixelSizeToNA : dict pynum :=
  [ (dec 325 (-2), dec 6 (-2));
    (dec 1625 (-3), dec 13 (-2));
    (dec 650 (-3), dec 3 (-1));
    (dec 325 (-3), dec 45 (-2)) ].

Definition magToNA : dict pynum :=
  [ (PyInt 2, dec 6 (-2));
    (PyInt 4, dec 13 (-2));
    (PyInt 10, dec 3 (-1));
    (PyInt 20, dec 45 (-2));
    (PyInt 40, dec 6 (-1)) ].

(** The default of [Image_Width] and [Image_Height]. *)
Definition Image_default : pynum := PyInt 2048.

Definition convertXY_PixToIM
  (Xpix Ypix PixelSize_um X0mm Y0mm Image_Width Image_Height : pynum)
  : result (pynum * pynum) :=
  (* Xout = X0mm + (-Image_Width/2 + Xpix)*PixelSize_um*10**-3 *)
  Xout <- (h <- truediv (neg Image_Width) (PyInt 2) ;;
           c <- add h Xpix ;;
           d <- mul c PixelSize_um ;;
           e <- mul d (pow10_neg 3) ;;
           add X0mm e) ;;
  (* Yout = Y0mm + (-Image_Height/2 + Image_Height - Ypix)*PixelSize_um*10**-3 *)
  Yout <- (h <- truediv (neg Image_Height) (PyInt 2) ;;
           t <- add h Image_Height ;;
           c <- sub t Ypix ;;
           d <- mul c PixelSize_um ;;
           e <- mul d (pow10_neg 3) ;;
           add Y0mm e) ;;
  Xout <- round Xout 3 ;;
  Yout <- round Yout 3 ;;
  Ok (Xout, Yout).

(** *** class IM.TCPIP *)

(** The client object: its address and its socket, the socket being what has
    been sent on it so far, oldest first. *)
Record TCPIP : Type := {
  TCP_IP : string;
  TCP_PORT : Z;
  socket : list (list byte)
}.

Definition send (self : TCPIP) (msg : list byte) : TCPIP :=
  {| TCP_IP := TCP_IP self;
     TCP_PORT := TCP_PORT self;
     socket := socket self ++ [msg] |}.

Definition version_request : list byte :=
  [x02] ++ list_byte_of_string "Get" ++ [x1f]
        ++ list_byte_of_string "IMVersion" ++ [x1f]
        ++ list_byte_of_string "10982031" ++ [x03].

Definition status_request : list byte :=
  [x02] ++ list_byte_of_string "Get" ++ [x1f]
        ++ list_byte_of_string "IMStatus" ++ [x1f]
        ++ list_byte_of_string "19487256" ++ [x03].

(** The attribute [self.__getFeedback__]: the class IM.TCPIP defines
    [__init__], [__str__], [getVersion] and [getStatus] only, and neither
    its base nor IM03.TCPIP and IM04.TCPIP add a method, so the lookup
    raises.  Nothing is read, and the socket is left as it is. *)
Definition __getFeedback__ (self : TCPIP) : result (list byte) * TCPIP :=
  (Raise AttributeError, self).

(** What getVersion makes of a response [out]:
    [offset = out.find(b'\x1f')] and [out[offset+1:-1].decode("UTF-8")]. *)
Definition Version_of_response (out : list byte) : result text :=
  let offset := find out [x1f] in
  decode (bslice out (offset + 1) (-1)).

(** What getStatus makes of it, [decode()] being the UTF-8 decoder too. *)
Definition Status_of_response (out : list byte) : result text :=
  let offset := find out [x1f] in
  decode (bslice out (offset + 1) (-1)).

(** A method returns its value or raises, and leaves the client with what
    has been sent on its socket by then. *)
Definition getVersion (self : TCPIP) : result text * TCPIP :=
  let self := send self [x00; x00; x00; x18] in
  let self := send self version_request in
  let '(out, self) := __getFeedback__ self in
  (out <- out ;; Version_of_response out, self).

Definition getStatus (self : TCPIP) : result text * TCPIP :=
  let self := send self [x00; x00; x00; x17] in
  let self := send self status_request in
  let '(out, self) := __getFeedback__ self in
  (out <- out ;; Status_of_response out, self).

(** [__str__]: the arguments of [format] are evaluated from left to right,
    the version exchange first and the status exchange last. *)
Definition __str__ (self : TCPIP) : result text * TCPIP :=
  let '(Version, self) := getVersion self in
  match Version with
  | Raise e => (Raise e, self)
  | Ok Version =>
      let ip := TCP_IP self in
      let port := TCP_PORT self in
      let '(Status, self) := getStatus self in
      (Status <- Status ;;
       Ok (text_of_str "IM v" ++ Version
           ++ text_of_str " at IP:" ++ text_of_str ip
           ++ text_of_str ", Port:" ++ text_of_str (str_of_int port)
           ++ text_of_str ", status:" ++ Status),
       self)
  end.

End IM.

(** ** class IM03 *)

Module IM03.

(** The attribute [IM03.getPixelSize_um]: the class IM03 and its base IM
    define [metadata] and [TCPIP] only (the decoder of that name is
    [IM03.metadata.getPixelSize_um]), so the lookup raises. *)
Definition IM03_getPixelSize_um (imageName : string) : result pynum :=
  Raise AttributeError.

Definition getXYPosition_mm (imageName : string) : result (pynum * pynum) :=
  X0mm <- (n <- int (slice imageName 74 80) ;; truediv n (PyInt 1000)) ;;
  Y0mm <- (n <- int (slice imageName 83 89) ;; truediv n (PyInt 1000)) ;;
  Ok (X0mm, Y0mm).

Definition getWellSubPosition (imageName : string) : result pynum :=
  int (slice imageName 18 20).

Definition getZPosition_um (imageName : string) : result pynum :=
  z <- float_ (slice imageName 92 98) ;; truediv z (PyInt 10).

Definition getPixelSize_um (imageName : string) : result pynum :=
  p <- float_ (slice imageName 43 48) ;; mul p (pow10_neg 4).

Definition getObjectiveMagnification (imageName : string) : result pynum :=
  pixSize <- IM03_getPixelSize_um imageName ;;
  match get IM.pixelSizeToMag pixSize with
  | Some mag => Ok mag
  | None =>
      Raise (KeyError "No pixel size matching in the pixelSizeToMag dictionnary")
  end.

Definition getObjectiveNA (imageName : string) : result pynum :=
  pixSize <- getPixelSize_um imageName ;;
  match get IM.pixelSizeToNA pixSize with
  | Some na => Ok na
  | None =>
      Raise (KeyError "No pixel size matching in the pixelSizeToNA dictionnary")
  end.

Definition getWellId (imageName : string) : string :=
  slice imageName 10 14.

Definition getWellColumn (imageName : string) : result pynum :=
  int (slice imageName 11 14).

Definition getWellRow (imageName : string) : result pynum :=
  let letter := slice imageName 10 11 in
  i <- str_index ascii_uppercase letter ;; Ok (PyInt (i + 1)).

Definition getWellIndex (imageName : string) : result pynum :=
  int (slice imageName 2 7).

Definition getZSlice (imageName : string) : result pynum :=
  int (slice imageName 36 39).

Definition getChannelIndex (imageName : string) : result pynum :=
  int (slice imageName 31 32).

Definition getLoopIteration (imageName : string) : result pynum :=
  int (slice imageName 24 27).

Definition getTime (imageName : string) : result pynum :=
  int (slice imageName (-14) (-4)).

Definition getLightPower (imageName : string) : result pynum :=
  int (slice imageName 52 56).

Definition getLightExposure (imageName : string) : result pynum :=
  int (slice imageName 60 64).

Definition getTemperature (imageName : string) : result pynum :=
  t <- float_ (slice imageName 68 71) ;; truediv t (PyInt 10).

End IM03.

(** ** class IM04 *)

Module IM04.

Definition getXYPosition_mm (imageName : string) : result (pynum * pynum) :=
  X0mm <- (n <- int (slice imageName 65 71) ;; truediv n (PyInt 1000)) ;;
  Y0mm <- (n <- int (slice imageName 74 80) ;; truediv n (PyInt 1000)) ;;
  Ok (X0mm, Y0mm).

Definition getWellSubPosition (imageName : string) : result pynum :=
  int (slice imageName 9 11).

Definition getZPosition_um (imageName : string) : result pynum :=
  z <- float_ (slice imageName 83 89) ;; truediv z (PyInt 10).

Definition getPixelSize_um (imageName : string) : result pynum :=
  p <- float_ (slice imageName 34 39) ;; mul p (pow10_neg 4).

Definition getObjectiveMagnification (imageName : string) : result pynum :=
  pixSize <- getPixelSize_um imageName ;;
  match get IM.pixelSizeToMag pixSize with
  | Some mag => Ok mag
  | None =>
      Raise (KeyError "No pixel size matching in the pixelSizeToMag dictionnary")
  end.

Definition getObjectiveNA (imageName : string) : result pynum :=
  pixSize <- getPixelSize_um imageName ;;
  match get IM.pixelSizeToNA pixSize with
  | Some na => Ok na
  | None =>
      Raise (KeyError "No pixel size matching in the pixelSizeToNA dictionnary")
  end.

Definition getWellId (imageName : string) : string :=
  slice imageName 1 5.

Definition getWellColumn (imageName : string) : result pynum :=
  int (slice imageName 2 5).

Definition getWellRow (imageName : string) : result pynum :=
  let letter := slice imageName 1 2 in
  i <- str_index ascii_uppercase letter ;; Ok (PyInt (i + 1)).

Definition getWellIndex (imageName : string) : result pynum :=
  int (slice imageName 106 111).

Definition getZSlice (imageName : string) : result pynum :=
  int (slice imageName 27 30).

Definition getChannelIndex (imageName : string) : result pynum :=
  int (slice imageName 22 23).

Definition getLoopIteration (imageName : string) : result pynum :=
  int (slice imageName 15 18).

Definition getTime (imageName : string) : result pynum :=
  int (slice imageName 92 102).

Definition getLightPower (imageName : string) : result pynum :=
  int (slice imageName 43 47).

Definition getLightExposure (imageName : string) : result pynum :=
  int (slice imageName 51 55).

Definition getTemperature (imageName : string) : result pynum :=
  t <- float_ (slice imageName 59 62) ;; truediv t (PyInt 10).

End IM04.

(** The example filenames of the two docstrings. *)
Definition exampleA : string :=
  "WE00003---A003--PO01--LO001--CO6--SL010--PX16250--PW0040--IN0020--TM246--X032281--Y010963--Z211825--T1375404533.tif".

Definition exampleB : string :=
  "-A001--PO01--LO001--CO6--SL001--PX32500--PW0080--IN0020--TM244--X014580--Y011262--Z209501--T1374031802--WE00001.tif".

(** ** Definitions used to state the properties *)

(** [c] is one of the letters of [string.ascii_uppercase]. *)
Definition is_upper (c : ascii) : bool :=
  ((65 <=? code c) && (code c <=? 90))%Z.

(** The two examples with the row letter Z. *)
Definition exampleA_rowZ : string :=
  "WE00003---Z003--PO01--LO001--CO6--SL010--PX16250--PW0040--IN0020--TM246--X032281--Y010963--Z211825--T1375404533.tif".

Definition exampleB_rowZ : string :=
  "-Z001--PO01--LO001--CO6--SL001--PX32500--PW0080--IN0020--TM244--X014580--Y011262--Z209501--T1374031802--WE00001.tif".

(** The four pixel sizes of the tables, as the source writes them. *)
Definition px_2x : pynum := dec 325 (-2).
Definition px_4x : pynum := dec 1625 (-3).
Definition px_10x : pynum := dec 650 (-3).
Definition px_20x : pynum := dec 325 (-3).

(** The two [KeyError]s the lookups raise. *)
Definition mag_miss : exn :=
  KeyError "No pixel size matching in the pixelSizeToMag dictionnary".
Definition na_miss : exn :=
  KeyError "No pixel size matching in the pixelSizeToNA dictionnary".

(** The variant B example with the pixel-size token PX40000, and with
    PX50000. *)
Definition exampleB_px4 : string :=
  "-A001--PO01--LO001--CO6--SL001--PX40000--PW0080--IN0020--TM244--X014580--Y011262--Z209501--T1374031802--WE00001.tif".
Definition exampleB_px5 : string :=
  "-A001--PO01--LO001--CO6--SL001--PX50000--PW0080--IN0020--TM244--X014580--Y011262--Z209501--T1374031802--WE00001.tif".




(** The float whose value is [N * 2^g], for an [N] that fits the 53-bit
    mantissa: its sign, its mantissa shifted to the exponent [fexp] assigns
    to that magnitude, and that exponent. *)
Definition canon (N g : Z) : float :=
  match N with
  | Z0 => S754_zero false
  | _ =>
      let t := fexp prec emax (Zdigits2 N + g) in
      S754_finite (N <? 0) (Z.to_pos (Z.abs N * 2 ^ (g - t))) t
  end.

(** The documented conversion, evaluated as Python does: X is
    [round(X0mm + (Xpix - W/2) * PixelSize_um * 10**-3, 3)] and Y is
    [round(Y0mm + (H - Ypix - H/2) * PixelSize_um * 10**-3, 3)]. *)
Definition convertXY_spec
  (Xpix Ypix PixelSize_um X0mm Y0mm Image_Width Image_Height : pynum)
  : result (pynum * pynum) :=
  Xs <- (h <- truediv Image_Width (PyInt 2) ;;
         c <- sub Xpix h ;;
         d <- mul c PixelSize_um ;;
         e <- mul d (pow10_neg 3) ;;
         add X0mm e) ;;
  Ys <- (t <- sub Image_Height Ypix ;;
         h <- truediv Image_Height (PyInt 2) ;;
         c <- sub t h ;;
         d <- mul c PixelSize_um ;;
         e <- mul d (pow10_neg 3) ;;
         add Y0mm e) ;;
  Xr <- round Xs 3 ;;
  Yr <- round Ys 3 ;;
  Ok (Xr, Yr).

(** The float [0.0]. *)
Definition zero_pos : pynum := PyFloat (S754_zero false).


(** A substring that is no [int] literal, no [float] literal. *)
Definition int_unparsable (s : string) : Prop :=
  forall z, int_of_str s <> Ok z.
Definition float_unparsable (s : string) : Prop :=
  forall f, float_of_str s <> Ok f.

(** The characters an [int] literal can hold. *)
Definition int_char (c : ascii) : bool :=
  is_digit c || is_space c || is_underscore c
  || (code c =? 43)%Z || (code c =? 45)%Z.

(** The variant A example with the letter x among the column digits. *)
Definition exampleA_badcol : string :=
  "WE00003---A0x3--PO01--LO001--CO6--SL010--PX16250--PW0040--IN0020--TM246--X032281--Y010963--Z211825--T1375404533.tif".


(** [r] is [x] rounded to three decimals: the float nearest to [n / 1000]
    for an integer [n] nearest to [1000 * |x|], with the sign of [x]; a zero,
    an infinity and nan are their own rounding. *)
Definition rounded_to_3 (x r : float) : Prop :=
  match x with
  | S754_finite s m e =>
      exists n : Z,
        0 <= n
        /\ 2 * Z.abs (Zpos m * 2 ^ Z.max 0 e * 1000 - n * 2 ^ Z.max 0 (- e))
           <= 2 ^ Z.max 0 (- e)
        /\ r = dec_to_float s n (-3)
  | _ => r = x
  end.



(** A field of decimal digits only, and the number they spell. *)
Definition is_digits (s : string) : bool :=
  match list_ascii_of_string s with
  | [] => false
  | l => forallb is_digit l
  end.

Definition decimal (s : string) : Z := digits_val (list_ascii_of_string s).

(** [P] on every integer of [lo, lo + 2^d). *)
Fixpoint all_range (d : nat) (lo : Z) (P : Z -> bool) : bool :=
  match d with
  | O => P lo
  | S d' => all_range d' lo P && all_range d' (lo + 2 ^ Z.of_nat d') P
  end.

(** The pixel size decoded from a field of digits that spell [v]:
    [float(v) * 10**-4]. *)
Definition token_pixel_size (v : Z) : pynum :=
  PyFloat (fmul (dec_to_float false v 0) (dec_to_float false 1 (-4))).

(** The objective of a pixel-size token: magnification and numerical
    aperture, for the four tokens that have one. *)
Definition token_objective (v : Z) : option (pynum * pynum) :=
  if v =? 32500 then Some (PyInt 2, dec 6 (-2))
  else if v =? 16250 then Some (PyInt 4, dec 13 (-2))
  else if v =? 6500 then Some (PyInt 10, dec 3 (-1))
  else if v =? 3250 then Some (PyInt 20, dec 45 (-2))
  else None.

(** A token without an objective decodes to a pixel size that equals no key
    of the tables. *)
Definition token_checked (v : Z) : bool :=
  match token_objective v with
  | Some _ => true
  | None =>
      negb (existsb (num_eqb (token_pixel_size v)) [px_2x; px_4x; px_10x; px_20x])
  end.

(** A call that raises nothing but OverflowError. *)
Definition only_overflow {A : Type} (r : result A) : Prop :=
  forall e, r = Raise e -> e = OverflowError.

(** A number that is a float. *)
Definition is_float (x : pynum) : bool :=
  match x with PyFloat _ => true | PyInt _ => false end.

(** The four bytes of [n], most significant first. *)
Definition byte_of_Z (z : Z) : byte :=
  match Byte.of_N (Z.to_N z) with Some b => b | None => x00 end.

Definition be32 (n : Z) : list byte :=
  [ byte_of_Z (n / 2 ^ 24 mod 256); byte_of_Z (n / 2 ^ 16 mod 256);
    byte_of_Z (n / 2 ^ 8 mod 256); byte_of_Z (n mod 256) ].

(** A request on the socket: the length of the payload, then the payload. *)
Definition send_framed (self : IM.TCPIP) (payload : list byte) : IM.TCPIP :=
  IM.send (IM.send self (be32 (Z.of_nat (List.length payload)))) payload.

(** ** Properties *)

(** *** The builtins on sample inputs *)

Example int_of_str_digits : int_of_str "003" = Ok 3%Z.
Proof. reflexivity. Qed.

Example int_of_str_blank_sign_underscore : int_of_str " -1_0 " = Ok (-10)%Z.
Proof. reflexivity. Qed.

Example int_of_str_letter : int_of_str "A00" = Raise ValueError.
Proof. reflexivity. Qed.

Example int_of_str_empty : int_of_str "" = Raise ValueError.
Proof. reflexivity. Qed.

Example float_of_str_digits :
  float_of_str "16250" = Ok (dec_to_float false 16250 0).
Proof. vm_compute. reflexivity. Qed.

Example float_of_str_exponent :
  float_of_str "1e-3" = Ok (dec_to_float false 1 (-3)).
Proof. vm_compute. reflexivity. Qed.

Example float_of_str_dot : float_of_str "." = Raise ValueError.
Proof. reflexivity. Qed.

Example slice_negative : slice "abcdefgh" (-3) (-1) = "fg".
Proof. reflexivity. Qed.

Example slice_past_end : slice "abc" 2 10 = "c".
Proof. reflexivity. Qed.

Example round_half_even_of_exact_value :
  round (dec 2675 (-3)) 2 = Ok (dec 267 (-2)).
Proof. vm_compute. reflexivity. Qed.

Example int_truediv_negative_zero :
  int_truediv 0 (-5) = Ok (S754_zero true).
Proof. reflexivity. Qed.

(** *** The example filenames *)

(** C1: decoding the two example filenames gives the documented value of
    every field: variant A (IM03) on its example, variant B (IM04) on its
    example. *)
Theorem examples_decode_documented_values :
  (IM03.getWellId exampleA = "A003"
   /\ IM03.getWellColumn exampleA = Ok (PyInt 3)
   /\ IM03.getWellRow exampleA = Ok (PyInt 1)
   /\ IM03.getWellIndex exampleA = Ok (PyInt 3)
   /\ IM03.getWellSubPosition exampleA = Ok (PyInt 1)
   /\ IM03.getLoopIteration exampleA = Ok (PyInt 1)
   /\ IM03.getZSlice exampleA = Ok (PyInt 10)
   /\ IM03.getPixelSize_um exampleA = Ok (dec 1625 (-3))
   /\ IM03.getLightPower exampleA = Ok (PyInt 40)
   /\ IM03.getLightExposure exampleA = Ok (PyInt 20)
   /\ IM03.getTemperature exampleA = Ok (dec 246 (-1))
   /\ IM03.getXYPosition_mm exampleA = Ok (dec 32281 (-3), dec 10963 (-3))
   /\ IM03.getZPosition_um exampleA = Ok (dec 211825 (-1))
   /\ IM03.getTime exampleA = Ok (PyInt 1375404533))
  /\
  (IM04.getWellId exampleB = "A001"
   /\ IM04.getWellColumn exampleB = Ok (PyInt 1)
   /\ IM04.getWellRow exampleB = Ok (PyInt 1)
   /\ IM04.getWellIndex exampleB = Ok (PyInt 1)
   /\ IM04.getWellSubPosition exampleB = Ok (PyInt 1)
   /\ IM04.getLoopIteration exampleB = Ok (PyInt 1)
   /\ IM04.getZSlice exampleB = Ok (PyInt 1)
   /\ IM04.getPixelSize_um exampleB = Ok (dec 325 (-2))
   /\ IM04.getLightPower exampleB = Ok (PyInt 80)
   /\ IM04.getLightExposure exampleB = Ok (PyInt 20)
   /\ IM04.getTemperature exampleB = Ok (dec 244 (-1))
   /\ IM04.getXYPosition_mm exampleB = Ok (dec 14580 (-3), dec 11262 (-3))
   /\ IM04.getZPosition_um exampleB = Ok (dec 209501 (-1))
   /\ IM04.getTime exampleB = Ok (PyInt 1374031802)).
Proof.
  split; repeat split; vm_compute; reflexivity.
Qed.

(** C3, as stated, fails: on both example filenames the channel index is
    outside {1, 3, 5}. *)
Lemma getChannelIndex_examples_outside_135 :
  (~ In (IM03.getChannelIndex exampleA) [Ok (PyInt 1); Ok (PyInt 3); Ok (PyInt 5)])
  /\ (~ In (IM04.getChannelIndex exampleB) [Ok (PyInt 1); Ok (PyInt 3); Ok (PyInt 5)]).
Proof.
  split; vm_compute; intros H;
    repeat (destruct H as [H | H]; [discriminate H |]); exact H.
Qed.

(** C3, amended: on each example filename getChannelIndex returns 6, the
    value of the one character at index 31 (variant A) or 22 (variant B):
    both examples carry the token CO6. *)
Theorem getChannelIndex_examples :
  slice exampleA 31 32 = "6"
  /\ IM03.getChannelIndex exampleA = Ok (PyInt 6)
  /\ slice exampleB 22 23 = "6"
  /\ IM04.getChannelIndex exampleB = Ok (PyInt 6).
Proof.
  repeat split; vm_compute; reflexivity.
Qed.

(** *** Well row *)

Lemma get_lt_length (s : string) :
  forall n c, String.get n s = Some c -> (n < String.length s)%nat.
Proof.
  induction s as [| a s IH]; intros [| n] c H; simpl in *;
    try discriminate; try lia.
  apply IH in H. lia.
Qed.

Lemma substring_get (s : string) :
  forall n c, String.get n s = Some c -> substring n 1 s = String c "".
Proof.
  induction s as [| a s IH]; intros [| n] c H; simpl in *; try discriminate.
  - injection H as ->. destruct s; reflexivity.
  - now apply IH.
Qed.

(** The one-character slice at an index that holds a character. *)
Lemma slice_char (s : string) (n : nat) (c : ascii) :
  String.get n s = Some c ->
  slice s (Z.of_nat n) (Z.of_nat n + 1) = String c "".
Proof.
  intros H. pose proof (get_lt_length _ _ _ H) as Hlt.
  unfold slice, slice_bound.
  replace (Z.of_nat n <? 0)%Z with false by (symmetry; apply Z.ltb_ge; lia).
  replace (Z.of_nat n + 1 <? 0)%Z with false by (symmetry; apply Z.ltb_ge; lia).
  rewrite !Z.min_l by lia.
  replace (Z.of_nat n + 1 - Z.of_nat n)%Z with 1%Z by lia.
  rewrite Nat2Z.id. now apply substring_get.
Qed.

(** [string.ascii_uppercase.index] on a capital letter. *)
Lemma index_upper (c : ascii) :
  is_upper c = true ->
  str_index ascii_uppercase (String c "") = Ok (code c - 65)%Z.
Proof.
  destruct c as [b0 b1 b2 b3 b4 b5 b6 b7].
  destruct b0, b1, b2, b3, b4, b5, b6, b7; intros H;
    solve [ discriminate H | reflexivity ].
Qed.

Lemma upper_is_nth_letter (c : ascii) :
  is_upper c = true ->
  String.get (Z.to_nat (code c - 65)) ascii_uppercase = Some c.
Proof.
  destruct c as [b0 b1 b2 b3 b4 b5 b6 b7].
  destruct b0, b1, b2, b3, b4, b5, b6, b7; intros H;
    solve [ discriminate H | reflexivity ].
Qed.

(** C6, as stated, fails: with the capital letter Z at the row offset the
    row index is 26, outside 1-8. *)
Lemma getWellRow_Z_is_26 :
  (String.get 10 exampleA_rowZ = Some "Z"%char
   /\ is_upper "Z" = true
   /\ IM03.getWellRow exampleA_rowZ = Ok (PyInt 26)
   /\ (26 <=? 8)%Z = false)
  /\
  (String.get 1 exampleB_rowZ = Some "Z"%char
   /\ IM04.getWellRow exampleB_rowZ = Ok (PyInt 26)).
Proof.
  repeat split; vm_compute; reflexivity.
Qed.

(** C6, amended: when the character at the row offset (index 10 for variant
    A, index 1 for variant B) is a capital letter A-Z, getWellRow returns its
    1-based position [r] in the uppercase alphabet; [r] lies in 1-26, and in
    1-8 exactly for the letters A-H. *)
Theorem getWellRow_letter_position (imageName : string) (c : ascii) :
  is_upper c = true ->
  let r := (code c - 64)%Z in
  (1 <= r <= 26)%Z
  /\ String.get (Z.to_nat (r - 1)) ascii_uppercase = Some c
  /\ (r <= 8 <-> code c <= code "H")%Z
  /\ (String.get 10 imageName = Some c ->
      IM03.getWellRow imageName = Ok (PyInt r))
  /\ (String.get 1 imageName = Some c ->
      IM04.getWellRow imageName = Ok (PyInt r)).
Proof.
  intros Hup r.
  assert (Hrange : (65 <= code c <= 90)%Z).
  { unfold is_upper in Hup. apply andb_true_iff in Hup as [H1 H2].
    apply Z.leb_le in H1, H2. lia. }
  assert (Hrow : forall i j,
             slice imageName i j = String c "" ->
             (i0 <- str_index ascii_uppercase (slice imageName i j) ;;
              Ok (PyInt (i0 + 1))) = Ok (PyInt r)).
  { intros i j ->. rewrite (index_upper c Hup). simpl. unfold r.
    do 2 f_equal. lia. }
  split; [unfold r; lia |].
  split.
  { replace (r - 1)%Z with (code c - 65)%Z by (unfold r; lia).
    now apply upper_is_nth_letter. }
  split; [unfold r; change (code "H") with 72%Z; lia |].
  split; intros Hget.
  - apply (Hrow 10%Z 11%Z). exact (slice_char imageName 10 c Hget).
  - apply (Hrow 1%Z 2%Z). exact (slice_char imageName 1 c Hget).
Qed.

Lemma getWellRow_letter_position_witness :
  is_upper "C" = true
  /\ String.get 10 "WE00003---C003--PO01" = Some "C"%char
  /\ IM03.getWellRow "WE00003---C003--PO01" = Ok (PyInt 3).
Proof.
  split; [reflexivity |]. split; [reflexivity |].
  exact (proj1 (proj2 (proj2 (proj2
           (getWellRow_letter_position "WE00003---C003--PO01" "C" eq_refl))))
           eq_refl).
Defined.

(** *** The lookup tables *)

(** A float equal ([==]) to a finite non-zero float is that float. *)
Lemma feqb_finite (f : float) (s : bool) (m : positive) (e : Z) :
  feqb f (S754_finite s m e) = true -> f = S754_finite s m e.
Proof.
  unfold feqb, SFeqb, SFcompare.
  destruct f as [s0 | s0 | | s0 m0 e0]; try (destruct s0; discriminate);
    try (destruct s; discriminate).
  destruct s0, s; try discriminate;
    destruct (Z.compare_spec e0 e) as [-> | |]; try discriminate;
    change (Pos.compare_cont Eq m0 m) with (Pos.compare m0 m);
    destruct (Pos.compare_spec m0 m) as [-> | |]; try discriminate;
    reflexivity.
Qed.

(** A number equal to one of the four pixel sizes is that float: no key is a
    whole number, so no [int] equals one. *)
Lemma num_eqb_key (p k : pynum) :
  In k [px_2x; px_4x; px_10x; px_20x] ->
  num_eqb p k = true -> p = k.
Proof.
  intros Hk H.
  destruct p as [z | f].
  - exfalso. simpl in Hk.
    destruct Hk as [<- | [<- | [<- | [<- | []]]]]; cbv in H; discriminate H.
  - simpl in Hk.
    destruct Hk as [<- | [<- | [<- | [<- | []]]]];
      apply feqb_finite in H; now subst f.
Qed.

(** Every hit in pixelSizeToMag is one of its four items. *)
Lemma pixelSizeToMag_hit (p mag : pynum) :
  get IM.pixelSizeToMag p = Some mag ->
  (p = px_2x /\ mag = PyInt 2)
  \/ (p = px_4x /\ mag = PyInt 4)
  \/ (p = px_10x /\ mag = PyInt 10)
  \/ (p = px_20x /\ mag = PyInt 20).
Proof.
  unfold IM.pixelSizeToMag, get.
  fold px_2x px_4x px_10x px_20x.
  destruct (num_eqb p px_2x) eqn:H1;
    [intros [= <-]; apply num_eqb_key in H1; simpl; auto |].
  destruct (num_eqb p px_4x) eqn:H2;
    [intros [= <-]; apply num_eqb_key in H2; simpl; auto |].
  destruct (num_eqb p px_10x) eqn:H3;
    [intros [= <-]; apply num_eqb_key in H3; simpl; auto |].
  destruct (num_eqb p px_20x) eqn:H4;
    [intros [= <-]; apply num_eqb_key in H4; simpl; auto 6 | discriminate].
Qed.

Lemma pixelSizeToNA_hit (p na : pynum) :
  get IM.pixelSizeToNA p = Some na ->
  (p = px_2x /\ na = dec 6 (-2))
  \/ (p = px_4x /\ na = dec 13 (-2))
  \/ (p = px_10x /\ na = dec 3 (-1))
  \/ (p = px_20x /\ na = dec 45 (-2)).
Proof.
  unfold IM.pixelSizeToNA, get.
  fold px_2x px_4x px_10x px_20x.
  destruct (num_eqb p px_2x) eqn:H1;
    [intros [= <-]; apply num_eqb_key in H1; simpl; auto |].
  destruct (num_eqb p px_4x) eqn:H2;
    [intros [= <-]; apply num_eqb_key in H2; simpl; auto |].
  destruct (num_eqb p px_10x) eqn:H3;
    [intros [= <-]; apply num_eqb_key in H3; simpl; auto |].
  destruct (num_eqb p px_20x) eqn:H4;
    [intros [= <-]; apply num_eqb_key in H4; simpl; auto 6 | discriminate].
Qed.

(** C9: pixelSizeToMag and pixelSizeToNA have exactly the keys 3.25, 1.625,
    0.650 and 0.325 (a number is in either table exactly when it equals one
    of them); magToNA sends the magnification of every pixel size to the
    numerical aperture of that pixel size; magToNA maps 40 to 0.6, and 40 is
    not a value of pixelSizeToMag, so getObjectiveMagnification returns 40
    for no filename of either variant.  The tables are constants: no
    operation takes or returns a table. *)
Theorem lookup_tables_consistent :
  keys IM.pixelSizeToMag = [px_2x; px_4x; px_10x; px_20x]
  /\ keys IM.pixelSizeToNA = [px_2x; px_4x; px_10x; px_20x]
  /\ (forall p : pynum,
        contains IM.pixelSizeToMag p
        = existsb (num_eqb p) [px_2x; px_4x; px_10x; px_20x]
        /\ contains IM.pixelSizeToNA p
           = existsb (num_eqb p) [px_2x; px_4x; px_10x; px_20x])
  /\ (forall p mag : pynum,
        get IM.pixelSizeToMag p = Some mag ->
        exists na, get IM.pixelSizeToNA p = Some na
                   /\ get IM.magToNA mag = Some na)
  /\ get IM.magToNA (PyInt 40) = Some (dec 6 (-1))
  /\ (forall p mag : pynum,
        get IM.pixelSizeToMag p = Some mag -> num_eqb mag (PyInt 40) = false)
  /\ (forall (imageName : string) (mag : pynum),
        num_eqb mag (PyInt 40) = true ->
        IM03.getObjectiveMagnification imageName <> Ok mag
        /\ IM04.getObjectiveMagnification imageName <> Ok mag).
Proof.
  split; [reflexivity |]. split; [reflexivity |].
  split.
  { intros p. unfold contains, IM.pixelSizeToMag, IM.pixelSizeToNA, get.
    fold px_2x px_4x px_10x px_20x. simpl.
    destruct (num_eqb p px_2x), (num_eqb p px_4x), (num_eqb p px_10x),
      (num_eqb p px_20x); split; reflexivity. }
  split.
  { intros p mag H.
    destruct (pixelSizeToMag_hit p mag H)
      as [[-> ->] | [[-> ->] | [[-> ->] | [-> ->]]]];
      eexists; split; reflexivity. }
  split; [reflexivity |].
  split.
  { intros p mag H.
    destruct (pixelSizeToMag_hit p mag H)
      as [[-> ->] | [[-> ->] | [[-> ->] | [-> ->]]]]; reflexivity. }
  intros imageName mag H40. split.
  - unfold IM03.getObjectiveMagnification, IM03.IM03_getPixelSize_um.
    simpl. discriminate.
  - unfold IM04.getObjectiveMagnification.
    destruct (IM04.getPixelSize_um imageName) as [p | e]; unfold bind;
      [| discriminate].
    destruct (get IM.pixelSizeToMag p) as [m |] eqn:Hget; [| discriminate].
    intros Heq. injection Heq as ->.
    destruct (pixelSizeToMag_hit p mag Hget)
      as [[_ ->] | [[_ ->] | [[_ ->] | [_ ->]]]]; discriminate H40.
Qed.

(** *** Objective magnification and numerical aperture *)

(** C2, as stated, fails: the error of a lookup miss does not report the
    missing key.  The pixel sizes 4.0 and 5.0 are both absent from the
    tables, and both raise the same [KeyError], whose argument is a fixed
    message. *)
Lemma lookup_miss_error_omits_key :
  IM04.getPixelSize_um exampleB_px4 = Ok (dec 4 0)
  /\ IM04.getPixelSize_um exampleB_px5 = Ok (dec 5 0)
  /\ num_eqb (dec 4 0) (dec 5 0) = false
  /\ IM04.getObjectiveMagnification exampleB_px4 = Raise mag_miss
  /\ IM04.getObjectiveMagnification exampleB_px5 = Raise mag_miss
  /\ IM04.getObjectiveNA exampleB_px4 = Raise na_miss
  /\ IM04.getObjectiveNA exampleB_px5 = Raise na_miss.
Proof.
  repeat split; vm_compute; reflexivity.
Qed.

(** IM03.getObjectiveMagnification reads the pixel size through the
    attribute IM03.getPixelSize_um, which does not exist: it raises
    [AttributeError] on every filename. *)
Lemma IM03_getObjectiveMagnification_raises (imageName : string) :
  IM03.getObjectiveMagnification imageName = Raise AttributeError.
Proof. reflexivity. Qed.

Lemma existsb_keys_false (p : pynum) :
  existsb (num_eqb p) [px_2x; px_4x; px_10x; px_20x] = false ->
  num_eqb p px_2x = false /\ num_eqb p px_4x = false
  /\ num_eqb p px_10x = false /\ num_eqb p px_20x = false.
Proof.
  simpl. destruct (num_eqb p px_2x), (num_eqb p px_4x), (num_eqb p px_10x),
    (num_eqb p px_20x); intros H; try discriminate H; auto.
Qed.

Lemma get_mag_miss (p : pynum) :
  existsb (num_eqb p) [px_2x; px_4x; px_10x; px_20x] = false ->
  get IM.pixelSizeToMag p = None.
Proof.
  intros H. apply existsb_keys_false in H as (H1 & H2 & H3 & H4).
  unfold IM.pixelSizeToMag, get. fold px_2x px_4x px_10x px_20x.
  now rewrite H1, H2, H3, H4.
Qed.

Lemma get_na_miss (p : pynum) :
  existsb (num_eqb p) [px_2x; px_4x; px_10x; px_20x] = false ->
  get IM.pixelSizeToNA p = None.
Proof.
  intros H. apply existsb_keys_false in H as (H1 & H2 & H3 & H4).
  unfold IM.pixelSizeToNA, get. fold px_2x px_4x px_10x px_20x.
  now rewrite H1, H2, H3, H4.
Qed.

Ltac lookup_case :=
  match goal with
  | H : num_eqb _ _ = true |- _ =>
      apply num_eqb_key in H; [subst; reflexivity | simpl; auto 6]
  | H : existsb _ _ = false |- _ =>
      rewrite ?(get_mag_miss _ H), ?(get_na_miss _ H); reflexivity
  end.

(** C2, amended: for IM04.getObjectiveMagnification, IM04.getObjectiveNA and
    IM03.getObjectiveNA and every filename whose pixel size decodes to [p]:
    when [p] equals 3.25, 1.625, 0.650 or 0.325 the magnification is 2, 4, 10
    or 20 and the numerical aperture 0.06, 0.13, 0.3 or 0.45; when [p]
    equals none of them the operation raises [KeyError] with the fixed
    message naming the table (not the value of [p]), and returns no default
    and no nearest match. *)
Theorem objective_lookup_by_pixel_size (imageName : string) (p : pynum) :
  (IM04.getPixelSize_um imageName = Ok p ->
   (num_eqb p px_2x = true ->
    IM04.getObjectiveMagnification imageName = Ok (PyInt 2)
    /\ IM04.getObjectiveNA imageName = Ok (dec 6 (-2)))
   /\ (num_eqb p px_4x = true ->
       IM04.getObjectiveMagnification imageName = Ok (PyInt 4)
       /\ IM04.getObjectiveNA imageName = Ok (dec 13 (-2)))
   /\ (num_eqb p px_10x = true ->
       IM04.getObjectiveMagnification imageName = Ok (PyInt 10)
       /\ IM04.getObjectiveNA imageName = Ok (dec 3 (-1)))
   /\ (num_eqb p px_20x = true ->
       IM04.getObjectiveMagnification imageName = Ok (PyInt 20)
       /\ IM04.getObjectiveNA imageName = Ok (dec 45 (-2)))
   /\ (existsb (num_eqb p) [px_2x; px_4x; px_10x; px_20x] = false ->
       IM04.getObjectiveMagnification imageName = Raise mag_miss
       /\ IM04.getObjectiveNA imageName = Raise na_miss))
  /\
  (IM03.getPixelSize_um imageName = Ok p ->
   (num_eqb p px_2x = true ->
    IM03.getObjectiveNA imageName = Ok (dec 6 (-2)))
   /\ (num_eqb p px_4x = true ->
       IM03.getObjectiveNA imageName = Ok (dec 13 (-2)))
   /\ (num_eqb p px_10x = true ->
       IM03.getObjectiveNA imageName = Ok (dec 3 (-1)))
   /\ (num_eqb p px_20x = true ->
       IM03.getObjectiveNA imageName = Ok (dec 45 (-2)))
   /\ (existsb (num_eqb p) [px_2x; px_4x; px_10x; px_20x] = false ->
       IM03.getObjectiveNA imageName = Raise na_miss)).
Proof.
  split; intros Hp.
  - unfold IM04.getObjectiveMagnification, IM04.getObjectiveNA.
    rewrite Hp. unfold bind.
    repeat split; intros; lookup_case.
  - unfold IM03.getObjectiveNA. rewrite Hp. unfold bind.
    repeat split; intros; lookup_case.
Qed.

Lemma objective_lookup_by_pixel_size_witness :
  IM04.getPixelSize_um exampleB = Ok px_2x
  /\ num_eqb px_2x px_2x = true
  /\ IM04.getObjectiveMagnification exampleB = Ok (PyInt 2)
  /\ IM04.getObjectiveNA exampleB = Ok (dec 6 (-2)).
Proof.
  split; [vm_compute; reflexivity |]. split; [vm_compute; reflexivity |].
  exact (proj1 (proj1 (objective_lookup_by_pixel_size exampleB px_2x)
                  eq_refl) eq_refl).
Defined.

(** *** The status client *)







(** A response that holds a separator splits at its first one. *)
Lemma first_separator_split (out : list byte) :
  In x1f out ->
  exists pre rest, out = pre ++ x1f :: rest /\ ~ In x1f pre.
Proof.
  induction out as [| y out IH]; intros Hin; [destruct Hin |].
  destruct (Byte.byte_eq_dec y x1f) as [-> | Hy].
  - exists [], out. split; [reflexivity | intros []].
  - destruct Hin as [-> | Hin]; [congruence |].
    destruct (IH Hin) as (pre & rest & -> & Hpre).
    exists (y :: pre), rest. split; [reflexivity |].
    intros [-> | H]; [congruence | now apply Hpre].
Qed.










(** *** Exactly representable results *)

Lemma iter_pos_eq {A : Type} (f : A -> A) (n : positive) (x : A) :
  iter_pos f n x = Pos.iter f x n.
Proof.
  revert x. induction n as [n IH | n IH |]; intros x; cbn [iter_pos Pos.iter].
  - rewrite !IH. rewrite <- !Pos.iter_swap. reflexivity.
  - rewrite !IH. reflexivity.
  - reflexivity.
Qed.

Lemma digits2_pos_size (p : positive) : digits2_pos p = Pos.size p.
Proof. induction p; cbn; congruence. Qed.

Lemma digits2_log2 (p : positive) :
  Zpos (digits2_pos p) = Z.log2 (Zpos p) + 1.
Proof.
  rewrite digits2_pos_size. destruct p; cbn; lia.
Qed.

Lemma shiftl_pos (m : positive) (k : positive) :
  Zpos (Pos.iter xO m k) = Zpos m * 2 ^ Zpos k.
Proof.
  induction k as [| k IH] using Pos.peano_ind.
  - cbn. lia.
  - rewrite Pos.iter_succ, Pos2Z.inj_xO, IH, Pos2Z.inj_succ, Z.pow_succ_r by lia.
    lia.
Qed.

Lemma digits2_shiftl (m k : positive) :
  Zpos (digits2_pos (Pos.iter xO m k)) = Zpos (digits2_pos m) + Zpos k.
Proof.
  induction k as [| k IH] using Pos.peano_ind.
  - cbn. lia.
  - rewrite Pos.iter_succ. cbn [digits2_pos].
    rewrite Pos2Z.inj_succ, IH. lia.
Qed.

(** Shifting out zeros loses nothing. *)
Lemma shr_exact (k m : positive) :
  iter_pos shr_1 k
    {| shr_m := Zpos (Pos.iter xO m k); shr_r := false; shr_s := false |}
  = {| shr_m := Zpos m; shr_r := false; shr_s := false |}.
Proof.
  rewrite iter_pos_eq. revert m.
  induction k as [| k IH] using Pos.peano_ind; intros m.
  - reflexivity.
  - rewrite Pos.iter_succ_r, Pos.iter_succ. cbn [shr_1 orb]. apply IH.
Qed.

(** A mantissa already at its exponent is kept as it is. *)
Lemma binary_round_aux_canonical (s : bool) (m : positive) (e : Z) :
  fexp prec emax (Zpos (digits2_pos m) + e) = e -> e <= 971 ->
  binary_round_aux prec emax s (Zpos m) e loc_Exact = S754_finite s m e.
Proof.
  intros Hfexp He.
  unfold binary_round_aux, shr_fexp. cbn [Zdigits2 shr_record_of_loc].
  rewrite Hfexp, Z.sub_diag. cbn [shr shr_m loc_of_shr_record round_nearest_even].
  cbn [Zdigits2 shr_record_of_loc].
  rewrite Hfexp, Z.sub_diag. cbn [shr shr_m].
  replace (e <=? emax - prec) with true
    by (symmetry; apply Z.leb_le; unfold emax, prec; lia).
  reflexivity.
Qed.

(** A mantissa with [k] zeros too many loses them. *)
Lemma binary_round_aux_shift (s : bool) (q k : positive) (e : Z) :
  fexp prec emax (Zpos (digits2_pos (Pos.iter xO q k)) + e) = e + Zpos k ->
  e + Zpos k <= 971 ->
  binary_round_aux prec emax s (Zpos (Pos.iter xO q k)) e loc_Exact
  = S754_finite s q (e + Zpos k).
Proof.
  intros Hfexp He.
  unfold binary_round_aux, shr_fexp. cbn [Zdigits2 shr_record_of_loc].
  rewrite Hfexp. replace (e + Zpos k - e) with (Zpos k) by lia.
  cbn [shr]. rewrite shr_exact.
  cbn [shr_m loc_of_shr_record round_nearest_even Zdigits2 shr_record_of_loc].
  assert (Hq : fexp prec emax (Zpos (digits2_pos q) + (e + Zpos k))
               = e + Zpos k).
  { rewrite digits2_shiftl in Hfexp. rewrite <- Hfexp at 2. f_equal. lia. }
  rewrite Hq.
  rewrite Z.sub_diag. cbn [shr shr_m].
  replace (e + Zpos k <=? emax - prec) with true
    by (symmetry; apply Z.leb_le; unfold emax, prec; lia).
  reflexivity.
Qed.

Lemma fexp_eq (d : Z) : fexp prec emax d = Z.max (d - 53) (-1074).
Proof. reflexivity. Qed.

Lemma to_pos_shiftl (p : positive) (k : positive) :
  Z.to_pos (Zpos p * 2 ^ Zpos k) = Pos.iter xO p k.
Proof. rewrite <- shiftl_pos. reflexivity. Qed.

Lemma digits2_bound (p : positive) (n : Z) :
  0 <= n -> Zpos p < 2 ^ n -> Zpos (digits2_pos p) <= n.
Proof.
  intros Hn Hlt. rewrite digits2_log2.
  assert (Z.log2 (Zpos p) < n) by (apply Z.log2_lt_pow2; lia). lia.
Qed.

(** Rounding [p * 2^j] at exponent [g - j], when [p] fits the mantissa. *)
Lemma binary_round_exact (s : bool) (p : positive) (j g : Z) :
  Zpos p < 2 ^ 53 -> 0 <= j -> -1074 <= g -> g <= 900 ->
  let t := fexp prec emax (Zpos (digits2_pos p) + g) in
  binary_round prec emax s (Z.to_pos (Zpos p * 2 ^ j)) (g - j)
  = S754_finite s (Z.to_pos (Zpos p * 2 ^ (g - t))) t.
Proof.
  intros Hp Hj Hg1 Hg2 t.
  pose proof (digits2_bound p 53 ltac:(lia) Hp) as Hd.
  assert (Hpos : 0 < Zpos (digits2_pos p)) by lia.
  assert (Ht : t <= g) by (unfold t; rewrite fexp_eq; lia).
  assert (Ht2 : t <= 971) by lia.
  assert (Hdig : Zpos (digits2_pos (Z.to_pos (Zpos p * 2 ^ j)))
                 = Zpos (digits2_pos p) + j).
  { destruct j as [| j | j]; [| | lia].
    - rewrite Z.pow_0_r, Z.mul_1_r. cbn [Z.to_pos]. lia.
    - rewrite to_pos_shiftl. apply digits2_shiftl. }
  unfold binary_round. rewrite Hdig.
  replace (Zpos (digits2_pos p) + j + (g - j))
    with (Zpos (digits2_pos p) + g) by lia.
  fold t. unfold shl_align.
  destruct (t - (g - j)) as [| k | d] eqn:Hk.
  - (* already aligned *)
    assert (Hj' : j = g - t) by lia.
    rewrite binary_round_aux_canonical.
    + rewrite Hj' at 1. f_equal. lia.
    + rewrite Hdig.
      replace (Zpos (digits2_pos p) + j + (g - j))
        with (Zpos (digits2_pos p) + g) by lia.
      fold t. lia.
    + lia.
  - (* [k] zeros to drop *)
    assert (Hjk : j = (g - t) + Zpos k) by lia.
    assert (Hgt : 0 <= g - t) by lia.
    replace (Z.to_pos (Zpos p * 2 ^ j))
      with (Pos.iter xO (Z.to_pos (Zpos p * 2 ^ (g - t))) k).
    2:{ rewrite <- to_pos_shiftl. f_equal. rewrite Z2Pos.id by lia.
        rewrite Hjk, Z.pow_add_r by lia. lia. }
    rewrite binary_round_aux_shift; [f_equal; lia | | lia].
    { rewrite digits2_shiftl.
      assert (Hd2 : Zpos (digits2_pos (Z.to_pos (Zpos p * 2 ^ (g - t))))
                    = Zpos (digits2_pos p) + (g - t)).
      { destruct (g - t) as [| u | u] eqn:Hu; [| | lia].
        - rewrite Z.pow_0_r, Z.mul_1_r. cbn [Z.to_pos]. lia.
        - rewrite to_pos_shiftl. apply digits2_shiftl. }
      rewrite Hd2.
      replace (Zpos (digits2_pos p) + (g - t) + Zpos k + (g - j))
        with (Zpos (digits2_pos p) + g) by lia.
      fold t. lia. }
  - (* shift left to the exponent *)
    assert (Hd' : Zpos d = (g - j) - t) by lia.
    rewrite binary_round_aux_canonical.
    + do 2 f_equal. rewrite <- to_pos_shiftl. f_equal.
      rewrite Z2Pos.id by lia.
      rewrite Hd', <- Z.mul_assoc, <- Z.pow_add_r by lia. do 2 f_equal. lia.
    + rewrite digits2_shiftl, Hdig.
      replace (Zpos (digits2_pos p) + j + Zpos d + t)
        with (Zpos (digits2_pos p) + g) by lia.
      reflexivity.
    + lia.
Qed.

Lemma pow2_pos (k : Z) : 0 <= k -> 0 < 2 ^ k.
Proof. intros. apply Z.pow_pos_nonneg; lia. Qed.

(** Normalising [N * 2^j] at exponent [g - j], when [N] fits the mantissa. *)
Lemma binary_normalize_canon (N j g : Z) :
  Z.abs N < 2 ^ 53 -> 0 <= j -> -1074 <= g -> g <= 900 ->
  binary_normalize prec emax (N * 2 ^ j) (g - j) false = canon N g.
Proof.
  intros HN Hj Hg1 Hg2. pose proof (pow2_pos j Hj) as H2.
  destruct N as [| p | p].
  - reflexivity.
  - replace (Zpos p * 2 ^ j) with (Zpos (Z.to_pos (Zpos p * 2 ^ j)))
      by (rewrite Z2Pos.id; lia).
    cbn [binary_normalize]. rewrite binary_round_exact by (cbn in HN; lia).
    reflexivity.
  - replace (Zneg p * 2 ^ j) with (Zneg (Z.to_pos (Zpos p * 2 ^ j)))
      by (rewrite <- Pos2Z.opp_pos, Z2Pos.id; lia).
    cbn [binary_normalize]. rewrite binary_round_exact by (cbn in HN; lia).
    reflexivity.
Qed.

(** [float(z)] for an [int] that fits the mantissa. *)
Lemma float_of_int_canon (z : Z) :
  Z.abs z < 2 ^ 53 -> float_of_int z = Ok (canon z 0).
Proof.
  intros Hz. unfold float_of_int.
  replace z with (z * 2 ^ 0) at 1 by (rewrite Z.pow_0_r; lia).
  change 0 with (0 - 0) at 2.
  rewrite binary_normalize_canon by lia.
  destruct z; reflexivity.
Qed.

(** The sign, mantissa and exponent of [canon N g]. *)
Lemma canon_finite (N g : Z) :
  N <> 0 -> Z.abs N < 2 ^ 53 -> -1074 <= g ->
  exists s m t,
    canon N g = S754_finite s m t
    /\ cond_Zopp s (Zpos m) = N * 2 ^ (g - t)
    /\ t <= g /\ -1074 <= t.
Proof.
  intros HN Hlt Hg.
  assert (Ht : forall p, Zpos p < 2 ^ 53 ->
               fexp prec emax (Zpos (digits2_pos p) + g) <= g
               /\ -1074 <= fexp prec emax (Zpos (digits2_pos p) + g)).
  { intros p Hp. pose proof (digits2_bound p 53 ltac:(lia) Hp).
    rewrite fexp_eq. lia. }
  destruct N as [| p | p]; [congruence | |];
    destruct (Ht p ltac:(cbn in Hlt; lia)) as [Ht1 Ht2];
    eexists _, _, _; (split; [reflexivity |]); cbn [Zdigits2 Z.abs];
    (split; [| split; assumption]);
    pose proof (pow2_pos (g - fexp prec emax (Zpos (digits2_pos p) + g))
                  ltac:(lia)).
  - cbn [Z.ltb Z.compare cond_Zopp]. rewrite Z2Pos.id; lia.
  - cbn [Z.ltb Z.compare cond_Zopp]. rewrite Z2Pos.id; lia.
Qed.

Lemma shl_align_val (m : positive) (e e' : Z) :
  e' <= e -> Zpos (fst (shl_align m e e')) = Zpos m * 2 ^ (e - e').
Proof.
  intros He. unfold shl_align.
  destruct (e' - e) as [| d | d] eqn:Hd; cbn [fst]; try lia.
  - replace (e - e') with 0 by lia. rewrite Z.pow_0_r. lia.
  - rewrite shiftl_pos. do 2 f_equal. lia.
Qed.

Lemma cond_Zopp_mul (s : bool) (x y : Z) :
  cond_Zopp s (x * y) = cond_Zopp s x * y.
Proof. destruct s; cbn; lia. Qed.

Lemma pow2_add (x y : Z) : 0 <= x -> 0 <= y -> 2 ^ x * 2 ^ y = 2 ^ (x + y).
Proof. intros. now rewrite Z.pow_add_r. Qed.

(** The aligned signed mantissa of a canonical float. *)
Lemma aligned_mantissa (N g t ez : Z) (s : bool) (m : positive) :
  cond_Zopp s (Zpos m) = N * 2 ^ (g - t) -> t <= g -> ez <= t ->
  cond_Zopp s (Zpos (fst (shl_align m t ez))) = N * 2 ^ (g - ez).
Proof.
  intros Hm Ht Hez.
  rewrite shl_align_val, cond_Zopp_mul, Hm by lia.
  rewrite <- Z.mul_assoc, pow2_add by lia. do 2 f_equal. lia.
Qed.

(** Sums and differences that fit the mantissa are exact. *)
Lemma canon_add (A a B b : Z) :
  A <> 0 -> B <> 0 -> Z.abs A < 2 ^ 53 -> Z.abs B < 2 ^ 53 ->
  -1074 <= a <= 900 -> -1074 <= b <= 900 ->
  let g := Z.min a b in
  let N := A * 2 ^ (a - g) + B * 2 ^ (b - g) in
  Z.abs N < 2 ^ 53 ->
  fadd (canon A a) (canon B b) = canon N g.
Proof.
  intros HA HB HlA HlB Ha Hb g N HN.
  destruct (canon_finite A a HA HlA ltac:(lia))
    as (sA & mA & tA & -> & HmA & HtA & HtA').
  destruct (canon_finite B b HB HlB ltac:(lia))
    as (sB & mB & tB & -> & HmB & HtB & HtB').
  unfold fadd. cbn [SFadd].
  set (ez := Z.min tA tB).
  rewrite (aligned_mantissa A a tA ez sA mA), (aligned_mantissa B b tB ez sB mB)
    by (unfold ez; lia).
  assert (Hez : ez <= g) by (unfold ez, g; lia).
  replace (A * 2 ^ (a - ez) + B * 2 ^ (b - ez)) with (N * 2 ^ (g - ez)).
  2:{ unfold N. rewrite Z.mul_add_distr_r, <- !Z.mul_assoc, !pow2_add
        by (unfold g; lia).
      f_equal; do 2 f_equal; lia. }
  replace ez with (g - (g - ez)) at 2 by lia.
  apply binary_normalize_canon; unfold g in *; lia.
Qed.

Lemma canon_sub (A a B b : Z) :
  A <> 0 -> B <> 0 -> Z.abs A < 2 ^ 53 -> Z.abs B < 2 ^ 53 ->
  -1074 <= a <= 900 -> -1074 <= b <= 900 ->
  let g := Z.min a b in
  let N := A * 2 ^ (a - g) - B * 2 ^ (b - g) in
  Z.abs N < 2 ^ 53 ->
  fsub (canon A a) (canon B b) = canon N g.
Proof.
  intros HA HB HlA HlB Ha Hb g N HN.
  destruct (canon_finite A a HA HlA ltac:(lia))
    as (sA & mA & tA & -> & HmA & HtA & HtA').
  destruct (canon_finite B b HB HlB ltac:(lia))
    as (sB & mB & tB & -> & HmB & HtB & HtB').
  unfold fsub. cbn [SFsub].
  set (ez := Z.min tA tB).
  rewrite (aligned_mantissa A a tA ez sA mA), (aligned_mantissa B b tB ez sB mB)
    by (unfold ez; lia).
  assert (Hez : ez <= g) by (unfold ez, g; lia).
  replace (A * 2 ^ (a - ez) - B * 2 ^ (b - ez)) with (N * 2 ^ (g - ez)).
  2:{ unfold N. rewrite Z.mul_sub_distr_r, <- !Z.mul_assoc, !pow2_add
        by (unfold g; lia).
      f_equal; do 2 f_equal; lia. }
  replace ez with (g - (g - ez)) at 2 by lia.
  apply binary_normalize_canon; unfold g in *; lia.
Qed.

(** Halving an [int] that fits the mantissa is exact. *)
Lemma ratio_to_float_half (s : bool) (n : positive) :
  Zpos n < 2 ^ 53 ->
  let t := fexp prec emax (Zpos (digits2_pos n) + -1) in
  ratio_to_float s n 2 = S754_finite s (Z.to_pos (Zpos n * 2 ^ (-1 - t))) t.
Proof.
  intros Hn t.
  pose proof (digits2_bound n 53 ltac:(lia) Hn) as Hd.
  assert (Hd0 : 0 < Zpos (digits2_pos n)) by lia.
  assert (Ht : t = Zpos (digits2_pos n) - 54)
    by (unfold t; rewrite fexp_eq; lia).
  unfold ratio_to_float, SFdiv_core_binary.
  cbn [Zdigits2 digits2_pos Pos.succ].
  replace (Z.min (fexp prec emax (Zpos (digits2_pos n) + 0 - (2 + 0))) (0 - 0))
    with (t - 1) by (rewrite fexp_eq; lia).
  replace (0 - 0 - (t - 1)) with (1 - t) by lia.
  destruct (1 - t) as [| u | u] eqn:Hu; try lia.
  rewrite Z.shiftl_mul_pow2 by lia.
  assert (Hsplit : Zpos n * 2 ^ Zpos u
                   = 2 * (2 * (Zpos n * 2 ^ (-1 - t)))).
  { replace (Zpos u) with (1 + (1 + (-1 - t))) by lia.
    rewrite !Z.pow_add_r by lia. change (2 ^ 1) with 2. lia. }
  pose proof (pow2_pos (-1 - t) ltac:(lia)) as Hp2.
  pose proof (Z_div_mod (Zpos n * 2 ^ Zpos u) 2 ltac:(lia)) as Hdm.
  destruct (Z.div_eucl (Zpos n * 2 ^ Zpos u) 2) as [q r].
  destruct Hdm as [Hq Hr].
  assert (r = 0) by lia. subst r.
  assert (Hq' : q = Zpos (Pos.iter xO (Z.to_pos (Zpos n * 2 ^ (-1 - t))) 1)).
  { cbn [Pos.iter]. rewrite Pos2Z.inj_xO, Z2Pos.id by lia. lia. }
  subst q. change (new_location 2 0) with loc_Exact.
  rewrite binary_round_aux_shift.
  - f_equal. lia.
  - rewrite digits2_shiftl.
    assert (Hd2 : Zpos (digits2_pos (Z.to_pos (Zpos n * 2 ^ (-1 - t))))
                  = Zpos (digits2_pos n) + (-1 - t)).
    { destruct (-1 - t) as [| v | v] eqn:Hv; [| | lia].
      - rewrite Z.pow_0_r, Z.mul_1_r. cbn [Z.to_pos]. lia.
      - rewrite to_pos_shiftl. apply digits2_shiftl. }
    rewrite Hd2, fexp_eq. lia.
  - lia.
Qed.

Lemma int_truediv_2 (a : Z) :
  Z.abs a < 2 ^ 53 -> int_truediv a 2 = Ok (canon a (-1)).
Proof.
  intros Ha. unfold int_truediv.
  destruct a as [| p | p]; [reflexivity | |];
    cbn [Z.abs Z.to_pos Z.ltb Z.compare xorb];
    rewrite ratio_to_float_half by (cbn in Ha; lia); reflexivity.
Qed.

Lemma fsub_zero_l (N g : Z) :
  N <> 0 -> fsub (S754_zero false) (canon N g) = canon (- N) g.
Proof. destruct N; [congruence | reflexivity | reflexivity]. Qed.

Lemma fsub_zero_r (N g : Z) :
  N <> 0 -> fsub (canon N g) (S754_zero false) = canon N g.
Proof. destruct N; [congruence | reflexivity | reflexivity]. Qed.

Lemma fadd_zero_l (N g : Z) :
  N <> 0 -> fadd (S754_zero false) (canon N g) = canon N g.
Proof. destruct N; [congruence | reflexivity | reflexivity]. Qed.

Lemma fadd_zero_r (N g : Z) :
  N <> 0 -> fadd (canon N g) (S754_zero false) = canon N g.
Proof. destruct N; [congruence | reflexivity | reflexivity]. Qed.

(** The same value one exponent lower. *)
Lemma canon_double (N g : Z) :
  Z.abs N < 2 ^ 52 -> -1074 < g -> canon (2 * N) (g - 1) = canon N g.
Proof.
  intros HN Hg.
  assert (Hp : forall p, Zpos p < 2 ^ 52 ->
    let t := fexp prec emax (Zpos (digits2_pos p) + g) in
    fexp prec emax (Zpos (digits2_pos p~0) + (g - 1)) = t
    /\ Z.to_pos (Zpos p~0 * 2 ^ (g - 1 - t)) = Z.to_pos (Zpos p * 2 ^ (g - t))).
  { intros p Hlt t.
    pose proof (digits2_bound p 52 ltac:(lia) Hlt) as Hd.
    assert (Ht : t <= g - 1) by (unfold t; rewrite fexp_eq; lia).
    split.
    - cbn [digits2_pos]. unfold t. f_equal. lia.
    - f_equal. replace (g - t) with (1 + (g - 1 - t)) by lia.
      rewrite Z.pow_add_r by lia. change (2 ^ 1) with 2. lia. }
  destruct N as [| p | p]; [reflexivity | |];
    destruct (Hp p ltac:(cbn in HN; lia)) as [E1 E2].
  - change (2 * Zpos p) with (Zpos p~0). unfold canon.
    cbn [Zdigits2 Z.abs Z.ltb Z.compare]. rewrite E1, E2. reflexivity.
  - change (2 * Zneg p) with (Zneg p~0). unfold canon.
    cbn [Zdigits2 Z.abs Z.ltb Z.compare]. rewrite E1, E2. reflexivity.
Qed.

(** Exact sums and differences of integers and half-integers. *)
Lemma fadd_half_int (A B : Z) :
  Z.abs A < 2 ^ 52 -> Z.abs B < 2 ^ 52 -> Z.abs (A + 2 * B) < 2 ^ 53 ->
  fadd (canon A (-1)) (canon B 0) = canon (A + 2 * B) (-1).
Proof.
  intros HA HB HN.
  destruct (Z.eq_dec A 0) as [-> | HA0];
    destruct (Z.eq_dec B 0) as [-> | HB0].
  - reflexivity.
  - change (canon 0 (-1)) with (S754_zero false).
    rewrite fadd_zero_l by lia.
    rewrite Z.add_0_l. change (-1) with (0 - 1).
    now rewrite canon_double by lia.
  - change (canon 0 0) with (S754_zero false).
    rewrite fadd_zero_r by lia. f_equal. lia.
  - pose proof (canon_add A (-1) B 0 HA0 HB0 ltac:(lia) ltac:(lia)
                  ltac:(lia) ltac:(lia)) as E.
    cbv zeta in E. change (Z.min (-1) 0) with (-1) in E.
    change (-1 - -1) with 0 in E. change (0 - -1) with 1 in E.
    rewrite Z.pow_0_r, Z.pow_1_r in E.
    rewrite E by lia. f_equal. lia.
Qed.

Lemma fsub_half_int (A B : Z) :
  Z.abs A < 2 ^ 52 -> Z.abs B < 2 ^ 52 -> Z.abs (A - 2 * B) < 2 ^ 53 ->
  fsub (canon A (-1)) (canon B 0) = canon (A - 2 * B) (-1).
Proof.
  intros HA HB HN.
  destruct (Z.eq_dec A 0) as [-> | HA0];
    destruct (Z.eq_dec B 0) as [-> | HB0].
  - reflexivity.
  - change (canon 0 (-1)) with (S754_zero false).
    rewrite fsub_zero_l by lia.
    replace (0 - 2 * B) with (2 * - B) by lia. change (-1) with (0 - 1).
    now rewrite canon_double by lia.
  - change (canon 0 0) with (S754_zero false).
    rewrite fsub_zero_r by lia. f_equal. lia.
  - pose proof (canon_sub A (-1) B 0 HA0 HB0 ltac:(lia) ltac:(lia)
                  ltac:(lia) ltac:(lia)) as E.
    cbv zeta in E. change (Z.min (-1) 0) with (-1) in E.
    change (-1 - -1) with 0 in E. change (0 - -1) with 1 in E.
    rewrite Z.pow_0_r, Z.pow_1_r in E.
    rewrite E by lia. f_equal. lia.
Qed.

Lemma fsub_int_half (A B : Z) :
  Z.abs A < 2 ^ 52 -> Z.abs B < 2 ^ 52 -> Z.abs (2 * A - B) < 2 ^ 53 ->
  fsub (canon A 0) (canon B (-1)) = canon (2 * A - B) (-1).
Proof.
  intros HA HB HN.
  destruct (Z.eq_dec A 0) as [-> | HA0];
    destruct (Z.eq_dec B 0) as [-> | HB0].
  - reflexivity.
  - change (canon 0 0) with (S754_zero false).
    rewrite fsub_zero_l by lia. f_equal.
  - change (canon 0 (-1)) with (S754_zero false).
    rewrite fsub_zero_r by lia.
    rewrite Z.sub_0_r. change (-1) with (0 - 1).
    now rewrite canon_double by lia.
  - pose proof (canon_sub A 0 B (-1) HA0 HB0 ltac:(lia) ltac:(lia)
                  ltac:(lia) ltac:(lia)) as E.
    cbv zeta in E. change (Z.min 0 (-1)) with (-1) in E.
    change (-1 - -1) with 0 in E. change (0 - -1) with 1 in E.
    rewrite Z.pow_0_r, Z.pow_1_r in E.
    rewrite E by lia. f_equal. lia.
Qed.

(** The bracket of the Y formula, in the order of the source and in the
    order of the documented formula. *)
Lemma bracket_Y (H Y : Z) :
  Z.abs H < 2 ^ 51 -> Z.abs Y < 2 ^ 51 ->
  (h <- truediv (neg (PyInt H)) (PyInt 2) ;;
   t <- add h (PyInt H) ;;
   sub t (PyInt Y))
  = (t <- sub (PyInt H) (PyInt Y) ;;
     h <- truediv (PyInt H) (PyInt 2) ;;
     sub t h).
Proof.
  intros HH HY.
  unfold add, sub, arith. cbn [neg truediv to_float bind].
  rewrite !int_truediv_2 by lia. cbn [bind to_float].
  rewrite !float_of_int_canon by lia. cbn [bind].
  rewrite fadd_half_int by lia. cbn [bind to_float].
  rewrite fsub_half_int by lia.
  rewrite fsub_int_half by lia.
  do 3 f_equal. lia.
Qed.

(** *** Sign symmetry *)

Lemma binary_round_aux_opp (s : bool) (m e : Z) (l : location) :
  binary_round_aux prec emax (negb s) m e l
  = SFopp (binary_round_aux prec emax s m e l).
Proof.
  unfold binary_round_aux.
  destruct (shr_fexp prec emax m e l) as [mrs' e'].
  destruct (shr_fexp prec emax _ e' loc_Exact) as [mrs'' e''].
  destruct (shr_m mrs''); try reflexivity.
  destruct (e'' <=? emax - prec); reflexivity.
Qed.

Lemma ratio_to_float_opp (s : bool) (n d : positive) :
  ratio_to_float (negb s) n d = SFopp (ratio_to_float s n d).
Proof.
  unfold ratio_to_float.
  destruct (SFdiv_core_binary prec emax (Zpos n) 0 (Zpos d) 0) as [[mz ez] lz].
  apply binary_round_aux_opp.
Qed.

Lemma int_truediv_opp (a : Z) :
  a <> 0 ->
  int_truediv (- a) 2 = (f <- int_truediv a 2 ;; Ok (fopp f)).
Proof.
  intros Ha. unfold int_truediv.
  destruct a as [| p | p]; [congruence | |];
    cbn [Z.opp Z.abs Z.to_pos Z.ltb Z.compare xorb].
  - change true with (negb false). rewrite ratio_to_float_opp.
    destruct (ratio_to_float false p 2); reflexivity.
  - change false with (negb true) at 1. rewrite ratio_to_float_opp.
    destruct (ratio_to_float true p 2); reflexivity.
Qed.

Lemma fdiv_opp_l (x y : float) : fdiv (fopp x) y = fopp (fdiv x y).
Proof.
  unfold fdiv, fopp.
  destruct x as [sx | sx | | sx mx ex], y as [sy | sy | | sy my ey];
    try reflexivity; try (destruct sx, sy; reflexivity).
  cbn [SFopp SFdiv].
  destruct (SFdiv_core_binary prec emax (Zpos mx) ex (Zpos my) ey)
    as [[mz ez] lz].
  replace (xorb (negb sx) sy) with (negb (xorb sx sy))
    by (destruct sx, sy; reflexivity).
  apply binary_round_aux_opp.
Qed.

Lemma cond_Zopp_negb (s : bool) (x : Z) :
  cond_Zopp (negb s) x = - cond_Zopp s x.
Proof. destruct s; cbn; lia. Qed.

(** [x - y] is [-y + x], signs of zeros included. *)
Lemma fsub_add_opp (x y : float) : fsub x y = fadd (fopp y) x.
Proof.
  unfold fsub, fadd, fopp.
  destruct x as [sx | sx | | sx mx ex], y as [sy | sy | | sy my ey];
    try reflexivity; try (destruct sx, sy; reflexivity).
  cbn [SFopp SFsub SFadd]. rewrite cond_Zopp_negb, (Z.min_comm ey ex).
  f_equal. lia.
Qed.

(** The bracket of the X formula, in the order of the source and in the
    order of the documented formula. *)
Lemma bracket_X (W X : pynum) :
  W <> PyInt 0 ->
  (h <- truediv (neg W) (PyInt 2) ;; add h X)
  = (h <- truediv W (PyInt 2) ;; sub X h).
Proof.
  intros HW.
  assert (Hsum : forall f : float,
             add (PyFloat (fopp f)) X = sub X (PyFloat f)).
  { intros f. unfold add, sub, arith.
    destruct X as [z | g]; cbn [to_float bind].
    - destruct (float_of_int z); cbn [bind]; [| reflexivity].
      now rewrite fsub_add_opp.
    - now rewrite fsub_add_opp. }
  destruct W as [w | f].
  - assert (Hw : w <> 0) by congruence.
    cbn [neg truediv]. rewrite int_truediv_opp by exact Hw.
    destruct (int_truediv w 2) as [f | e]; cbn [bind]; [apply Hsum | reflexivity].
  - cbn [neg truediv to_float bind].
    change (float_of_int 2) with (Ok (S754_finite false 4503599627370496 (-51))).
    cbn [bind is_zero]. rewrite fdiv_opp_l. apply Hsum.
Qed.

Lemma bind_bracket2 {A B C : Type} (a : result A) (b : A -> result B)
  (r : result B) (k : B -> result C) :
  bind a b = r ->
  bind a (fun h => bind (b h) k) = bind r k.
Proof. intros <-. destruct a; reflexivity. Qed.

Lemma bind_bracket3 {A B C D : Type} (a : result A) (b : A -> result B)
  (c : B -> result C) (r : result C) (k : C -> result D) :
  bind a (fun h => bind (b h) c) = r ->
  bind a (fun h => bind (b h) (fun t => bind (c t) k)) = bind r k.
Proof.
  intros <-. destruct a as [x |]; cbn [bind]; [| reflexivity].
  destruct (b x); reflexivity.
Qed.

Lemma bind_bracket3' {A B C D : Type} (a : result A) (b : result B)
  (c : A -> B -> result C) (r : result C) (k : C -> result D) :
  bind a (fun t => bind b (c t)) = r ->
  bind a (fun t => bind b (fun h => bind (c t h) k)) = bind r k.
Proof.
  intros <-. destruct a as [x |]; cbn [bind]; [| reflexivity].
  destruct b; reflexivity.
Qed.

(** C4, amended: for an integer [Ypix] and an integer [Image_Height], each
    of magnitude below 2^51, for every [Image_Width] other than the [int] 0
    and for all numbers [Xpix], [PixelSize_um], [X0mm], [Y0mm],
    convertXY_PixToIM returns exactly the documented pair: the X formula,
    the inverted-Y formula, each rounded by [round(., 3)].  The brackets
    [-W/2 + Xpix] and [Xpix - W/2] are the same float; the brackets
    [-H/2 + H - Ypix] and [H - Ypix - H/2] are the same float because no
    step of either is rounded at these magnitudes. *)
Theorem convertXY_matches_formula
  (Xpix PixelSize_um X0mm Y0mm Image_Width : pynum) (Ypix Image_Height : Z) :
  Image_Width <> PyInt 0 ->
  Z.abs Ypix < 2 ^ 51 -> Z.abs Image_Height < 2 ^ 51 ->
  IM.convertXY_PixToIM Xpix (PyInt Ypix) PixelSize_um X0mm Y0mm
    Image_Width (PyInt Image_Height)
  = convertXY_spec Xpix (PyInt Ypix) PixelSize_um X0mm Y0mm
      Image_Width (PyInt Image_Height).
Proof.
  intros HW HY HH.
  unfold IM.convertXY_PixToIM, convertXY_spec.
  rewrite (bind_bracket2 _ _ _ _ (bracket_X Image_Width Xpix HW)).
  rewrite (bind_bracket2 (truediv Image_Width (PyInt 2)) _ _ _ eq_refl).
  rewrite (bind_bracket3 _ _ _ _ _ (bracket_Y Image_Height Ypix HH HY)).
  rewrite (bind_bracket3' (sub (PyInt Image_Height) (PyInt Ypix)) _ _ _ _ eq_refl).
  reflexivity.
Qed.

(** C4, as stated, fails: at [Ypix = 2^53 + 1] and [Image_Height = 2] the
    source computes [1.0 - float(Ypix)], which rounds [Ypix] first, and the
    documented order computes [float(2 - Ypix) - 1.0], which rounds last;
    the two Y results are different floats. *)
Lemma convertXY_differs_from_formula :
  IM.convertXY_PixToIM (PyInt 1) (PyInt 9007199254740993) (dec 1000 0)
    zero_pos zero_pos (PyInt 2) (PyInt 2)
  = Ok (zero_pos, PyFloat (S754_finite true 9007199254740991 0))
  /\ convertXY_spec (PyInt 1) (PyInt 9007199254740993) (dec 1000 0)
       zero_pos zero_pos (PyInt 2) (PyInt 2)
     = Ok (zero_pos, PyFloat (S754_finite true 4503599627370496 1))
  /\ num_eqb (PyFloat (S754_finite true 9007199254740991 0))
       (PyFloat (S754_finite true 4503599627370496 1)) = false.
Proof.
  repeat split; vm_compute; reflexivity.
Qed.

Lemma convertXY_matches_formula_witness :
  IM.convertXY_PixToIM (PyInt 100) (PyInt 200) (dec 1625 (-3))
    (dec 32281 (-3)) (dec 10963 (-3)) IM.Image_default (PyInt 2048)
  = convertXY_spec (PyInt 100) (PyInt 200) (dec 1625 (-3))
      (dec 32281 (-3)) (dec 10963 (-3)) IM.Image_default (PyInt 2048).
Proof.
  apply convertXY_matches_formula.
  - discriminate.
  - vm_compute. reflexivity.
  - vm_compute. reflexivity.
Defined.

(** *** The image centre *)



(** *** Quotients of small integers are in range *)

Lemma shr_1_bound (r : shr_record) :
  0 <= shr_m r -> 0 <= shr_m (shr_1 r) <= shr_m r.
Proof.
  destruct r as [m r s]. cbn [shr_m].
  destruct m as [| p | p]; [cbn; lia | | lia].
  destruct p; cbn; lia.
Qed.

Lemma iter_shr_bound (k : positive) (r : shr_record) :
  0 <= shr_m r -> 0 <= shr_m (iter_pos shr_1 k r) <= shr_m r.
Proof.
  rewrite iter_pos_eq. intros Hr.
  induction k as [| k IH] using Pos.peano_ind.
  - apply shr_1_bound, Hr.
  - rewrite Pos.iter_succ.
    pose proof (shr_1_bound (Pos.iter shr_1 r k) ltac:(lia)). lia.
Qed.

Lemma Zdigits2_log2 (m : Z) : 0 < m -> Zdigits2 m = Z.log2 m + 1.
Proof. destruct m as [| p | p]; try lia. intros _. apply digits2_log2. Qed.

Lemma Zdigits2_bound (m n : Z) :
  0 <= n -> 0 <= m < 2 ^ n -> 0 <= Zdigits2 m <= n.
Proof.
  intros Hn [H0 Hlt].
  destruct (Z.eq_dec m 0) as [-> | Hm]; [cbn; lia |].
  rewrite Zdigits2_log2 by lia.
  pose proof (Z.log2_nonneg m).
  assert (Z.log2 m < n) by (apply Z.log2_lt_pow2; lia). lia.
Qed.

Lemma Zdigits2_lt_pow2 (m n : Z) :
  0 <= m -> Zdigits2 m <= n -> m < 2 ^ n.
Proof.
  intros H0 Hd.
  destruct (Z.eq_dec m 0) as [-> | Hm].
  - cbn in Hd. apply Z.pow_pos_nonneg; lia.
  - rewrite Zdigits2_log2 in Hd by lia.
    apply Z.log2_lt_pow2; lia.
Qed.

Lemma shr_fexp_bound (m e : Z) (l : location) :
  0 <= m ->
  exists mrs e1,
    shr_fexp prec emax m e l = (mrs, e1)
    /\ 0 <= shr_m mrs <= m
    /\ e1 <= Z.max e (fexp prec emax (Zdigits2 m + e)).
Proof.
  intros Hm. unfold shr_fexp, shr.
  assert (Hrec : shr_m (shr_record_of_loc m l) = m)
    by (destruct l as [| []]; reflexivity).
  destruct (fexp prec emax (Zdigits2 m + e) - e) as [| k | k] eqn:Hk.
  - eexists _, _. split; [reflexivity |]. rewrite Hrec. lia.
  - eexists _, _. split; [reflexivity |].
    pose proof (iter_shr_bound k (shr_record_of_loc m l) ltac:(lia)).
    rewrite Hrec in *. lia.
  - eexists _, _. split; [reflexivity |]. rewrite Hrec. lia.
Qed.

Lemma round_nearest_even_bound (m : Z) (l : location) :
  m <= round_nearest_even m l <= m + 1.
Proof.
  destruct l as [| []]; cbn; try lia.
  destruct (Z.even m); lia.
Qed.

Lemma binary_round_aux_finite (s : bool) (m e : Z) (l : location) :
  0 <= m -> Zdigits2 m <= 200 -> -2000 <= e <= 0 ->
  is_finite (binary_round_aux prec emax s m e l) = true.
Proof.
  intros Hm Hd He.
  pose proof (Zdigits2_lt_pow2 m 200 Hm Hd) as Hlt.
  pose proof (Zdigits2_bound m 200 ltac:(lia) ltac:(lia)) as Hd0.
  unfold binary_round_aux.
  destruct (shr_fexp_bound m e l Hm) as (mrs' & e1 & -> & Hm1 & He1).
  set (m1 := round_nearest_even (shr_m mrs') (loc_of_shr_record mrs')).
  pose proof (round_nearest_even_bound (shr_m mrs') (loc_of_shr_record mrs'))
    as Hr. fold m1 in Hr.
  destruct (shr_fexp_bound m1 e1 loc_Exact ltac:(lia))
    as (mrs'' & e2 & -> & Hm2 & He2).
  assert (Hd1 : 0 <= Zdigits2 m1 <= 201).
  { apply Zdigits2_bound; [lia |]. split; [lia |].
    replace 201 with (1 + 200) by lia. rewrite Z.pow_add_r by lia.
    change (2 ^ 1) with 2. lia. }
  rewrite !fexp_eq in *.
  destruct (shr_m mrs'') as [| p | p] eqn:Hp; [reflexivity | | lia].
  replace (e2 <=? emax - prec) with true
    by (symmetry; apply Z.leb_le; unfold emax, prec; lia).
  reflexivity.
Qed.

Lemma ratio_to_float_finite (s : bool) (n d : positive) :
  Zpos n < 2 ^ 64 -> Zpos d < 2 ^ 64 ->
  is_finite (ratio_to_float s n d) = true.
Proof.
  intros Hn Hd.
  pose proof (digits2_bound n 64 ltac:(lia) Hn) as Hdn.
  pose proof (digits2_bound d 64 ltac:(lia) Hd) as Hdd.
  unfold ratio_to_float, SFdiv_core_binary. cbn [Zdigits2].
  rewrite fexp_eq.
  set (e' := Z.min _ (0 - 0)).
  assert (He' : -116 <= e' <= 0) by (unfold e'; lia).
  set (m' := match 0 - 0 - e' with
             | 0 => Zpos n
             | Zpos _ => Z.shiftl (Zpos n) (0 - 0 - e')
             | Zneg _ => 0
             end).
  assert (Hm' : 0 <= m' < 2 ^ 180).
  { unfold m'. destruct (0 - 0 - e') as [| u | u] eqn:Hu.
    - split; [lia |]. eapply Z.lt_trans; [exact Hn |].
      apply Z.pow_lt_mono_r; lia.
    - rewrite Z.shiftl_mul_pow2 by lia.
      pose proof (pow2_pos (Zpos u) ltac:(lia)).
      split; [lia |].
      assert (2 ^ Zpos u <= 2 ^ 116) by (apply Z.pow_le_mono_r; lia).
      replace 180 with (64 + 116) by lia. rewrite Z.pow_add_r by lia.
      nia.
    - split; [lia |]. apply Z.pow_pos_nonneg; lia. }
  pose proof (Z_div_mod m' (Zpos d) ltac:(lia)) as Hdm.
  destruct (Z.div_eucl m' (Zpos d)) as [q r]. destruct Hdm as [Hq Hr].
  assert (Hq0 : 0 <= q <= m') by nia.
  apply binary_round_aux_finite; [lia | | lia].
  apply Zdigits2_bound; lia.
Qed.

Lemma int_truediv_ok (a b : Z) :
  Z.abs a < 2 ^ 64 -> 0 < Z.abs b < 2 ^ 64 ->
  exists f, int_truediv a b = Ok f.
Proof.
  intros Ha Hb. unfold int_truediv.
  destruct b as [| pb | pb]; [cbn in Hb; lia | |];
    (destruct a as [| pa | pa]; [eexists; reflexivity | |]);
    cbn [Z.abs Z.to_pos];
    match goal with
    | |- context [ratio_to_float ?s ?n ?d] =>
        pose proof (ratio_to_float_finite s n d
                      ltac:(cbn in Ha; lia) ltac:(cbn in Hb; lia)) as Hfin;
        destruct (ratio_to_float s n d); try discriminate Hfin;
        eexists; reflexivity
    end.
Qed.

(** *** Rounding to three decimals *)

Lemma div_half_even_nearest (num den : Z) :
  0 <= num -> 0 < den ->
  0 <= div_half_even num den <= num / den + 1
  /\ 2 * Z.abs (num - div_half_even num den * den) <= den.
Proof.
  intros Hn Hd. unfold div_half_even.
  pose proof (Z.div_mod num den ltac:(lia)) as Hdm.
  pose proof (Z.mod_pos_bound num den Hd) as Hr.
  pose proof (Z.div_pos num den Hn Hd) as Hq.
  destruct (Z.compare_spec (2 * (num mod den)) den) as [He | Hl | Hg].
  - destruct (Z.even (num / den)); split; nia.
  - split; nia.
  - split; nia.
Qed.











(** *** Parsing *)

Lemma int_of_str_fails (s : string) :
  int_unparsable s -> int_of_str s = Raise ValueError.
Proof.
  intros H. unfold int_unparsable in H. unfold int_of_str in *.
  destruct (split_sign (strip (list_ascii_of_string s))) as [sg body].
  destruct (digit_part body false []) as [ds |]; [| reflexivity].
  exfalso. eapply H. reflexivity.
Qed.

Lemma float_of_str_fails (s : string) :
  float_unparsable s -> float_of_str s = Raise ValueError.
Proof.
  intros H. unfold float_unparsable in H. unfold float_of_str in *.
  destruct (drop_underscores (strip (list_ascii_of_string s)) None) as [l |];
    [| reflexivity].
  destruct (split_sign l) as [sg body].
  destruct (is_word "inf" body || is_word "infinity" body);
    [exfalso; eapply H; reflexivity |].
  destruct (is_word "nan" body); [exfalso; eapply H; reflexivity |].
  destruct (span_digits body) as [ip r1].
  destruct (match r1 with
            | [] => ([], [])
            | c :: r => if (code c =? 46)%Z then span_digits r else ([], r1)
            end) as [fp r2].
  destruct (ip ++ fp) as [| c0 l0]; [reflexivity |].
  destruct (exponent_part r2) as [e |]; [| reflexivity].
  exfalso. eapply H. reflexivity.
Qed.

Lemma int_fails (s : string) :
  int_unparsable s -> int s = Raise ValueError.
Proof. intros H. unfold int. now rewrite int_of_str_fails. Qed.

Lemma float_fails (s : string) :
  float_unparsable s -> float_ s = Raise ValueError.
Proof. intros H. unfold float_. now rewrite float_of_str_fails. Qed.

(** **** The size of a parsed [int] *)

Lemma substring_length_le (s : string) :
  forall n m, (String.length (substring n m s) <= m)%nat.
Proof.
  induction s as [| a s IH]; intros [| n] [| m]; cbn; try lia.
  - specialize (IH 0%nat m). lia.
  - apply IH.
  - apply IH.
Qed.

Lemma slice_length_le (s : string) (i j : Z) :
  0 <= i <= j -> Z.of_nat (String.length (slice s i j)) <= j - i.
Proof.
  intros Hij. unfold slice, slice_bound.
  replace (i <? 0)%Z with false by (symmetry; apply Z.ltb_ge; lia).
  replace (j <? 0)%Z with false by (symmetry; apply Z.ltb_ge; lia).
  set (len := Z.of_nat (String.length s)).
  pose proof (substring_length_le s (Z.to_nat (Z.min i len))
                (Z.to_nat (Z.min j len - Z.min i len))).
  lia.
Qed.

Lemma length_list_ascii (s : string) :
  List.length (list_ascii_of_string s) = String.length s.
Proof. induction s; cbn; congruence. Qed.

Lemma lstrip_length (l : list ascii) :
  (List.length (lstrip l) <= List.length l)%nat.
Proof.
  induction l as [| c l IH]; cbn; [lia |].
  destruct (is_space c); cbn; lia.
Qed.

Lemma strip_length (l : list ascii) :
  (List.length (strip l) <= List.length l)%nat.
Proof.
  unfold strip. rewrite length_rev.
  etransitivity; [apply lstrip_length |]. rewrite length_rev.
  apply lstrip_length.
Qed.

Lemma split_sign_length (l : list ascii) :
  (List.length (snd (split_sign l)) <= List.length l)%nat.
Proof.
  destruct l as [| c l]; cbn; [lia |].
  destruct (code c =? 45)%Z; [cbn; lia |].
  destruct (code c =? 43)%Z; cbn; lia.
Qed.

Lemma digit_part_digits (l : list ascii) :
  forall pd acc ds,
    digit_part l pd acc = Some ds ->
    Forall (fun c => is_digit c = true) acc ->
    Forall (fun c => is_digit c = true) ds
    /\ (List.length ds <= List.length l + List.length acc)%nat.
Proof.
  induction l as [| c l IH]; intros pd acc ds H Hacc; cbn in H.
  - destruct pd; [| discriminate]. injection H as <-.
    split; [now apply Forall_rev | rewrite length_rev; lia].
  - destruct (is_digit c) eqn:Hc.
    + apply IH in H; [| now constructor]. cbn in *. split; [tauto | lia].
    + destruct ((code c =? 95)%Z && pd); [| discriminate].
      apply IH in H; [| assumption]. cbn. split; [tauto | lia].
Qed.

Lemma digits_val_bound (l : list ascii) :
  Forall (fun c => is_digit c = true) l ->
  forall v, 0 <= v ->
  0 <= fold_left (fun v c => 10 * v + digit_val c) l v
  < (v + 1) * 10 ^ Z.of_nat (List.length l).
Proof.
  induction 1 as [| c l Hc _ IH]; intros v Hv.
  - cbn. lia.
  - cbn [fold_left List.length]. rewrite Nat2Z.inj_succ, Z.pow_succ_r by lia.
    unfold is_digit in Hc. apply andb_true_iff in Hc as [H1 H2].
    apply Z.leb_le in H1, H2.
    assert (Hd : 0 <= digit_val c <= 9) by (unfold digit_val; lia).
    specialize (IH (10 * v + digit_val c) ltac:(lia)).
    pose proof (pow2_pos 0 ltac:(lia)).
    assert (0 < 10 ^ Z.of_nat (List.length l))
      by (apply Z.pow_pos_nonneg; lia).
    nia.
Qed.

Lemma int_of_str_bound (s : string) (z : Z) :
  int_of_str s = Ok z -> Z.abs z < 10 ^ Z.of_nat (String.length s).
Proof.
  unfold int_of_str.
  pose proof (strip_length (list_ascii_of_string s)) as Hs.
  rewrite length_list_ascii in Hs.
  pose proof (split_sign_length (strip (list_ascii_of_string s))) as Hb.
  destruct (split_sign (strip (list_ascii_of_string s))) as [sg body].
  cbn [snd] in Hb.
  destruct (digit_part body false []) as [ds |] eqn:Hd; [| discriminate].
  intros [= <-].
  destruct (digit_part_digits _ _ _ _ Hd (Forall_nil _)) as [Hall Hlen].
  pose proof (digits_val_bound ds Hall 0 ltac:(lia)) as Hv.
  fold (digits_val ds) in Hv.
  assert (10 ^ Z.of_nat (List.length ds) <= 10 ^ Z.of_nat (String.length s))
    by (apply Z.pow_le_mono_r; cbn in Hlen; lia).
  destruct sg; lia.
Qed.

(** A six-character [int] divided by 1000. *)
Lemma slice6_div1000 (s : string) (i : Z) (n : pynum) :
  0 <= i -> int (slice s i (i + 6)) = Ok n ->
  exists f, truediv n (PyInt 1000) = Ok (PyFloat f).
Proof.
  intros Hi. unfold int.
  destruct (int_of_str (slice s i (i + 6))) as [z |] eqn:Hz; [| discriminate].
  cbn [bind]. intros [= <-].
  apply int_of_str_bound in Hz.
  pose proof (slice_length_le s i (i + 6) ltac:(lia)) as Hl.
  assert (10 ^ Z.of_nat (String.length (slice s i (i + 6))) <= 10 ^ 6)
    by (apply Z.pow_le_mono_r; lia).
  destruct (int_truediv_ok z 1000) as [f Hf].
  - change (2 ^ 64) with 18446744073709551616.
    change (10 ^ 6) with 1000000 in *. lia.
  - cbn. lia.
  - exists f. cbn [truediv]. rewrite Hf. reflexivity.
Qed.

(** **** Characters that are in no [int] literal *)

Lemma lstrip_in (l : list ascii) (c : ascii) :
  In c l -> is_space c = true \/ In c (lstrip l).
Proof.
  induction l as [| a l IH]; cbn; [tauto |].
  intros [-> | Hin].
  - destruct (is_space c) eqn:E; [now left | right; now left].
  - destruct (is_space a) eqn:E; [now apply IH | right; now right].
Qed.

Lemma strip_in (l : list ascii) (c : ascii) :
  In c l -> is_space c = true \/ In c (strip l).
Proof.
  intros Hin. unfold strip.
  destruct (lstrip_in l c Hin) as [| H1]; [now left |].
  apply in_rev in H1.
  destruct (lstrip_in _ c H1) as [| H2]; [now left |].
  right. now apply in_rev in H2.
Qed.

Lemma digit_part_chars (l : list ascii) :
  forall pd acc ds,
    digit_part l pd acc = Some ds ->
    Forall (fun c => is_digit c || is_underscore c = true) l.
Proof.
  induction l as [| c l IH]; intros pd acc ds H; cbn in H; [constructor |].
  destruct (is_digit c) eqn:Hc.
  - constructor; [now rewrite Hc | eapply IH; eassumption].
  - destruct (code c =? 95)%Z eqn:Hu; cbn in H; [| discriminate].
    destruct pd; [| discriminate].
    constructor; [| eapply IH; eassumption].
    unfold is_underscore. rewrite Hu. apply orb_true_r.
Qed.

Lemma int_of_str_chars (s : string) (z : Z) (c : ascii) :
  int_of_str s = Ok z -> In c (list_ascii_of_string s) ->
  int_char c = true.
Proof.
  unfold int_of_str, int_char. intros H Hin.
  destruct (strip_in _ c Hin) as [-> | Hin'];
    [now rewrite !orb_true_r |].
  destruct (strip (list_ascii_of_string s)) as [| a l] eqn:Hl;
    [destruct Hin' |].
  assert (Hbody : forall body,
             digit_part body false [] <> None -> In c body ->
             is_digit c || is_underscore c = true).
  { intros body Hd Hc.
    destruct (digit_part body false []) as [ds |] eqn:E; [| congruence].
    pose proof (digit_part_chars _ _ _ _ E) as Hall.
    rewrite Forall_forall in Hall. now apply Hall. }
  cbn [split_sign] in H.
  destruct (code a =? 45)%Z eqn:E45; [| destruct (code a =? 43)%Z eqn:E43];
    cbv beta iota in H;
    match type of H with
    | match digit_part ?b false [] with _ => _ end = _ =>
        assert (Hd : digit_part b false [] <> None)
          by (destruct (digit_part b false []); [discriminate | discriminate H])
    end.
  - destruct Hin' as [<- | Hin'].
    + rewrite E45. now rewrite !orb_true_r.
    + apply (Hbody l Hd) in Hin'. apply orb_true_iff in Hin' as [-> | ->];
        now rewrite ?orb_true_r.
  - destruct Hin' as [<- | Hin'].
    + rewrite E43. now rewrite !orb_true_r.
    + apply (Hbody l Hd) in Hin'. apply orb_true_iff in Hin' as [-> | ->];
        now rewrite ?orb_true_r.
  - apply (Hbody (a :: l) Hd) in Hin'.
    apply orb_true_iff in Hin' as [-> | ->]; now rewrite ?orb_true_r.
Qed.

Lemma bad_char_unparsable (s : string) (c : ascii) :
  In c (list_ascii_of_string s) -> int_char c = false -> int_unparsable s.
Proof.
  intros Hin Hc z Hz.
  rewrite (int_of_str_chars s z c Hz Hin) in Hc. discriminate.
Qed.

Lemma int_raises_ValueError (s : string) (e : exn) :
  int s = Raise e -> e = ValueError.
Proof.
  unfold int, int_of_str.
  destruct (split_sign (strip (list_ascii_of_string s))) as [sg body].
  destruct (digit_part body false []); cbn [bind]; [discriminate |].
  now intros [= <-].
Qed.

(** The two coordinates: a failure of the second [int] is reached, since the
    first quotient by 1000 cannot overflow. *)
Lemma xy_parse_failure (s : string) (i j : Z) :
  0 <= i -> 0 <= j ->
  int_unparsable (slice s i (i + 6)) \/ int_unparsable (slice s j (j + 6)) ->
  (X0mm <- (n <- int (slice s i (i + 6)) ;; truediv n (PyInt 1000)) ;;
   Y0mm <- (n <- int (slice s j (j + 6)) ;; truediv n (PyInt 1000)) ;;
   Ok (X0mm, Y0mm)) = Raise ValueError.
Proof.
  intros Hi Hj [HX | HY].
  - rewrite (int_fails _ HX). reflexivity.
  - rewrite (int_fails _ HY).
    destruct (int (slice s i (i + 6))) as [n | e] eqn:En.
    + cbn [bind]. destruct (slice6_div1000 s i n Hi En) as [f ->].
      reflexivity.
    + apply int_raises_ValueError in En. now subst e.
Qed.

Ltac parse_fails :=
  intros;
  repeat match goal with
         | H : int_unparsable _ |- _ => rewrite (int_fails _ H); clear H
         | H : float_unparsable _ |- _ => rewrite (float_fails _ H); clear H
         end;
  reflexivity.

(** C7: for every filename and every numeric field of either variant, when
    the substring at the field's offsets is no [int] literal (no [float]
    literal for the float fields) the decoding operation raises
    [ValueError]; it returns no value.  The lookups of the objective fail
    the same way when the pixel-size substring does not parse.  In
    particular getWellColumn raises as soon as one character at the column
    offsets is none of a digit, white space, a sign or an underscore. *)
Theorem parse_failure_raises_ValueError (imageName : string) :
  ((int_unparsable (slice imageName 74 80)
    \/ int_unparsable (slice imageName 83 89) ->
    IM03.getXYPosition_mm imageName = Raise ValueError)
   /\ (int_unparsable (slice imageName 18 20) ->
       IM03.getWellSubPosition imageName = Raise ValueError)
   /\ (float_unparsable (slice imageName 92 98) ->
       IM03.getZPosition_um imageName = Raise ValueError)
   /\ (float_unparsable (slice imageName 43 48) ->
       IM03.getPixelSize_um imageName = Raise ValueError
       /\ IM03.getObjectiveNA imageName = Raise ValueError)
   /\ (int_unparsable (slice imageName 11 14) ->
       IM03.getWellColumn imageName = Raise ValueError)
   /\ (int_unparsable (slice imageName 2 7) ->
       IM03.getWellIndex imageName = Raise ValueError)
   /\ (int_unparsable (slice imageName 36 39) ->
       IM03.getZSlice imageName = Raise ValueError)
   /\ (int_unparsable (slice imageName 31 32) ->
       IM03.getChannelIndex imageName = Raise ValueError)
   /\ (int_unparsable (slice imageName 24 27) ->
       IM03.getLoopIteration imageName = Raise ValueError)
   /\ (int_unparsable (slice imageName (-14) (-4)) ->
       IM03.getTime imageName = Raise ValueError)
   /\ (int_unparsable (slice imageName 52 56) ->
       IM03.getLightPower imageName = Raise ValueError)
   /\ (int_unparsable (slice imageName 60 64) ->
       IM03.getLightExposure imageName = Raise ValueError)
   /\ (float_unparsable (slice imageName 68 71) ->
       IM03.getTemperature imageName = Raise ValueError))
  /\
  ((int_unparsable (slice imageName 65 71)
    \/ int_unparsable (slice imageName 74 80) ->
    IM04.getXYPosition_mm imageName = Raise ValueError)
   /\ (int_unparsable (slice imageName 9 11) ->
       IM04.getWellSubPosition imageName = Raise ValueError)
   /\ (float_unparsable (slice imageName 83 89) ->
       IM04.getZPosition_um imageName = Raise ValueError)
   /\ (float_unparsable (slice imageName 34 39) ->
       IM04.getPixelSize_um imageName = Raise ValueError
       /\ IM04.getObjectiveMagnification imageName = Raise ValueError
       /\ IM04.getObjectiveNA imageName = Raise ValueError)
   /\ (int_unparsable (slice imageName 2 5) ->
       IM04.getWellColumn imageName = Raise ValueError)
   /\ (int_unparsable (slice imageName 106 111) ->
       IM04.getWellIndex imageName = Raise ValueError)
   /\ (int_unparsable (slice imageName 27 30) ->
       IM04.getZSlice imageName = Raise ValueError)
   /\ (int_unparsable (slice imageName 22 23) ->
       IM04.getChannelIndex imageName = Raise ValueError)
   /\ (int_unparsable (slice imageName 15 18) ->
       IM04.getLoopIteration imageName = Raise ValueError)
   /\ (int_unparsable (slice imageName 92 102) ->
       IM04.getTime imageName = Raise ValueError)
   /\ (int_unparsable (slice imageName 43 47) ->
       IM04.getLightPower imageName = Raise ValueError)
   /\ (int_unparsable (slice imageName 51 55) ->
       IM04.getLightExposure imageName = Raise ValueError)
   /\ (float_unparsable (slice imageName 59 62) ->
       IM04.getTemperature imageName = Raise ValueError))
  /\
  (forall c : ascii,
      int_char c = false ->
      (In c (list_ascii_of_string (slice imageName 11 14)) ->
       IM03.getWellColumn imageName = Raise ValueError)
      /\ (In c (list_ascii_of_string (slice imageName 2 5)) ->
          IM04.getWellColumn imageName = Raise ValueError)).
Proof.
  split; [| split].
  - split.
    { intros H. unfold IM03.getXYPosition_mm.
      apply (xy_parse_failure imageName 74 83); [lia | lia | exact H]. }
    unfold IM03.getWellSubPosition, IM03.getZPosition_um,
      IM03.getObjectiveNA, IM03.getPixelSize_um, IM03.getWellColumn,
      IM03.getWellIndex, IM03.getZSlice, IM03.getChannelIndex,
      IM03.getLoopIteration, IM03.getTime, IM03.getLightPower,
      IM03.getLightExposure, IM03.getTemperature.
    repeat split; parse_fails.
  - split.
    { intros H. unfold IM04.getXYPosition_mm.
      apply (xy_parse_failure imageName 65 74); [lia | lia | exact H]. }
    unfold IM04.getWellSubPosition, IM04.getZPosition_um,
      IM04.getObjectiveMagnification, IM04.getObjectiveNA,
      IM04.getPixelSize_um, IM04.getWellColumn,
      IM04.getWellIndex, IM04.getZSlice, IM04.getChannelIndex,
      IM04.getLoopIteration, IM04.getTime, IM04.getLightPower,
      IM04.getLightExposure, IM04.getTemperature.
    repeat split; parse_fails.
  - intros c Hc. split; intros Hin.
    + unfold IM03.getWellColumn. apply int_fails.
      exact (bad_char_unparsable _ c Hin Hc).
    + unfold IM04.getWellColumn. apply int_fails.
      exact (bad_char_unparsable _ c Hin Hc).
Qed.

Lemma parse_failure_raises_ValueError_witness :
  int_char "x" = false
  /\ In "x"%char (list_ascii_of_string (slice exampleA_badcol 11 14))
  /\ IM03.getWellColumn exampleA_badcol = Raise ValueError.
Proof.
  assert (Hin : In "x"%char (list_ascii_of_string (slice exampleA_badcol 11 14)))
    by (vm_compute; right; left; reflexivity).
  split; [reflexivity |]. split; [exact Hin |].
  exact (proj1 (proj2 (proj2 (parse_failure_raises_ValueError exampleA_badcol))
                  "x"%char eq_refl) Hin).
Defined.

(** *** Slices of truncated and of extended filenames *)

Lemma substring_past (s : string) :
  forall n m, (String.length s <= n)%nat -> substring n m s = "".
Proof.
  induction s as [| c s IH]; intros [| n] [| m] H; simpl in *;
    try reflexivity; try lia; apply IH; lia.
Qed.

Lemma substring_app_l (p s : string) (n m : nat) :
  substring (String.length p + n) m (p ++ s) = substring n m s.
Proof.
  induction p as [| c p IH]; simpl; [reflexivity | exact IH].
Qed.

Lemma substring_app_r (s t : string) :
  forall n m, (n + m <= String.length s)%nat ->
  substring n m (s ++ t) = substring n m s.
Proof.
  induction s as [| c s IH]; intros [| n] [| m] H; simpl in *;
    try reflexivity; try lia.
  - destruct t; reflexivity.
  - f_equal. apply IH. lia.
  - apply IH. lia.
  - apply IH. lia.
Qed.

Lemma string_length_app (p s : string) :
  String.length (p ++ s) = (String.length p + String.length s)%nat.
Proof.
  induction p as [| c p IH]; simpl; [reflexivity | now rewrite IH].
Qed.

(** A slice that starts at or after the end of the string is empty. *)
Lemma slice_short (s : string) (i j : Z) :
  0 <= i -> Z.of_nat (String.length s) <= i -> slice s i j = "".
Proof.
  intros Hi Hlen. unfold slice, slice_bound.
  destruct (Z.ltb_spec i 0) as [? | _]; [lia |].
  apply substring_past. lia.
Qed.

(** [s[-a:-b]] is empty when [s] has no more than [b] characters. *)
Lemma slice_short_neg (s : string) (i j : Z) :
  i < 0 -> j < 0 -> Z.of_nat (String.length s) <= - j -> slice s i j = "".
Proof.
  intros Hi Hj Hlen. unfold slice, slice_bound.
  destruct (Z.ltb_spec i 0) as [_ | ?]; [| lia].
  destruct (Z.ltb_spec j 0) as [_ | ?]; [| lia].
  replace (Z.max 0 (j + Z.of_nat (String.length s))) with 0 by lia.
  replace (Z.to_nat (0 - Z.max 0 (i + Z.of_nat (String.length s)))) with 0%nat by lia.
  generalize (Z.to_nat (Z.max 0 (i + Z.of_nat (String.length s)))).
  intros n. revert n. induction s as [| c s IH]; intros [| n]; simpl; try reflexivity.
  apply IH. simpl in Hlen. lia.
Qed.

(** A slice with bounds counted from the start does not see what is appended
    after its upper bound. *)
Lemma slice_app_r (s t : string) (i j : Z) :
  0 <= i -> 0 <= j <= Z.of_nat (String.length s) ->
  slice (s ++ t) i j = slice s i j.
Proof.
  intros Hi Hj. unfold slice, slice_bound. rewrite string_length_app.
  destruct (Z.ltb_spec i 0) as [? | _]; [lia |].
  destruct (Z.ltb_spec j 0) as [? | _]; [lia |].
  rewrite Nat2Z.inj_add.
  replace (Z.min j (Z.of_nat (String.length s) + Z.of_nat (String.length t)))
    with (Z.min j (Z.of_nat (String.length s))) by lia.
  destruct (Z.le_gt_cases i j) as [Hij | Hij].
  - replace (Z.min i (Z.of_nat (String.length s) + Z.of_nat (String.length t)))
      with (Z.min i (Z.of_nat (String.length s))) by lia.
    apply substring_app_r. lia.
  - replace (Z.to_nat (Z.min j (Z.of_nat (String.length s))
                       - Z.min i (Z.of_nat (String.length s)
                                  + Z.of_nat (String.length t))))
      with 0%nat by lia.
    replace (Z.to_nat (Z.min j (Z.of_nat (String.length s))
                       - Z.min i (Z.of_nat (String.length s))))
      with 0%nat by lia.
    pose proof (substring_length_le (s ++ t)
                  (Z.to_nat (Z.min i (Z.of_nat (String.length s)
                                      + Z.of_nat (String.length t)))) 0) as H1.
    pose proof (substring_length_le s
                  (Z.to_nat (Z.min i (Z.of_nat (String.length s)))) 0) as H2.
    destruct (substring _ 0 (s ++ t)); [| simpl in H1; lia].
    destruct (substring _ 0 s); [reflexivity | simpl in H2; lia].
Qed.

(** A slice with bounds counted from the start moves with the string when a
    prefix is put in front of it. *)
Lemma slice_app_l (p s : string) (i j : Z) :
  0 <= i -> 0 <= j ->
  slice (p ++ s) (Z.of_nat (String.length p) + i) (Z.of_nat (String.length p) + j)
  = slice s i j.
Proof.
  intros Hi Hj. unfold slice, slice_bound. rewrite string_length_app.
  destruct (Z.ltb_spec i 0) as [? | _]; [lia |].
  destruct (Z.ltb_spec j 0) as [? | _]; [lia |].
  destruct (Z.ltb_spec (Z.of_nat (String.length p) + i) 0) as [? | _]; [lia |].
  destruct (Z.ltb_spec (Z.of_nat (String.length p) + j) 0) as [? | _]; [lia |].
  rewrite Nat2Z.inj_add.
  replace (Z.to_nat (Z.min (Z.of_nat (String.length p) + i)
                       (Z.of_nat (String.length p) + Z.of_nat (String.length s))))
    with (String.length p + Z.to_nat (Z.min i (Z.of_nat (String.length s))))%nat
    by lia.
  rewrite substring_app_l. f_equal. lia.
Qed.

(** A slice with bounds counted from the end does not see a prefix put in
    front of a string that is long enough. *)
Lemma slice_neg_app (p s : string) (i j : Z) :
  i < 0 -> j < 0 -> - i <= Z.of_nat (String.length s) ->
  slice (p ++ s) i j = slice s i j.
Proof.
  intros Hi Hj Hlen. unfold slice, slice_bound. rewrite string_length_app.
  destruct (Z.ltb_spec i 0) as [_ | ?]; [| lia].
  destruct (Z.ltb_spec j 0) as [_ | ?]; [| lia].
  rewrite Nat2Z.inj_add.
  replace (Z.to_nat (Z.max 0 (i + (Z.of_nat (String.length p)
                                   + Z.of_nat (String.length s)))))
    with (String.length p
          + Z.to_nat (Z.max 0 (i + Z.of_nat (String.length s))))%nat by lia.
  rewrite substring_app_l. f_equal. lia.
Qed.

(** A slice, character by character. *)
Lemma substring_list (s : string) :
  forall n m,
    list_ascii_of_string (substring n m s)
    = firstn m (skipn n (list_ascii_of_string s)).
Proof.
  induction s as [| c s IH]; intros [| n] [| m]; simpl; try reflexivity.
  - f_equal. apply (IH 0%nat m).
  - apply (IH n 0%nat).
  - apply (IH n (S m)).
Qed.

Lemma list_ascii_inj (s t : string) :
  list_ascii_of_string s = list_ascii_of_string t -> s = t.
Proof.
  intros H. rewrite <- (string_of_list_ascii_of_string s),
              <- (string_of_list_ascii_of_string t).
  now rewrite H.
Qed.

Lemma substring_length (s : string) (n m : nat) :
  (n + m <= String.length s)%nat -> String.length (substring n m s) = m.
Proof.
  intros H. rewrite <- length_list_ascii, substring_list, length_firstn, length_skipn,
    length_list_ascii. lia.
Qed.

Lemma slice_length (s : string) (i j : Z) :
  0 <= i <= j ->
  Z.of_nat (String.length (slice s i j))
  = Z.min j (Z.of_nat (String.length s)) - Z.min i (Z.of_nat (String.length s)).
Proof.
  intros Hij. unfold slice, slice_bound.
  destruct (Z.ltb_spec i 0) as [? | _]; [lia |].
  destruct (Z.ltb_spec j 0) as [? | _]; [lia |].
  rewrite substring_length; lia.
Qed.

(** A slice of a slice. *)
Lemma slice_slice (s : string) (a b c d : Z) :
  0 <= a -> 0 <= c <= d -> a + c <= b ->
  slice (slice s a b) c d = slice s (a + c) (Z.min (a + d) b).
Proof.
  intros Ha Hcd Hb. apply list_ascii_inj.
  assert (Hlen := slice_length s a b ltac:(lia)).
  unfold slice at 1 3. rewrite Hlen. clear Hlen.
  rewrite !substring_list.
  unfold slice, slice_bound.
  destruct (Z.ltb_spec a 0) as [? | _]; [lia |].
  destruct (Z.ltb_spec b 0) as [? | _]; [lia |].
  destruct (Z.ltb_spec c 0) as [? | _]; [lia |].
  destruct (Z.ltb_spec d 0) as [? | _]; [lia |].
  destruct (Z.ltb_spec (a + c) 0) as [? | _]; [lia |].
  destruct (Z.ltb_spec (Z.min (a + d) b) 0) as [? | _]; [lia |].
  rewrite substring_list.
  set (L := list_ascii_of_string s).
  set (len := Z.of_nat (String.length s)).
  rewrite skipn_firstn_comm, firstn_firstn, skipn_skipn.
  f_equal; [lia | f_equal; lia].
Qed.

(** *** Fields of digits *)

Lemma digit_plain (c : ascii) :
  is_digit c = true ->
  is_space c = false /\ (code c =? 45) = false /\ (code c =? 43) = false
  /\ is_underscore c = false /\ lower c = c
  /\ (code c =? 105) = false /\ (code c =? 110) = false.
Proof.
  destruct c as [[] [] [] [] [] [] [] []]; intros H; try discriminate H;
    repeat split; reflexivity.
Qed.

Lemma lstrip_digit (c : ascii) (l : list ascii) :
  is_digit c = true -> lstrip (c :: l) = c :: l.
Proof.
  intros H. simpl. now destruct (digit_plain c H) as (-> & _).
Qed.

Lemma strip_digits (l : list ascii) :
  forallb is_digit l = true -> strip l = l.
Proof.
  intros H. unfold strip.
  destruct l as [| c l]; [reflexivity |].
  simpl in H. apply andb_true_iff in H as [Hc Hl].
  rewrite (lstrip_digit c l Hc).
  assert (Hall : forallb is_digit (rev (c :: l)) = true).
  { rewrite forallb_forall. intros x Hx. apply in_rev in Hx.
    destruct Hx as [<- | Hx]; [exact Hc |].
    rewrite forallb_forall in Hl. now apply Hl. }
  destruct (rev (c :: l)) as [| d r] eqn:Hr.
  - apply (f_equal (@List.length ascii)) in Hr. rewrite length_rev in Hr.
    discriminate Hr.
  - simpl in Hall. apply andb_true_iff in Hall as [Hd _].
    rewrite (lstrip_digit d r Hd), <- Hr. apply rev_involutive.
Qed.

Lemma digit_part_all (l : list ascii) :
  forallb is_digit l = true ->
  forall pd acc, l <> [] \/ pd = true ->
  digit_part l pd acc = Some (rev acc ++ l).
Proof.
  induction l as [| c l IH]; intros H pd acc Hne.
  - destruct Hne as [Hne | ->]; [now elim Hne |].
    simpl. now rewrite app_nil_r.
  - simpl in H. apply andb_true_iff in H as [Hc Hl].
    simpl. rewrite Hc, (IH Hl true (c :: acc)) by now right.
    simpl. now rewrite <- app_assoc.
Qed.

Lemma is_digits_list (s : string) :
  is_digits s = true ->
  list_ascii_of_string s <> []
  /\ forallb is_digit (list_ascii_of_string s) = true.
Proof.
  unfold is_digits. destruct (list_ascii_of_string s); [discriminate |].
  intros H. split; [discriminate | exact H].
Qed.

Lemma split_sign_digits (l : list ascii) :
  forallb is_digit l = true -> split_sign l = (false, l).
Proof.
  destruct l as [| c l]; [reflexivity |]. simpl. intros H.
  apply andb_true_iff in H as [Hc _].
  now destruct (digit_plain c Hc) as (_ & -> & -> & _).
Qed.

(** [int] of a field of digits is the number they spell. *)
Lemma int_digits (s : string) :
  is_digits s = true -> int s = Ok (PyInt (decimal s)).
Proof.
  intros H. destruct (is_digits_list s H) as [Hne Hall].
  unfold int, int_of_str, decimal.
  rewrite (strip_digits _ Hall), (split_sign_digits _ Hall).
  rewrite (digit_part_all _ Hall false []) by now left.
  reflexivity.
Qed.

Lemma decimal_bound (s : string) :
  is_digits s = true -> 0 <= decimal s < 10 ^ Z.of_nat (String.length s).
Proof.
  intros H. destruct (is_digits_list s H) as [_ Hall].
  unfold decimal, digits_val.
  assert (HF : Forall (fun c => is_digit c = true) (list_ascii_of_string s)).
  { apply Forall_forall. now apply forallb_forall. }
  pose proof (digits_val_bound _ HF 0 ltac:(lia)) as Hb.
  rewrite length_list_ascii in Hb. lia.
Qed.

Lemma drop_underscores_digits (l : list ascii) :
  forallb is_digit l = true ->
  forall prev,
    match prev with Some p => is_underscore p = false | None => True end ->
    drop_underscores l prev = Some l.
Proof.
  induction l as [| c l IH]; intros H prev Hp.
  - simpl. destruct prev as [p |]; [now rewrite Hp | reflexivity].
  - simpl in H. apply andb_true_iff in H as [Hc Hl].
    destruct (digit_plain c Hc) as (_ & _ & _ & Hu & _).
    simpl. rewrite Hu.
    assert (Hbad : match prev with
                   | Some p => is_underscore p && negb (is_digit c)
                   | None => false
                   end = false).
    { destruct prev as [p |]; [now rewrite Hp | reflexivity]. }
    rewrite Hbad, (IH Hl (Some c) Hu). reflexivity.
Qed.

Lemma span_digits_all (l : list ascii) :
  forallb is_digit l = true -> span_digits l = (l, []).
Proof.
  induction l as [| c l IH]; intros H; [reflexivity |].
  simpl in H. apply andb_true_iff in H as [Hc Hl].
  simpl. now rewrite Hc, (IH Hl).
Qed.

Lemma is_word_digit (w : string) (c : ascii) (l : list ascii) :
  is_digit c = true ->
  match w with String a _ => is_digit a = false | EmptyString => True end ->
  is_word w (c :: l) = false.
Proof.
  intros Hc Hw. unfold is_word. destruct w as [| a w]; [reflexivity |].
  simpl. destruct (digit_plain c Hc) as (_ & _ & _ & _ & -> & _).
  destruct (Ascii.eqb_spec a c) as [-> | _]; [congruence | reflexivity].
Qed.

(** [float] of a field of digits is the float nearest to the number they
    spell. *)
Lemma float_digits (s : string) :
  is_digits s = true -> float_ s = Ok (dec (decimal s) 0).
Proof.
  intros H. destruct (is_digits_list s H) as [Hne Hall].
  unfold float_, float_of_str, decimal, dec.
  rewrite (strip_digits _ Hall), (drop_underscores_digits _ Hall None I).
  rewrite (split_sign_digits _ Hall).
  destruct (list_ascii_of_string s) as [| c l] eqn:Hl; [now elim Hne |].
  assert (Hc : is_digit c = true).
  { simpl in Hall. now apply andb_true_iff in Hall as [Hc _]. }
  rewrite !(is_word_digit _ c l Hc) by reflexivity.
  cbn [orb].
  rewrite (span_digits_all _ Hall).
  rewrite app_nil_r. cbn [exponent_part List.length Z.of_nat Z.sub Z.opp].
  reflexivity.
Qed.

(** *** A float divided by ten *)

(** The division step, when the dividend has to be shifted left. *)
Lemma SFdiv_core_shifted (m1 e1 m2 e2 e' : Z) :
  Z.min (fexp prec emax (Zdigits2 m1 + e1 - (Zdigits2 m2 + e2))) (e1 - e2) = e' ->
  0 < e1 - e2 - e' ->
  SFdiv_core_binary prec emax m1 e1 m2 e2
  = ((m1 * 2 ^ (e1 - e2 - e')) / m2, e',
     new_location m2 ((m1 * 2 ^ (e1 - e2 - e')) mod m2)).
Proof.
  intros He Hs. unfold SFdiv_core_binary. rewrite He.
  destruct (e1 - e2 - e') as [| s | s] eqn:Es; try lia.
  rewrite Z.shiftl_mul_pow2 by lia.
  unfold Z.div, Z.modulo.
  now destruct (Z.div_eucl (m1 * 2 ^ Zpos s) m2).
Qed.

Lemma new_location_scaled (r : Z) :
  0 <= r ->
  new_location (10 * 2 ^ 49) (r * 2 ^ 49) = new_location 10 r.
Proof.
  intros Hr. unfold new_location.
  change (Z.even (10 * 2 ^ 49)) with true. change (Z.even 10) with true.
  unfold new_location_even.
  destruct (Z.eqb_spec r 0) as [-> | Hn]; [reflexivity |].
  destruct (Z.eqb_spec (r * 2 ^ 49) 0) as [H0 | _]; [lia |].
  f_equal.
  destruct (Z.compare_spec (2 * (r * 2 ^ 49)) (10 * 2 ^ 49)),
    (Z.compare_spec (2 * r) 10); try reflexivity; lia.
Qed.

(** [float(p) / 10.0] is the float nearest to [p / 10]. *)
Lemma fdiv_ten (p : positive) :
  Zpos p < 2 ^ 53 ->
  fdiv (canon (Zpos p) 0) (S754_finite false 5629499534213120 (-49))
  = ratio_to_float false p 10.
Proof.
  intros Hp.
  pose proof (digits2_log2 p) as Hd.
  pose proof (Z.log2_nonneg (Zpos p)) as Hl.
  pose proof (digits2_bound p 53 ltac:(lia) Hp) as Hd53.
  unfold canon. change (Zdigits2 (Zpos p)) with (Zpos (digits2_pos p)).
  rewrite Z.add_0_r, fexp_eq.
  set (d := Zpos (digits2_pos p)) in *.
  replace (Z.max (d - 53) (-1074)) with (d - 53) by lia.
  change (Zpos p <? 0) with false. change (Z.abs (Zpos p)) with (Zpos p).
  replace (0 - (d - 53)) with (53 - d) by lia.
  assert (Hpow : 0 < 2 ^ (53 - d)) by (apply pow2_pos; lia).
  set (m1 := Z.to_pos (Zpos p * 2 ^ (53 - d))).
  assert (Hm1 : Zpos m1 = Zpos p * 2 ^ (53 - d)) by (unfold m1; rewrite Z2Pos.id; lia).
  assert (Hdm1 : Zdigits2 (Zpos m1) = 53).
  { rewrite Zdigits2_log2 by lia. rewrite Hm1, Z.log2_mul_pow2 by lia. lia. }
  unfold fdiv, SFdiv, ratio_to_float.
  rewrite (SFdiv_core_shifted (Zpos m1) (d - 53) 5629499534213120 (-49) (d - 57)).
  2:{ rewrite Hdm1. change (Zdigits2 5629499534213120) with 53.
      rewrite fexp_eq. lia. }
  2:{ lia. }
  rewrite (SFdiv_core_shifted (Zpos p) 0 10 0 (d - 57)).
  2:{ change (Zdigits2 (Zpos p)) with d. change (Zdigits2 10) with 4.
      rewrite fexp_eq. lia. }
  2:{ lia. }
  replace (d - 53 - -49 - (d - 57)) with 53 by lia.
  replace (0 - 0 - (d - 57)) with (57 - d) by lia.
  assert (Hnum : Zpos m1 * 2 ^ 53 = (Zpos p * 2 ^ (57 - d)) * 2 ^ 49).
  { rewrite Hm1, <- !Z.mul_assoc, !pow2_add by lia. do 2 f_equal. lia. }
  rewrite Hnum. change 5629499534213120 with (10 * 2 ^ 49).
  rewrite Z.div_mul_cancel_r by lia.
  rewrite Z.mul_mod_distr_r by lia.
  rewrite new_location_scaled.
  - reflexivity.
  - apply Z.mod_pos_bound. lia.
Qed.

(** *** Truncated filenames *)

Lemma empty_int_unparsable : int_unparsable "".
Proof. intros z. discriminate. Qed.

Ltac short_slice :=
  match goal with
  | |- context [slice ?s ?i ?j] =>
      rewrite (slice_short s i j) by lia; reflexivity
  end.

(** X1: a filename that ends at or before the first character of a numeric
    field makes that field's decoder raise ValueError, the error of [int]
    and [float] on the empty string.  The bound is the field's first offset
    (for the XY position, the first offset of Y; for the IM03 time, read
    from the end, four characters). *)
Theorem truncated_filename_raises_ValueError (imageName : string) :
  (((String.length imageName <= 83)%nat ->
    IM03.getXYPosition_mm imageName = Raise ValueError)
   /\ ((String.length imageName <= 18)%nat ->
       IM03.getWellSubPosition imageName = Raise ValueError)
   /\ ((String.length imageName <= 92)%nat ->
       IM03.getZPosition_um imageName = Raise ValueError)
   /\ ((String.length imageName <= 43)%nat ->
       IM03.getPixelSize_um imageName = Raise ValueError
       /\ IM03.getObjectiveNA imageName = Raise ValueError)
   /\ ((String.length imageName <= 11)%nat ->
       IM03.getWellColumn imageName = Raise ValueError)
   /\ ((String.length imageName <= 2)%nat ->
       IM03.getWellIndex imageName = Raise ValueError)
   /\ ((String.length imageName <= 36)%nat ->
       IM03.getZSlice imageName = Raise ValueError)
   /\ ((String.length imageName <= 31)%nat ->
       IM03.getChannelIndex imageName = Raise ValueError)
   /\ ((String.length imageName <= 24)%nat ->
       IM03.getLoopIteration imageName = Raise ValueError)
   /\ ((String.length imageName <= 4)%nat ->
       IM03.getTime imageName = Raise ValueError)
   /\ ((String.length imageName <= 52)%nat ->
       IM03.getLightPower imageName = Raise ValueError)
   /\ ((String.length imageName <= 60)%nat ->
       IM03.getLightExposure imageName = Raise ValueError)
   /\ ((String.length imageName <= 68)%nat ->
       IM03.getTemperature imageName = Raise ValueError))
  /\
  (((String.length imageName <= 74)%nat ->
    IM04.getXYPosition_mm imageName = Raise ValueError)
   /\ ((String.length imageName <= 9)%nat ->
       IM04.getWellSubPosition imageName = Raise ValueError)
   /\ ((String.length imageName <= 83)%nat ->
       IM04.getZPosition_um imageName = Raise ValueError)
   /\ ((String.length imageName <= 34)%nat ->
       IM04.getPixelSize_um imageName = Raise ValueError
       /\ IM04.getObjectiveMagnification imageName = Raise ValueError
       /\ IM04.getObjectiveNA imageName = Raise ValueError)
   /\ ((String.length imageName <= 2)%nat ->
       IM04.getWellColumn imageName = Raise ValueError)
   /\ ((String.length imageName <= 106)%nat ->
       IM04.getWellIndex imageName = Raise ValueError)
   /\ ((String.length imageName <= 27)%nat ->
       IM04.getZSlice imageName = Raise ValueError)
   /\ ((String.length imageName <= 22)%nat ->
       IM04.getChannelIndex imageName = Raise ValueError)
   /\ ((String.length imageName <= 15)%nat ->
       IM04.getLoopIteration imageName = Raise ValueError)
   /\ ((String.length imageName <= 92)%nat ->
       IM04.getTime imageName = Raise ValueError)
   /\ ((String.length imageName <= 43)%nat ->
       IM04.getLightPower imageName = Raise ValueError)
   /\ ((String.length imageName <= 51)%nat ->
       IM04.getLightExposure imageName = Raise ValueError)
   /\ ((String.length imageName <= 59)%nat ->
       IM04.getTemperature imageName = Raise ValueError)).
Proof.
  split.
  - split.
    { intros H. apply (xy_parse_failure imageName 74 83); try lia.
      right. rewrite slice_short by lia. exact empty_int_unparsable. }
    repeat split; intros;
      try (unfold IM03.getObjectiveNA);
      unfold IM03.getWellSubPosition, IM03.getZPosition_um,
        IM03.getPixelSize_um, IM03.getWellColumn, IM03.getWellIndex,
        IM03.getZSlice, IM03.getChannelIndex, IM03.getLoopIteration,
        IM03.getLightPower, IM03.getLightExposure, IM03.getTemperature;
      try short_slice.
    unfold IM03.getTime. rewrite slice_short_neg by lia. reflexivity.
  - split.
    { intros H. apply (xy_parse_failure imageName 65 74); try lia.
      right. rewrite slice_short by lia. exact empty_int_unparsable. }
    repeat split; intros;
      try (unfold IM04.getObjectiveNA, IM04.getObjectiveMagnification);
      unfold IM04.getWellSubPosition, IM04.getZPosition_um,
        IM04.getPixelSize_um, IM04.getWellColumn, IM04.getWellIndex,
        IM04.getZSlice, IM04.getChannelIndex, IM04.getLoopIteration,
        IM04.getTime, IM04.getLightPower, IM04.getLightExposure,
        IM04.getTemperature;
      short_slice.
Qed.

(** The empty filename: the column decoder of variant A raises. *)
Lemma truncated_filename_raises_ValueError_witness :
  (String.length "WE00003---A" <= 11)%nat
  /\ IM03.getWellColumn "WE00003---A" = Raise ValueError.
Proof.
  split; [simpl; lia |].
  destruct (truncated_filename_raises_ValueError "WE00003---A")
    as [(_ & _ & _ & _ & H & _) _].
  apply H. simpl. lia.
Defined.

(** X2: a filename that ends before the row letter.  The slice of the letter
    is empty, the empty string is found at index 0 of the alphabet, and
    getWellRow returns row 1 instead of failing; getWellId is the empty
    string there. *)
Theorem getWellRow_missing_letter_is_row_1 (imageName : string) :
  ((String.length imageName <= 10)%nat ->
   IM03.getWellId imageName = ""
   /\ IM03.getWellRow imageName = Ok (PyInt 1))
  /\
  ((String.length imageName <= 1)%nat ->
   IM04.getWellId imageName = ""
   /\ IM04.getWellRow imageName = Ok (PyInt 1)).
Proof.
  split; intros H.
  - unfold IM03.getWellId, IM03.getWellRow.
    rewrite !slice_short by lia. split; reflexivity.
  - unfold IM04.getWellId, IM04.getWellRow.
    rewrite !slice_short by lia. split; reflexivity.
Qed.

Lemma getWellRow_missing_letter_is_row_1_witness :
  (String.length "WE00003" <= 10)%nat
  /\ IM03.getWellId "WE00003" = ""
  /\ IM03.getWellRow "WE00003" = Ok (PyInt 1).
Proof.
  split; [simpl; lia |].
  apply (proj1 (getWellRow_missing_letter_is_row_1 "WE00003")).
  simpl. lia.
Defined.

Lemma index_not_upper (c : ascii) :
  is_upper c = false ->
  str_index ascii_uppercase (String c "") = Raise ValueError.
Proof.
  destruct c as [[] [] [] [] [] [] [] []]; intros H;
    try discriminate H; reflexivity.
Qed.

(** X3: a character at the row offset that is not one of A-Z (a lowercase
    letter, a digit, a hyphen) makes getWellRow raise ValueError, the error
    of [str.index]. *)
Theorem getWellRow_other_character_raises (imageName : string) (c : ascii) :
  is_upper c = false ->
  (String.get 10 imageName = Some c ->
   IM03.getWellRow imageName = Raise ValueError)
  /\ (String.get 1 imageName = Some c ->
      IM04.getWellRow imageName = Raise ValueError).
Proof.
  intros Hc. split; intros Hget.
  - unfold IM03.getWellRow.
    rewrite (slice_char imageName 10 c Hget : slice imageName 10 11 = _).
    now rewrite (index_not_upper c Hc).
  - unfold IM04.getWellRow.
    rewrite (slice_char imageName 1 c Hget : slice imageName 1 2 = _).
    now rewrite (index_not_upper c Hc).
Qed.

Lemma getWellRow_other_character_raises_witness :
  is_upper "a" = false
  /\ String.get 10 "WE00003---a003--PO01" = Some "a"%char
  /\ IM03.getWellRow "WE00003---a003--PO01" = Raise ValueError.
Proof.
  split; [reflexivity |]. split; [reflexivity |].
  apply (proj1 (getWellRow_other_character_raises
                  "WE00003---a003--PO01" "a" eq_refl)).
  reflexivity.
Defined.

(** *** The well identifier and its parts *)

(** X4: row and column are read from the characters of the well identifier:
    on every filename getWellColumn is [int] of the identifier without its
    first character and getWellRow is the alphabet index of its first
    character, plus one. *)
Theorem well_row_and_column_read_well_id (imageName : string) :
  IM03.getWellColumn imageName = int (slice (IM03.getWellId imageName) 1 4)
  /\ IM03.getWellRow imageName
     = (i <- str_index ascii_uppercase (slice (IM03.getWellId imageName) 0 1) ;;
        Ok (PyInt (i + 1)))
  /\ IM04.getWellColumn imageName = int (slice (IM04.getWellId imageName) 1 4)
  /\ IM04.getWellRow imageName
     = (i <- str_index ascii_uppercase (slice (IM04.getWellId imageName) 0 1) ;;
        Ok (PyInt (i + 1))).
Proof.
  unfold IM03.getWellColumn, IM03.getWellRow, IM03.getWellId,
    IM04.getWellColumn, IM04.getWellRow, IM04.getWellId.
  rewrite (slice_slice imageName 10 14 1 4), (slice_slice imageName 10 14 0 1),
    (slice_slice imageName 1 5 1 4), (slice_slice imageName 1 5 0 1) by lia.
  repeat split; reflexivity.
Qed.

(** *** The range of the integer fields *)

Lemma slice_neg_length_le (s : string) (i j : Z) :
  i <= j < 0 -> Z.of_nat (String.length (slice s i j)) <= j - i.
Proof.
  intros Hij. unfold slice, slice_bound.
  destruct (Z.ltb_spec i 0) as [_ | ?]; [| lia].
  destruct (Z.ltb_spec j 0) as [_ | ?]; [| lia].
  pose proof (substring_length_le s
                (Z.to_nat (Z.max 0 (i + Z.of_nat (String.length s))))
                (Z.to_nat (Z.max 0 (j + Z.of_nat (String.length s))
                           - Z.max 0 (i + Z.of_nat (String.length s))))).
  lia.
Qed.

Lemma int_bound (s : string) (v : pynum) (w : Z) :
  Z.of_nat (String.length s) <= w ->
  int s = Ok v -> exists z, v = PyInt z /\ Z.abs z < 10 ^ w.
Proof.
  intros Hlen H. unfold int in H.
  destruct (int_of_str s) as [z | e] eqn:Hz; [| discriminate H].
  injection H as <-. exists z. split; [reflexivity |].
  pose proof (int_of_str_bound s z Hz) as Hb.
  apply Z.lt_le_trans with (1 := Hb).
  apply Z.pow_le_mono_r; lia.
Qed.

Ltac field_bound :=
  match goal with
  | H : int (slice ?s ?i ?j) = Ok ?v |- _ =>
      apply (int_bound (slice s i j) v (j - i));
      [ first [ apply slice_length_le; lia | apply slice_neg_length_le; lia ]
      | exact H ]
  end.

(** X5: an integer field is bounded by its width.  Whatever the characters
    at its offsets, a decoder that returns, returns an [int] of magnitude
    below 10^w, [w] the number of characters it reads: 2 for the
    sub-position, 3 for column, slice and loop, 1 for the channel, 4 for
    power and exposure, 5 for the well index, 10 for the time.  No decoder
    checks a narrower range (column 1-12, channel 1/3/5). *)
Theorem int_fields_bounded_by_width (imageName : string) (v : pynum) :
  ((IM03.getWellSubPosition imageName = Ok v ->
    exists z, v = PyInt z /\ Z.abs z < 10 ^ 2)
   /\ (IM03.getWellColumn imageName = Ok v ->
       exists z, v = PyInt z /\ Z.abs z < 10 ^ 3)
   /\ (IM03.getWellIndex imageName = Ok v ->
       exists z, v = PyInt z /\ Z.abs z < 10 ^ 5)
   /\ (IM03.getZSlice imageName = Ok v ->
       exists z, v = PyInt z /\ Z.abs z < 10 ^ 3)
   /\ (IM03.getChannelIndex imageName = Ok v ->
       exists z, v = PyInt z /\ Z.abs z < 10 ^ 1)
   /\ (IM03.getLoopIteration imageName = Ok v ->
       exists z, v = PyInt z /\ Z.abs z < 10 ^ 3)
   /\ (IM03.getTime imageName = Ok v ->
       exists z, v = PyInt z /\ Z.abs z < 10 ^ 10)
   /\ (IM03.getLightPower imageName = Ok v ->
       exists z, v = PyInt z /\ Z.abs z < 10 ^ 4)
   /\ (IM03.getLightExposure imageName = Ok v ->
       exists z, v = PyInt z /\ Z.abs z < 10 ^ 4))
  /\
  ((IM04.getWellSubPosition imageName = Ok v ->
    exists z, v = PyInt z /\ Z.abs z < 10 ^ 2)
   /\ (IM04.getWellColumn imageName = Ok v ->
       exists z, v = PyInt z /\ Z.abs z < 10 ^ 3)
   /\ (IM04.getWellIndex imageName = Ok v ->
       exists z, v = PyInt z /\ Z.abs z < 10 ^ 5)
   /\ (IM04.getZSlice imageName = Ok v ->
       exists z, v = PyInt z /\ Z.abs z < 10 ^ 3)
   /\ (IM04.getChannelIndex imageName = Ok v ->
       exists z, v = PyInt z /\ Z.abs z < 10 ^ 1)
   /\ (IM04.getLoopIteration imageName = Ok v ->
       exists z, v = PyInt z /\ Z.abs z < 10 ^ 3)
   /\ (IM04.getTime imageName = Ok v ->
       exists z, v = PyInt z /\ Z.abs z < 10 ^ 10)
   /\ (IM04.getLightPower imageName = Ok v ->
       exists z, v = PyInt z /\ Z.abs z < 10 ^ 4)
   /\ (IM04.getLightExposure imageName = Ok v ->
       exists z, v = PyInt z /\ Z.abs z < 10 ^ 4)).
Proof.
  unfold IM03.getWellSubPosition, IM03.getWellColumn, IM03.getWellIndex,
    IM03.getZSlice, IM03.getChannelIndex, IM03.getLoopIteration,
    IM03.getTime, IM03.getLightPower, IM03.getLightExposure,
    IM04.getWellSubPosition, IM04.getWellColumn, IM04.getWellIndex,
    IM04.getZSlice, IM04.getChannelIndex, IM04.getLoopIteration,
    IM04.getTime, IM04.getLightPower, IM04.getLightExposure.
  split; repeat (split; [intros Hv; field_bound |]); intros Hv; field_bound.
Qed.

(** A column field [-12]: the decoder returns -12, inside the bound and
    outside 1-12. *)
Lemma int_fields_bounded_by_width_witness :
  IM03.getWellColumn "WE00003---A-12--PO01" = Ok (PyInt (-12))
  /\ exists z, PyInt (-12) = PyInt z /\ Z.abs z < 10 ^ 3.
Proof.
  split; [reflexivity |].
  destruct (int_fields_bounded_by_width "WE00003---A-12--PO01" (PyInt (-12)))
    as [(_ & H & _) _].
  apply H. reflexivity.
Defined.

(** *** Fields of digits, and the number they spell *)

Ltac digit_field :=
  match goal with
  | H : is_digits (slice ?s ?i ?j) = true |- _ =>
      split;
      [ exact (int_digits _ H)
      | pose proof (decimal_bound _ H) as Hb;
        first [ pose proof (slice_length_le s i j ltac:(lia)) as Hl
              | pose proof (slice_neg_length_le s i j ltac:(lia)) as Hl ];
        split; [lia |];
        apply Z.lt_le_trans with (1 := proj2 Hb);
        apply Z.pow_le_mono_r; lia ]
  end.

(** X6: an integer field that holds decimal digits only decodes to the
    number the digits spell, leading zeros included, and that number is
    at least 0 and below 10^w for a field of [w] characters. *)
Theorem digit_fields_decode_to_decimal (imageName : string) :
  ((is_digits (slice imageName 18 20) = true ->
    IM03.getWellSubPosition imageName
    = Ok (PyInt (decimal (slice imageName 18 20)))
    /\ 0 <= decimal (slice imageName 18 20) < 10 ^ 2)
   /\ (is_digits (slice imageName 11 14) = true ->
       IM03.getWellColumn imageName
       = Ok (PyInt (decimal (slice imageName 11 14)))
       /\ 0 <= decimal (slice imageName 11 14) < 10 ^ 3)
   /\ (is_digits (slice imageName 2 7) = true ->
       IM03.getWellIndex imageName
       = Ok (PyInt (decimal (slice imageName 2 7)))
       /\ 0 <= decimal (slice imageName 2 7) < 10 ^ 5)
   /\ (is_digits (slice imageName 36 39) = true ->
       IM03.getZSlice imageName
       = Ok (PyInt (decimal (slice imageName 36 39)))
       /\ 0 <= decimal (slice imageName 36 39) < 10 ^ 3)
   /\ (is_digits (slice imageName 31 32) = true ->
       IM03.getChannelIndex imageName
       = Ok (PyInt (decimal (slice imageName 31 32)))
       /\ 0 <= decimal (slice imageName 31 32) < 10 ^ 1)
   /\ (is_digits (slice imageName 24 27) = true ->
       IM03.getLoopIteration imageName
       = Ok (PyInt (decimal (slice imageName 24 27)))
       /\ 0 <= decimal (slice imageName 24 27) < 10 ^ 3)
   /\ (is_digits (slice imageName (-14) (-4)) = true ->
       IM03.getTime imageName
       = Ok (PyInt (decimal (slice imageName (-14) (-4))))
       /\ 0 <= decimal (slice imageName (-14) (-4)) < 10 ^ 10)
   /\ (is_digits (slice imageName 52 56) = true ->
       IM03.getLightPower imageName
       = Ok (PyInt (decimal (slice imageName 52 56)))
       /\ 0 <= decimal (slice imageName 52 56) < 10 ^ 4)
   /\ (is_digits (slice imageName 60 64) = true ->
       IM03.getLightExposure imageName
       = Ok (PyInt (decimal (slice imageName 60 64)))
       /\ 0 <= decimal (slice imageName 60 64) < 10 ^ 4))
  /\
  ((is_digits (slice imageName 9 11) = true ->
    IM04.getWellSubPosition imageName
    = Ok (PyInt (decimal (slice imageName 9 11)))
    /\ 0 <= decimal (slice imageName 9 11) < 10 ^ 2)
   /\ (is_digits (slice imageName 2 5) = true ->
       IM04.getWellColumn imageName
       = Ok (PyInt (decimal (slice imageName 2 5)))
       /\ 0 <= decimal (slice imageName 2 5) < 10 ^ 3)
   /\ (is_digits (slice imageName 106 111) = true ->
       IM04.getWellIndex imageName
       = Ok (PyInt (decimal (slice imageName 106 111)))
       /\ 0 <= decimal (slice imageName 106 111) < 10 ^ 5)
   /\ (is_digits (slice imageName 27 30) = true ->
       IM04.getZSlice imageName
       = Ok (PyInt (decimal (slice imageName 27 30)))
       /\ 0 <= decimal (slice imageName 27 30) < 10 ^ 3)
   /\ (is_digits (slice imageName 22 23) = true ->
       IM04.getChannelIndex imageName
       = Ok (PyInt (decimal (slice imageName 22 23)))
       /\ 0 <= decimal (slice imageName 22 23) < 10 ^ 1)
   /\ (is_digits (slice imageName 15 18) = true ->
       IM04.getLoopIteration imageName
       = Ok (PyInt (decimal (slice imageName 15 18)))
       /\ 0 <= decimal (slice imageName 15 18) < 10 ^ 3)
   /\ (is_digits (slice imageName 92 102) = true ->
       IM04.getTime imageName
       = Ok (PyInt (decimal (slice imageName 92 102)))
       /\ 0 <= decimal (slice imageName 92 102) < 10 ^ 10)
   /\ (is_digits (slice imageName 43 47) = true ->
       IM04.getLightPower imageName
       = Ok (PyInt (decimal (slice imageName 43 47)))
       /\ 0 <= decimal (slice imageName 43 47) < 10 ^ 4)
   /\ (is_digits (slice imageName 51 55) = true ->
       IM04.getLightExposure imageName
       = Ok (PyInt (decimal (slice imageName 51 55)))
       /\ 0 <= decimal (slice imageName 51 55) < 10 ^ 4)).
Proof.
  unfold IM03.getWellSubPosition, IM03.getWellColumn, IM03.getWellIndex,
    IM03.getZSlice, IM03.getChannelIndex, IM03.getLoopIteration,
    IM03.getTime, IM03.getLightPower, IM03.getLightExposure,
    IM04.getWellSubPosition, IM04.getWellColumn, IM04.getWellIndex,
    IM04.getZSlice, IM04.getChannelIndex, IM04.getLoopIteration,
    IM04.getTime, IM04.getLightPower, IM04.getLightExposure.
  split; repeat (split; [intros Hd; digit_field |]); intros Hd; digit_field.
Qed.

Lemma digit_fields_decode_to_decimal_witness :
  is_digits (slice exampleA 52 56) = true
  /\ decimal (slice exampleA 52 56) = 40
  /\ IM03.getLightPower exampleA = Ok (PyInt (decimal (slice exampleA 52 56))).
Proof.
  split; [reflexivity |]. split; [reflexivity |].
  destruct (digit_fields_decode_to_decimal exampleA)
    as [(_ & _ & _ & _ & _ & _ & _ & H & _) _].
  apply H. reflexivity.
Defined.

(** *** Fields with a unit: millimetres, tenths *)

Lemma dec_int_canon (p : positive) :
  Zpos p < 2 ^ 53 -> dec_to_float false (Zpos p) 0 = canon (Zpos p) 0.
Proof.
  intros Hp. unfold dec_to_float.
  change (0 <=? 0) with true. change (Z.to_pos (10 ^ 0)) with 1%positive.
  cbv iota. rewrite Pos.mul_1_r.
  rewrite <- (binary_normalize_canon (Zpos p) 0 0) by (cbn [Z.abs]; lia).
  rewrite Z.mul_1_r. reflexivity.
Qed.

(** [float(s) / 10] for a field of digits: the float nearest to a tenth of
    the number they spell. *)
Lemma tenth_digits (s : string) :
  is_digits s = true -> Z.of_nat (String.length s) <= 15 ->
  (t <- float_ s ;; truediv t (PyInt 10)) = Ok (dec (decimal s) (-1)).
Proof.
  intros Hd Hlen. rewrite (float_digits s Hd). unfold bind, dec.
  pose proof (decimal_bound s Hd) as Hb.
  assert (H15 : decimal s < 10 ^ 15).
  { apply Z.lt_le_trans with (1 := proj2 Hb). apply Z.pow_le_mono_r; lia. }
  destruct (decimal s) as [| p | p] eqn:Hv; [reflexivity | | lia].
  rewrite dec_int_canon by lia.
  unfold truediv, to_float, bind.
  change (float_of_int 10) with (Ok (S754_finite false 5629499534213120 (-49))).
  cbn [is_zero].
  rewrite fdiv_ten by lia. reflexivity.
Qed.

(** [int(s) / 1000] for a field of digits: the float nearest to a thousandth
    of the number they spell. *)
Lemma thousandth_digits (s : string) :
  is_digits s = true -> Z.of_nat (String.length s) <= 19 ->
  (n <- int s ;; truediv n (PyInt 1000)) = Ok (dec (decimal s) (-3)).
Proof.
  intros Hd Hlen. rewrite (int_digits s Hd). unfold bind, dec.
  pose proof (decimal_bound s Hd) as Hb.
  assert (H19 : decimal s < 10 ^ 19).
  { apply Z.lt_le_trans with (1 := proj2 Hb). apply Z.pow_le_mono_r; lia. }
  destruct (decimal s) as [| p | p] eqn:Hv; [reflexivity | | lia].
  unfold truediv, int_truediv, bind, dec_to_float.
  cbn [Z.ltb Z.compare xorb Z.abs Z.to_pos Z.leb Z.opp].
  pose proof (ratio_to_float_finite false p 1000 ltac:(lia) ltac:(lia)) as Hf.
  change (Z.to_pos (10 ^ 3)) with 1000%positive.
  destruct (ratio_to_float false p 1000); try reflexivity; discriminate Hf.
Qed.

Lemma slice_le (s : string) (i j w : Z) :
  0 <= i <= j -> j - i <= w -> Z.of_nat (String.length (slice s i j)) <= w.
Proof.
  intros Hij Hw. pose proof (slice_length_le s i j Hij). lia.
Qed.

(** X7: the fields with a unit.  When its characters are decimal digits
    only, a stage position X or Y decodes to the float nearest to a
    thousandth of the number they spell (micrometres read as millimetres),
    and the Z position and the temperature to the float nearest to a tenth
    of it: the values a decimal literal with three decimals, respectively
    one, denotes. *)
Theorem scaled_fields_decode_to_nearest_float (imageName : string) :
  ((is_digits (slice imageName 74 80) = true ->
    is_digits (slice imageName 83 89) = true ->
    IM03.getXYPosition_mm imageName
    = Ok (dec (decimal (slice imageName 74 80)) (-3),
          dec (decimal (slice imageName 83 89)) (-3)))
   /\ (is_digits (slice imageName 92 98) = true ->
       IM03.getZPosition_um imageName
       = Ok (dec (decimal (slice imageName 92 98)) (-1)))
   /\ (is_digits (slice imageName 68 71) = true ->
       IM03.getTemperature imageName
       = Ok (dec (decimal (slice imageName 68 71)) (-1))))
  /\
  ((is_digits (slice imageName 65 71) = true ->
    is_digits (slice imageName 74 80) = true ->
    IM04.getXYPosition_mm imageName
    = Ok (dec (decimal (slice imageName 65 71)) (-3),
          dec (decimal (slice imageName 74 80)) (-3)))
   /\ (is_digits (slice imageName 83 89) = true ->
       IM04.getZPosition_um imageName
       = Ok (dec (decimal (slice imageName 83 89)) (-1)))
   /\ (is_digits (slice imageName 59 62) = true ->
       IM04.getTemperature imageName
       = Ok (dec (decimal (slice imageName 59 62)) (-1)))).
Proof.
  unfold IM03.getXYPosition_mm, IM03.getZPosition_um, IM03.getTemperature,
    IM04.getXYPosition_mm, IM04.getZPosition_um, IM04.getTemperature.
  repeat split; intros;
    repeat match goal with
      | H : is_digits (slice ?s ?i ?j) = true |- _ =>
          first [ rewrite (thousandth_digits _ H) by (apply slice_le; lia)
                | rewrite (tenth_digits _ H) by (apply slice_le; lia) ];
          clear H
      end;
    reflexivity.
Qed.

Lemma scaled_fields_decode_to_nearest_float_witness :
  is_digits (slice exampleA 68 71) = true
  /\ decimal (slice exampleA 68 71) = 246
  /\ IM03.getTemperature exampleA
     = Ok (dec (decimal (slice exampleA 68 71)) (-1)).
Proof.
  split; [reflexivity |]. split; [reflexivity |].
  destruct (scaled_fields_decode_to_nearest_float exampleA)
    as [(_ & _ & H) _].
  apply H. reflexivity.
Defined.

(** *** The pixel-size tokens that name an objective *)

Lemma all_range_spec (P : Z -> bool) (d : nat) :
  forall lo, all_range d lo P = true ->
  forall v, lo <= v < lo + 2 ^ Z.of_nat d -> P v = true.
Proof.
  induction d as [| d IH]; intros lo H v Hv.
  - simpl in H. change (2 ^ Z.of_nat 0) with 1 in Hv.
    now replace v with lo by lia.
  - cbn [all_range] in H. apply andb_true_iff in H as [H1 H2].
    rewrite Nat2Z.inj_succ, Z.pow_succ_r in Hv by lia.
    destruct (Z.lt_ge_cases v (lo + 2 ^ Z.of_nat d)) as [Hlt | Hge].
    + apply (IH lo H1). lia.
    + apply (IH _ H2). lia.
Qed.

Lemma tokens_checked :
  all_range 16 0 token_checked = true
  /\ all_range 15 65536 token_checked = true
  /\ all_range 11 98304 token_checked = true.
Proof. split; [| split]; vm_compute; reflexivity. Qed.

Lemma token_miss (v : Z) :
  0 <= v < 10 ^ 5 -> token_objective v = None ->
  existsb (num_eqb (token_pixel_size v)) [px_2x; px_4x; px_10x; px_20x] = false.
Proof.
  intros Hv Hnone.
  destruct tokens_checked as (H16 & H15 & H11).
  pose proof (all_range_spec token_checked 16 0 H16 v) as Ha.
  pose proof (all_range_spec token_checked 15 65536 H15 v) as Hb.
  pose proof (all_range_spec token_checked 11 98304 H11 v) as Hc.
  change (2 ^ Z.of_nat 16) with 65536 in Ha.
  change (2 ^ Z.of_nat 15) with 32768 in Hb.
  change (2 ^ Z.of_nat 11) with 2048 in Hc.
  change (10 ^ 5) with 100000 in Hv.
  assert (H : token_checked v = true).
  { destruct (Z.lt_ge_cases v 65536); [apply Ha; lia |].
    destruct (Z.lt_ge_cases v 98304); [apply Hb; lia | apply Hc; lia]. }
  unfold token_checked in H. rewrite Hnone in H.
  now apply negb_true_iff in H.
Qed.

Lemma pixel_size_digits (s : string) :
  is_digits s = true ->
  (p <- float_ s ;; mul p (pow10_neg 4)) = Ok (token_pixel_size (decimal s)).
Proof.
  intros Hd. rewrite (float_digits s Hd). reflexivity.
Qed.

Lemma token_lookup (s : string) :
  is_digits s = true -> Z.of_nat (String.length s) <= 5 ->
  match token_objective (decimal s) with
  | Some (mag, na) =>
      get IM.pixelSizeToMag (token_pixel_size (decimal s)) = Some mag
      /\ get IM.pixelSizeToNA (token_pixel_size (decimal s)) = Some na
  | None =>
      get IM.pixelSizeToMag (token_pixel_size (decimal s)) = None
      /\ get IM.pixelSizeToNA (token_pixel_size (decimal s)) = None
  end.
Proof.
  intros Hd Hlen.
  pose proof (decimal_bound s Hd) as Hb.
  assert (H5 : 0 <= decimal s < 10 ^ 5).
  { split; [lia |]. apply Z.lt_le_trans with (1 := proj2 Hb).
    apply Z.pow_le_mono_r; lia. }
  destruct (token_objective (decimal s)) as [[mag na] |] eqn:Ht.
  - unfold token_objective in Ht.
    repeat match type of Ht with
           | (if ?v =? ?k then _ else _) = _ =>
               destruct (Z.eqb_spec v k) as [-> | _];
               [injection Ht as <- <-; split; vm_compute; reflexivity |]
           end.
    discriminate Ht.
  - pose proof (token_miss _ H5 Ht) as Hm.
    split; [now apply get_mag_miss | now apply get_na_miss].
Qed.

(** X8: which pixel-size tokens name an objective.  When the pixel-size
    field holds decimal digits only, the magnification and the numerical
    aperture are found for exactly four numbers: 32500 (2x, NA 0.06),
    16250 (4x, NA 0.13), 6500 (10x, NA 0.3) and 3250 (20x, NA 0.45).  Every
    other number makes both lookups raise KeyError: the product
    [float * 10**-4] is compared with the keys by equality, and no other
    token gives a key. *)
Theorem objective_known_for_four_tokens (imageName : string) :
  (is_digits (slice imageName 34 39) = true ->
   match token_objective (decimal (slice imageName 34 39)) with
   | Some (mag, na) =>
       IM04.getObjectiveMagnification imageName = Ok mag
       /\ IM04.getObjectiveNA imageName = Ok na
   | None =>
       IM04.getObjectiveMagnification imageName = Raise mag_miss
       /\ IM04.getObjectiveNA imageName = Raise na_miss
   end)
  /\
  (is_digits (slice imageName 43 48) = true ->
   match token_objective (decimal (slice imageName 43 48)) with
   | Some (_, na) => IM03.getObjectiveNA imageName = Ok na
   | None => IM03.getObjectiveNA imageName = Raise na_miss
   end).
Proof.
  split; intros Hd.
  - pose proof (token_lookup _ Hd ltac:(apply slice_le; lia)) as H.
    unfold IM04.getObjectiveMagnification, IM04.getObjectiveNA,
      IM04.getPixelSize_um.
    rewrite (pixel_size_digits _ Hd). unfold bind.
    destruct (token_objective _) as [[mag na] |]; destruct H as [-> ->];
      split; reflexivity.
  - pose proof (token_lookup _ Hd ltac:(apply slice_le; lia)) as H.
    unfold IM03.getObjectiveNA, IM03.getPixelSize_um.
    rewrite (pixel_size_digits _ Hd). unfold bind.
    destruct (token_objective _) as [[mag na] |]; destruct H as [_ ->];
      reflexivity.
Qed.

Lemma objective_known_for_four_tokens_witness :
  is_digits (slice exampleB 34 39) = true
  /\ token_objective (decimal (slice exampleB 34 39))
     = Some (PyInt 2, dec 6 (-2))
  /\ IM04.getObjectiveMagnification exampleB = Ok (PyInt 2)
  /\ IM04.getObjectiveNA exampleB = Ok (dec 6 (-2)).
Proof.
  split; [reflexivity |]. split; [reflexivity |].
  exact (proj1 (objective_known_for_four_tokens exampleB) eq_refl).
Defined.

(** *** Text before and after the fields *)

(** X9: the IM03 time is read from the end of the filename, so text put in
    front of a filename of at least 14 characters (a directory, a prefix)
    does not change it. *)
Theorem IM03_getTime_counts_from_the_end (prefix imageName : string) :
  (14 <= String.length imageName)%nat ->
  IM03.getTime (prefix ++ imageName) = IM03.getTime imageName.
Proof.
  intros H. unfold IM03.getTime. now rewrite slice_neg_app by lia.
Qed.

Lemma IM03_getTime_counts_from_the_end_witness :
  (14 <= String.length exampleA)%nat
  /\ IM03.getTime ("plate1/" ++ exampleA) = IM03.getTime exampleA.
Proof.
  split; [simpl; lia |].
  apply IM03_getTime_counts_from_the_end. simpl. lia.
Defined.

Ltac drop_suffix :=
  repeat match goal with
         | |- context [slice (?s ++ ?t) ?i ?j] =>
             rewrite (slice_app_r s t i j) by lia
         end;
  reflexivity.

(** X10: the decoders that read fixed offsets do not see what follows their
    field.  Text appended to a filename that already holds every field (98
    characters for IM03, 111 for IM04), such as another file extension,
    changes none of their results.  IM03.getTime, read from the end, is not
    among them. *)
Theorem fixed_offset_decoders_ignore_suffix (imageName suffix : string) :
  ((98 <= String.length imageName)%nat ->
   IM03.getXYPosition_mm (imageName ++ suffix) = IM03.getXYPosition_mm imageName
   /\ IM03.getWellSubPosition (imageName ++ suffix)
      = IM03.getWellSubPosition imageName
   /\ IM03.getZPosition_um (imageName ++ suffix) = IM03.getZPosition_um imageName
   /\ IM03.getPixelSize_um (imageName ++ suffix) = IM03.getPixelSize_um imageName
   /\ IM03.getObjectiveNA (imageName ++ suffix) = IM03.getObjectiveNA imageName
   /\ IM03.getWellId (imageName ++ suffix) = IM03.getWellId imageName
   /\ IM03.getWellColumn (imageName ++ suffix) = IM03.getWellColumn imageName
   /\ IM03.getWellRow (imageName ++ suffix) = IM03.getWellRow imageName
   /\ IM03.getWellIndex (imageName ++ suffix) = IM03.getWellIndex imageName
   /\ IM03.getZSlice (imageName ++ suffix) = IM03.getZSlice imageName
   /\ IM03.getChannelIndex (imageName ++ suffix)
      = IM03.getChannelIndex imageName
   /\ IM03.getLoopIteration (imageName ++ suffix)
      = IM03.getLoopIteration imageName
   /\ IM03.getLightPower (imageName ++ suffix) = IM03.getLightPower imageName
   /\ IM03.getLightExposure (imageName ++ suffix)
      = IM03.getLightExposure imageName
   /\ IM03.getTemperature (imageName ++ suffix) = IM03.getTemperature imageName)
  /\
  ((111 <= String.length imageName)%nat ->
   IM04.getXYPosition_mm (imageName ++ suffix) = IM04.getXYPosition_mm imageName
   /\ IM04.getWellSubPosition (imageName ++ suffix)
      = IM04.getWellSubPosition imageName
   /\ IM04.getZPosition_um (imageName ++ suffix) = IM04.getZPosition_um imageName
   /\ IM04.getPixelSize_um (imageName ++ suffix) = IM04.getPixelSize_um imageName
   /\ IM04.getObjectiveMagnification (imageName ++ suffix)
      = IM04.getObjectiveMagnification imageName
   /\ IM04.getObjectiveNA (imageName ++ suffix) = IM04.getObjectiveNA imageName
   /\ IM04.getWellId (imageName ++ suffix) = IM04.getWellId imageName
   /\ IM04.getWellColumn (imageName ++ suffix) = IM04.getWellColumn imageName
   /\ IM04.getWellRow (imageName ++ suffix) = IM04.getWellRow imageName
   /\ IM04.getWellIndex (imageName ++ suffix) = IM04.getWellIndex imageName
   /\ IM04.getZSlice (imageName ++ suffix) = IM04.getZSlice imageName
   /\ IM04.getChannelIndex (imageName ++ suffix)
      = IM04.getChannelIndex imageName
   /\ IM04.getLoopIteration (imageName ++ suffix)
      = IM04.getLoopIteration imageName
   /\ IM04.getTime (imageName ++ suffix) = IM04.getTime imageName
   /\ IM04.getLightPower (imageName ++ suffix) = IM04.getLightPower imageName
   /\ IM04.getLightExposure (imageName ++ suffix)
      = IM04.getLightExposure imageName
   /\ IM04.getTemperature (imageName ++ suffix) = IM04.getTemperature imageName).
Proof.
  split; intros H.
  - unfold IM03.getObjectiveNA.
    unfold IM03.getXYPosition_mm, IM03.getWellSubPosition,
      IM03.getZPosition_um, IM03.getPixelSize_um, IM03.getWellId,
      IM03.getWellColumn, IM03.getWellRow, IM03.getWellIndex, IM03.getZSlice,
      IM03.getChannelIndex, IM03.getLoopIteration, IM03.getLightPower,
      IM03.getLightExposure, IM03.getTemperature.
    repeat split; drop_suffix.
  - unfold IM04.getObjectiveMagnification, IM04.getObjectiveNA.
    unfold IM04.getXYPosition_mm, IM04.getWellSubPosition,
      IM04.getZPosition_um, IM04.getPixelSize_um, IM04.getWellId,
      IM04.getWellColumn, IM04.getWellRow, IM04.getWellIndex, IM04.getZSlice,
      IM04.getChannelIndex, IM04.getLoopIteration, IM04.getTime,
      IM04.getLightPower, IM04.getLightExposure, IM04.getTemperature.
    repeat split; drop_suffix.
Qed.

Lemma fixed_offset_decoders_ignore_suffix_witness :
  (111 <= String.length exampleB)%nat
  /\ IM04.getWellIndex (exampleB ++ ".gz") = IM04.getWellIndex exampleB.
Proof.
  split; [simpl; lia |].
  destruct (fixed_offset_decoders_ignore_suffix exampleB ".gz") as [_ H].
  destruct (H ltac:(simpl; lia)) as (_ & _ & _ & _ & _ & _ & _ & _ & _ & H' & _).
  exact H'.
Defined.

(** *** The two variants *)

Lemma slice_shift9 (p s : string) (i j : Z) :
  String.length p = 9%nat -> 0 <= i -> 0 <= j ->
  slice (p ++ s) (9 + i) (9 + j) = slice s i j.
Proof.
  intros Hp Hi Hj. rewrite <- (slice_app_l p s i j Hi Hj), Hp. reflexivity.
Qed.

(** X11: variant A is variant B nine characters later.  For every field but
    the well index and the time, the IM03 decoder on a filename that starts
    with nine more characters (the token [WE00003--] of a variant A name)
    returns what the IM04 decoder returns on the rest.  The magnification is
    left out: IM03.getObjectiveMagnification returns on no filename. *)
Theorem IM03_reads_IM04_fields_nine_later (prefix imageName : string) :
  String.length prefix = 9%nat ->
  IM03.getXYPosition_mm (prefix ++ imageName) = IM04.getXYPosition_mm imageName
  /\ IM03.getWellSubPosition (prefix ++ imageName)
     = IM04.getWellSubPosition imageName
  /\ IM03.getZPosition_um (prefix ++ imageName) = IM04.getZPosition_um imageName
  /\ IM03.getPixelSize_um (prefix ++ imageName) = IM04.getPixelSize_um imageName
  /\ IM03.getObjectiveNA (prefix ++ imageName) = IM04.getObjectiveNA imageName
  /\ IM03.getWellId (prefix ++ imageName) = IM04.getWellId imageName
  /\ IM03.getWellColumn (prefix ++ imageName) = IM04.getWellColumn imageName
  /\ IM03.getWellRow (prefix ++ imageName) = IM04.getWellRow imageName
  /\ IM03.getZSlice (prefix ++ imageName) = IM04.getZSlice imageName
  /\ IM03.getChannelIndex (prefix ++ imageName) = IM04.getChannelIndex imageName
  /\ IM03.getLoopIteration (prefix ++ imageName)
     = IM04.getLoopIteration imageName
  /\ IM03.getLightPower (prefix ++ imageName) = IM04.getLightPower imageName
  /\ IM03.getLightExposure (prefix ++ imageName)
     = IM04.getLightExposure imageName
  /\ IM03.getTemperature (prefix ++ imageName) = IM04.getTemperature imageName.
Proof.
  intros Hp.
  unfold IM03.getObjectiveNA, IM04.getObjectiveNA.
  unfold IM03.getXYPosition_mm, IM03.getWellSubPosition,
    IM03.getZPosition_um, IM03.getPixelSize_um, IM03.getWellId,
    IM03.getWellColumn, IM03.getWellRow, IM03.getZSlice,
    IM03.getChannelIndex, IM03.getLoopIteration, IM03.getLightPower,
    IM03.getLightExposure, IM03.getTemperature,
    IM04.getXYPosition_mm, IM04.getWellSubPosition,
    IM04.getZPosition_um, IM04.getPixelSize_um, IM04.getWellId,
    IM04.getWellColumn, IM04.getWellRow, IM04.getZSlice,
    IM04.getChannelIndex, IM04.getLoopIteration, IM04.getLightPower,
    IM04.getLightExposure, IM04.getTemperature.
  repeat split;
    repeat match goal with
           | |- context [slice imageName ?i ?j] =>
               rewrite <- (slice_shift9 prefix imageName i j Hp) by lia
           end;
    reflexivity.
Qed.

Lemma IM03_reads_IM04_fields_nine_later_witness :
  String.length "WE00003--" = 9%nat
  /\ IM03.getWellColumn ("WE00003--" ++ exampleB) = IM04.getWellColumn exampleB.
Proof.
  split; [reflexivity |].
  destruct (IM03_reads_IM04_fields_nine_later "WE00003--" exampleB eq_refl)
    as (_ & _ & _ & _ & _ & _ & H & _).
  exact H.
Defined.

(** *** What the conversion returns and raises *)

Lemma only_overflow_bind {A B : Type} (r : result A) (k : A -> result B)
  (P : A -> Prop) :
  only_overflow r -> (forall a, r = Ok a -> P a) ->
  (forall a, P a -> only_overflow (k a)) ->
  only_overflow (bind r k).
Proof.
  intros Hr HP Hk e. destruct r as [a | e']; simpl.
  - apply (Hk a). now apply HP.
  - intros [= <-]. now apply Hr.
Qed.

Lemma to_float_only_overflow (x : pynum) : only_overflow (to_float x).
Proof.
  intros e. destruct x as [z | f]; simpl; [| discriminate].
  unfold float_of_int. destruct (binary_normalize _ _ _ _ _); congruence.
Qed.

Lemma arith_float (iop : Z -> Z -> Z) (fop : float -> float -> float)
  (x y : pynum) :
  is_float x = true \/ is_float y = true ->
  only_overflow (arith iop fop x y)
  /\ forall v, arith iop fop x y = Ok v -> is_float v = true.
Proof.
  intros Hxy. split.
  - intros e H.
    destruct x as [a | a], y as [b | b]; simpl in *;
      try (destruct Hxy; discriminate);
      try discriminate H;
      unfold bind in H.
    + destruct (float_of_int a) eqn:Ha; [discriminate H |].
      injection H as <-. exact (to_float_only_overflow (PyInt a) _ Ha).
    + destruct (float_of_int b) eqn:Hb; [discriminate H |].
      injection H as <-. exact (to_float_only_overflow (PyInt b) _ Hb).
  - intros v H.
    destruct x as [a | a], y as [b | b]; simpl in *;
      try (destruct Hxy; discriminate); unfold bind in H.
    + destruct (float_of_int a); [| discriminate H]. now injection H as <-.
    + destruct (float_of_int b); [| discriminate H]. now injection H as <-.
    + now injection H as <-.
Qed.

(** Halving: the divisor is the [int] 2, never zero. *)
Lemma half_float (x : pynum) :
  only_overflow (truediv x (PyInt 2))
  /\ forall v, truediv x (PyInt 2) = Ok v -> is_float v = true.
Proof.
  destruct x as [a | a].
  - unfold truediv, int_truediv, bind. split.
    + intros e H. destruct a; try discriminate H;
        destruct (ratio_to_float _ _ _); congruence.
    + intros v H. destruct a; try (now injection H as <-);
        destruct (ratio_to_float _ _ _); try discriminate H;
        now injection H as <-.
  - unfold truediv, to_float, bind.
    change (float_of_int 2) with (Ok (S754_finite false 4503599627370496 (-51))).
    cbn [is_zero]. split.
    + intros e H. discriminate H.
    + intros v H. now injection H as <-.
Qed.

Lemma round_float (x : pynum) :
  is_float x = true ->
  only_overflow (round x 3)
  /\ forall v, round x 3 = Ok v -> is_float v = true.
Proof.
  intros Hx. destruct x as [z | f]; [discriminate Hx |]. split.
  - intros e H. destruct f as [s | s | | s m ex]; simpl in H;
      try discriminate H.
    destruct (dec_to_float _ _ _); congruence.
  - intros v H. destruct f as [s | s | | s m ex]; simpl in H;
      try (now injection H as <-).
    destruct (dec_to_float _ _ _); try discriminate H; now injection H as <-.
Qed.

(** One coordinate: [centre + bracket * PixelSize_um * 10**-3], the bracket a
    float. *)
Lemma offset_float (c : result pynum) (P X0 : pynum) :
  only_overflow c -> (forall v, c = Ok v -> is_float v = true) ->
  only_overflow (c0 <- c ;; d <- mul c0 P ;; e <- mul d (pow10_neg 3) ;; add X0 e)
  /\ forall v,
       (c0 <- c ;; d <- mul c0 P ;; e <- mul d (pow10_neg 3) ;; add X0 e) = Ok v ->
       is_float v = true.
Proof.
  intros Hc Hf. split.
  - apply (only_overflow_bind c _ (fun v => is_float v = true) Hc Hf).
    intros c0 Hc0.
    destruct (arith_float Z.mul fmul c0 P (or_introl Hc0)) as [Ho1 Hf1].
    apply (only_overflow_bind _ _ (fun v => is_float v = true) Ho1 Hf1).
    intros d Hd.
    destruct (arith_float Z.mul fmul d (pow10_neg 3) (or_introl Hd)) as [Ho2 Hf2].
    apply (only_overflow_bind _ _ (fun v => is_float v = true) Ho2 Hf2).
    intros e He.
    exact (proj1 (arith_float Z.add fadd X0 e (or_intror He))).
  - intros v H. destruct c as [c0 |]; [| discriminate H]. simpl in H.
    destruct (mul c0 P) as [d |] eqn:Hd; [| discriminate H]. simpl in H.
    destruct (mul d (pow10_neg 3)) as [e |] eqn:He; [| discriminate H].
    simpl in H.
    pose proof (proj2 (arith_float Z.mul fmul c0 P (or_introl (Hf c0 eq_refl)))
                  d Hd) as Hfd.
    pose proof (proj2 (arith_float Z.mul fmul d (pow10_neg 3) (or_introl Hfd))
                  e He) as Hfe.
    exact (proj2 (arith_float Z.add fadd X0 e (or_intror Hfe)) v H).
Qed.

Lemma bracket_X_float (W X : pynum) :
  only_overflow (h <- truediv (neg W) (PyInt 2) ;; add h X)
  /\ forall v, (h <- truediv (neg W) (PyInt 2) ;; add h X) = Ok v ->
               is_float v = true.
Proof.
  destruct (half_float (neg W)) as [Ho Hf]. split.
  - apply (only_overflow_bind _ _ (fun v => is_float v = true) Ho Hf).
    intros h Hh. exact (proj1 (arith_float Z.add fadd h X (or_introl Hh))).
  - intros v H. destruct (truediv (neg W) (PyInt 2)) as [h |] eqn:Hh;
      [| discriminate H]. simpl in H.
    exact (proj2 (arith_float Z.add fadd h X (or_introl (Hf h eq_refl))) v H).
Qed.

Lemma bracket_Y_float (H Y : pynum) :
  only_overflow (h <- truediv (neg H) (PyInt 2) ;; t <- add h H ;; sub t Y)
  /\ forall v,
       (h <- truediv (neg H) (PyInt 2) ;; t <- add h H ;; sub t Y) = Ok v ->
       is_float v = true.
Proof.
  destruct (half_float (neg H)) as [Ho Hf]. split.
  - apply (only_overflow_bind _ _ (fun v => is_float v = true) Ho Hf).
    intros h Hh.
    destruct (arith_float Z.add fadd h H (or_introl Hh)) as [Ho1 Hf1].
    apply (only_overflow_bind _ _ (fun v => is_float v = true) Ho1 Hf1).
    intros t Ht. exact (proj1 (arith_float Z.sub fsub t Y (or_introl Ht))).
  - intros v Hv. destruct (truediv (neg H) (PyInt 2)) as [h |] eqn:Hh;
      [| discriminate Hv]. simpl in Hv.
    destruct (add h H) as [t |] eqn:Ht; [| discriminate Hv]. simpl in Hv.
    pose proof (proj2 (arith_float Z.add fadd h H (or_introl (Hf h eq_refl)))
                  t Ht) as Hft.
    exact (proj2 (arith_float Z.sub fsub t Y (or_introl Hft)) v Hv).
Qed.

(** X12: the conversion raises nothing but OverflowError (an [int] argument
    too large for a float): no division by zero for an image width or
    height of 0, the only divisor being 2.  When it returns, both
    coordinates are floats, also for [int] arguments. *)
Theorem convertXY_raises_only_OverflowError
  (Xpix Ypix PixelSize_um X0mm Y0mm Image_Width Image_Height : pynum) :
  (forall e,
      IM.convertXY_PixToIM Xpix Ypix PixelSize_um X0mm Y0mm
        Image_Width Image_Height = Raise e ->
      e = OverflowError)
  /\ (forall Xout Yout,
         IM.convertXY_PixToIM Xpix Ypix PixelSize_um X0mm Y0mm
           Image_Width Image_Height = Ok (Xout, Yout) ->
         is_float Xout = true /\ is_float Yout = true).
Proof.
  unfold IM.convertXY_PixToIM.
  destruct (bracket_X_float Image_Width Xpix) as [HoX HfX].
  destruct (offset_float _ PixelSize_um X0mm HoX HfX) as [HoXo HfXo].
  destruct (bracket_Y_float Image_Height Ypix) as [HoY HfY].
  destruct (offset_float _ PixelSize_um Y0mm HoY HfY) as [HoYo HfYo].
  assert (HX :
    (c0 <- (h <- truediv (neg Image_Width) (PyInt 2) ;; add h Xpix) ;;
     d <- mul c0 PixelSize_um ;; e <- mul d (pow10_neg 3) ;; add X0mm e)
    = (h <- truediv (neg Image_Width) (PyInt 2) ;;
       c <- add h Xpix ;;
       d <- mul c PixelSize_um ;; e <- mul d (pow10_neg 3) ;; add X0mm e)).
  { now destruct (truediv (neg Image_Width) (PyInt 2)). }
  assert (HY :
    (c0 <- (h <- truediv (neg Image_Height) (PyInt 2) ;;
            t <- add h Image_Height ;; sub t Ypix) ;;
     d <- mul c0 PixelSize_um ;; e <- mul d (pow10_neg 3) ;; add Y0mm e)
    = (h <- truediv (neg Image_Height) (PyInt 2) ;;
       t <- add h Image_Height ;;
       c <- sub t Ypix ;;
       d <- mul c PixelSize_um ;; e <- mul d (pow10_neg 3) ;; add Y0mm e)).
  { destruct (truediv (neg Image_Height) (PyInt 2)) as [h |]; [| reflexivity].
    simpl. now destruct (add h Image_Height). }
  rewrite HX in HoXo, HfXo. rewrite HY in HoYo, HfYo.
  clear HX HY HoX HfX HoY HfY.
  set (X := (h <- truediv (neg Image_Width) (PyInt 2) ;; _)) in *.
  set (Y := (h <- truediv (neg Image_Height) (PyInt 2) ;; _)) in *.
  split.
  - intros e H.
    destruct X as [x | ex]; [| simpl in H; injection H as <-; exact (HoXo _ eq_refl)].
    destruct Y as [y | ey]; [| simpl in H; injection H as <-; exact (HoYo _ eq_refl)].
    simpl in H.
    destruct (round_float x (HfXo x eq_refl)) as [Hrx _].
    destruct (round_float y (HfYo y eq_refl)) as [Hry _].
    destruct (round x 3) as [x' | ex]; [| simpl in H; injection H as <-; exact (Hrx _ eq_refl)].
    destruct (round y 3) as [y' | ey]; [| simpl in H; injection H as <-; exact (Hry _ eq_refl)].
    discriminate H.
  - intros Xout Yout H.
    destruct X as [x | ex]; [| discriminate H].
    destruct Y as [y | ey]; [| discriminate H].
    simpl in H.
    destruct (round_float x (HfXo x eq_refl)) as [_ Hrx].
    destruct (round_float y (HfYo y eq_refl)) as [_ Hry].
    destruct (round x 3) as [x' |]; [| discriminate H].
    destruct (round y 3) as [y' |]; [| discriminate H].
    injection H as <- <-. split; [now apply Hrx | now apply Hry].
Qed.

(** A pixel column too large for a float. *)
Lemma convertXY_raises_only_OverflowError_witness :
  IM.convertXY_PixToIM (PyInt (2 ^ 1024)) (PyInt 0) (dec 1625 (-3))
    zero_pos zero_pos IM.Image_default IM.Image_default
  = Raise OverflowError
  /\ OverflowError = OverflowError.
Proof.
  assert (H : IM.convertXY_PixToIM (PyInt (2 ^ 1024)) (PyInt 0) (dec 1625 (-3))
                zero_pos zero_pos IM.Image_default IM.Image_default
              = Raise OverflowError) by (vm_compute; reflexivity).
  split; [exact H |].
  exact (proj1 (convertXY_raises_only_OverflowError _ _ _ _ _ _ _) _ H).
Defined.

(** What [round(x, 3)] returns is [x] rounded to three decimals. *)
Lemma round_returns (x : float) (v : pynum) :
  round (PyFloat x) 3 = Ok v ->
  exists r, v = PyFloat r /\ rounded_to_3 x r.
Proof.
  destruct x as [s | s | | s m e]; cbn [round];
    try (intros [= <-]; eexists; split; reflexivity).
  change (Z.opp 3) with (-3).
  set (num := Zpos m * 2 ^ Z.max 0 e * 10 ^ 3).
  set (den := 2 ^ Z.max 0 (- e)).
  assert (Hden : 0 < den) by (apply pow2_pos; lia).
  assert (Hnum : 0 <= num).
  { unfold num. assert (0 < 2 ^ Z.max 0 e) by (apply pow2_pos; lia). nia. }
  destruct (div_half_even_nearest num den Hnum Hden) as [Hn Hnear].
  intros H. exists (dec_to_float s (div_half_even num den) (-3)). split.
  - destruct (dec_to_float s (div_half_even num den) (-3));
      try discriminate H; now injection H as <-.
  - exists (div_half_even num den). split; [lia |]. split; [| reflexivity].
    unfold num, den in Hnear. change (10 ^ 3) with 1000 in Hnear. exact Hnear.
Qed.

(** X13: whatever the precision of its arguments, the conversion returns
    coordinates with three decimals: each is the float nearest to
    [n / 1000] for an integer [n] nearest to a thousand times the
    coordinate before rounding, [X0mm + (-Image_Width/2 + Xpix) *
    PixelSize_um * 10**-3], respectively the Y expression (an infinite or
    nan coordinate is returned as it is). *)
Theorem convertXY_rounds_to_three_decimals
  (Xpix Ypix PixelSize_um X0mm Y0mm Image_Width Image_Height Xout Yout : pynum) :
  IM.convertXY_PixToIM Xpix Ypix PixelSize_um X0mm Y0mm
    Image_Width Image_Height = Ok (Xout, Yout) ->
  exists x y xr yr : float,
    (h <- truediv (neg Image_Width) (PyInt 2) ;;
     c <- add h Xpix ;;
     d <- mul c PixelSize_um ;;
     e <- mul d (pow10_neg 3) ;;
     add X0mm e) = Ok (PyFloat x)
    /\ (h <- truediv (neg Image_Height) (PyInt 2) ;;
        t <- add h Image_Height ;;
        c <- sub t Ypix ;;
        d <- mul c PixelSize_um ;;
        e <- mul d (pow10_neg 3) ;;
        add Y0mm e) = Ok (PyFloat y)
    /\ Xout = PyFloat xr /\ Yout = PyFloat yr
    /\ rounded_to_3 x xr /\ rounded_to_3 y yr.
Proof.
  unfold IM.convertXY_PixToIM.
  destruct (bracket_X_float Image_Width Xpix) as [HoX HfX].
  destruct (offset_float _ PixelSize_um X0mm HoX HfX) as [_ HfXo].
  destruct (bracket_Y_float Image_Height Ypix) as [HoY HfY].
  destruct (offset_float _ PixelSize_um Y0mm HoY HfY) as [_ HfYo].
  assert (HX :
    (c0 <- (h <- truediv (neg Image_Width) (PyInt 2) ;; add h Xpix) ;;
     d <- mul c0 PixelSize_um ;; e <- mul d (pow10_neg 3) ;; add X0mm e)
    = (h <- truediv (neg Image_Width) (PyInt 2) ;;
       c <- add h Xpix ;;
       d <- mul c PixelSize_um ;; e <- mul d (pow10_neg 3) ;; add X0mm e)).
  { now destruct (truediv (neg Image_Width) (PyInt 2)). }
  assert (HY :
    (c0 <- (h <- truediv (neg Image_Height) (PyInt 2) ;;
            t <- add h Image_Height ;; sub t Ypix) ;;
     d <- mul c0 PixelSize_um ;; e <- mul d (pow10_neg 3) ;; add Y0mm e)
    = (h <- truediv (neg Image_Height) (PyInt 2) ;;
       t <- add h Image_Height ;;
       c <- sub t Ypix ;;
       d <- mul c PixelSize_um ;; e <- mul d (pow10_neg 3) ;; add Y0mm e)).
  { destruct (truediv (neg Image_Height) (PyInt 2)) as [h |]; [| reflexivity].
    simpl. now destruct (add h Image_Height). }
  rewrite HX in HfXo. rewrite HY in HfYo. clear HX HY HoX HfX HoY HfY.
  set (X := (h <- truediv (neg Image_Width) (PyInt 2) ;; _)) in *.
  set (Y := (h <- truediv (neg Image_Height) (PyInt 2) ;; _)) in *.
  intros H.
  destruct X as [x |]; [| discriminate H].
  destruct Y as [y |]; [| discriminate H].
  cbn [bind] in H.
  pose proof (HfXo x eq_refl) as Hx. pose proof (HfYo y eq_refl) as Hy.
  destruct x as [zx | x]; [discriminate Hx |].
  destruct y as [zy | y]; [discriminate Hy |].
  destruct (round (PyFloat x) 3) as [vx |] eqn:Ex; [| discriminate H].
  destruct (round (PyFloat y) 3) as [vy |] eqn:Ey; [| discriminate H].
  cbn [bind] in H. injection H as <- <-.
  destruct (round_returns x vx Ex) as (xr & -> & Hxr).
  destruct (round_returns y vy Ey) as (yr & -> & Hyr).
  exists x, y, xr, yr. repeat split; assumption.
Qed.

Lemma convertXY_rounds_to_three_decimals_witness :
  IM.convertXY_PixToIM (PyInt 100) (PyInt 200) (dec 1625 (-3))
    (dec 32281 (-3)) (dec 10963 (-3)) IM.Image_default IM.Image_default
  = Ok (dec 30779 (-3), dec 12302 (-3))
  /\ exists x xr : float,
       dec 30779 (-3) = PyFloat xr /\ rounded_to_3 x xr.
Proof.
  assert (H : IM.convertXY_PixToIM (PyInt 100) (PyInt 200) (dec 1625 (-3))
                (dec 32281 (-3)) (dec 10963 (-3))
                IM.Image_default IM.Image_default
              = Ok (dec 30779 (-3), dec 12302 (-3)))
    by (vm_compute; reflexivity).
  split; [exact H |].
  destruct (convertXY_rounds_to_three_decimals _ _ _ _ _ _ _ _ _ H)
    as (x & y & xr & yr & _ & _ & Hx & _ & Hr & _).
  exists x, xr. split; assumption.
Defined.

(** *** The client as shipped *)

(** X14: every call of the client stops at the reader.  getVersion and
    getStatus put their request on the socket, the four bytes of the
    payload's length (big endian) and then the payload, and raise
    [AttributeError]: [__getFeedback__] is defined nowhere.  The string
    form of the client, which asks for the version first, raises the same
    after the version request alone: the status request is not sent and no
    string is built. *)
Theorem client_sends_request_then_raises (self : IM.TCPIP) :
  IM.getVersion self
  = (Raise AttributeError, send_framed self IM.version_request)
  /\ IM.getStatus self
     = (Raise AttributeError, send_framed self IM.status_request)
  /\ IM.__str__ self
     = (Raise AttributeError, send_framed self IM.version_request)
  /\ IM.socket (send_framed self IM.version_request)
     = IM.socket self ++ [be32 24; IM.version_request]
  /\ IM.socket (send_framed self IM.status_request)
     = IM.socket self ++ [be32 23; IM.status_request].
Proof.
  repeat split; cbn [send_framed IM.send IM.socket];
    rewrite <- app_assoc; reflexivity.
Qed.

(** *** Responses of at most one byte *)



(** *** Magnification and numerical aperture together *)

Lemma NA_of_magnification (p : pynum) :
  get IM.pixelSizeToNA p
  = match get IM.pixelSizeToMag p with
    | Some mag => get IM.magToNA mag
    | None => None
    end.
Proof.
  unfold IM.pixelSizeToNA, IM.pixelSizeToMag. cbn [get].
  repeat match goal with
         | |- context [if num_eqb p ?k then _ else _] =>
             destruct (num_eqb p k); [vm_compute; reflexivity |]
         end.
  reflexivity.
Qed.

Lemma float_cases (s : string) :
  (exists f, float_ s = Ok (PyFloat f)) \/ float_ s = Raise ValueError.
Proof.
  unfold float_, bind.
  destruct (float_of_str s) as [f | e0] eqn:Hf; [left; now exists f |].
  right.
  assert (Hu : float_unparsable s) by (intros f; rewrite Hf; discriminate).
  rewrite (float_of_str_fails s Hu) in Hf. now injection Hf as ->.
Qed.

Lemma IM04_getPixelSize_um_raises (imageName : string) (e : exn) :
  IM04.getPixelSize_um imageName = Raise e -> e = ValueError.
Proof.
  unfold IM04.getPixelSize_um. intros H.
  destruct (float_cases (slice imageName 34 39)) as [[f Hf] | Hf];
    rewrite Hf in H.
  - discriminate H.
  - now injection H as <-.
Qed.

(** X16: on a variant B filename the two objective decoders go together:
    the magnification is returned exactly when the numerical aperture is,
    the aperture then being the [magToNA] entry of the magnification, and a
    pixel size that is in no table makes each raise its KeyError.  On
    variant A the aperture decoder does the same lookup, while the
    magnification decoder raises AttributeError on every filename, for it
    calls [IM03.getPixelSize_um], which the class IM03 does not have. *)
Theorem magnification_and_NA_go_together (imageName : string) :
  (forall mag,
      IM04.getObjectiveMagnification imageName = Ok mag ->
      exists na, IM04.getObjectiveNA imageName = Ok na
                 /\ get IM.magToNA mag = Some na)
  /\ (forall na,
         IM04.getObjectiveNA imageName = Ok na ->
         exists mag, IM04.getObjectiveMagnification imageName = Ok mag
                     /\ get IM.magToNA mag = Some na)
  /\ (IM04.getObjectiveMagnification imageName = Raise mag_miss
      <-> IM04.getObjectiveNA imageName = Raise na_miss)
  /\ IM03.getObjectiveMagnification imageName = Raise AttributeError.
Proof.
  unfold IM04.getObjectiveMagnification, IM04.getObjectiveNA.
  destruct (IM04.getPixelSize_um imageName) as [p | e] eqn:Hp; unfold bind.
  - rewrite (NA_of_magnification p).
    destruct (get IM.pixelSizeToMag p) as [mag |] eqn:Hm.
    + destruct (pixelSizeToMag_hit p mag Hm)
        as [[_ ->] | [[_ ->] | [[_ ->] | [_ ->]]]];
        (repeat split;
         [ intros mag' [= <-]; eexists; split; vm_compute; reflexivity
         | intros na H; eexists; split; [reflexivity |];
           vm_compute in H |- *; now injection H as <-
         | discriminate
         | discriminate ]).
    + repeat split; try discriminate; reflexivity.
  - pose proof (IM04_getPixelSize_um_raises _ _ Hp) as ->.
    repeat split; discriminate.
Qed.
Lemma magnification_and_NA_go_together_witness :
  IM04.getObjectiveMagnification exampleB = Ok (PyInt 2)
  /\ exists na, IM04.getObjectiveNA exampleB = Ok na
                /\ get IM.magToNA (PyInt 2) = Some na.
Proof.
  assert (H : IM04.getObjectiveMagnification exampleB = Ok (PyInt 2))
    by (vm_compute; reflexivity).
  split; [exact H |].
  exact (proj1 (magnification_and_NA_go_together exampleB) _ H).
Defined.

(** *** The inverted Y axis *)

(** Row [Y] of an image of height [H] is offset from the centre like
    column [H - Y] of an image of width [H]. *)
Lemma bracket_Y_mirror (H Y : Z) :
  Z.abs H < 2 ^ 51 -> Z.abs Y < 2 ^ 51 ->
  (h <- truediv (neg (PyInt H)) (PyInt 2) ;;
   t <- add h (PyInt H) ;;
   sub t (PyInt Y))
  = (h <- truediv (neg (PyInt H)) (PyInt 2) ;; add h (PyInt (H - Y))).
Proof.
  intros HH HY.
  destruct (Z.eq_dec H 0) as [-> | Hn].
  - change (truediv (neg (PyInt 0)) (PyInt 2)) with (Ok (PyFloat (S754_zero false))).
    cbn [bind]. change (add (PyFloat (S754_zero false)) (PyInt 0))
      with (Ok (PyFloat (S754_zero false))).
    cbn [bind]. unfold sub, add, arith, to_float, bind.
    rewrite !float_of_int_canon by lia. cbn [Z.sub].
    destruct (Z.eq_dec Y 0) as [-> | HnY]; [reflexivity |].
    rewrite fsub_zero_l by exact HnY.
    rewrite fadd_zero_l by lia. reflexivity.
  - rewrite (bracket_Y H Y HH HY).
    rewrite (bracket_X (PyInt H) (PyInt (H - Y))) by congruence.
    reflexivity.
Qed.

(** X17: the Y axis is inverted.  For a square image of [H] rows whose
    centre has equal stage coordinates, the pixel in column [H - Ypix] and
    row [Ypix] (a point of the image's anti-diagonal) is converted to a
    point with equal X and Y: the row [Ypix] counts from the top as the
    column [H - Ypix] counts from the left. *)
Theorem anti_diagonal_maps_to_diagonal
  (H Ypix : Z) (PixelSize_um C Xout Yout : pynum) :
  Z.abs H < 2 ^ 51 -> Z.abs Ypix < 2 ^ 51 ->
  IM.convertXY_PixToIM (PyInt (H - Ypix)) (PyInt Ypix) PixelSize_um C C
    (PyInt H) (PyInt H) = Ok (Xout, Yout) ->
  Xout = Yout.
Proof.
  intros HH HY. unfold IM.convertXY_PixToIM.
  rewrite (bind_bracket3 _ _ _ _ _ (bracket_Y_mirror H Ypix HH HY)).
  rewrite (bind_bracket2 (truediv (neg (PyInt H)) (PyInt 2)) _ _ _ eq_refl).
  set (A := (c <- (h <- truediv (neg (PyInt H)) (PyInt 2) ;;
                  add h (PyInt (H - Ypix))) ;; _)).
  destruct A as [a |]; [| discriminate]. cbn [bind].
  destruct (round a 3) as [r |]; [| discriminate]. cbn [bind].
  now intros [= <- <-].
Qed.

Lemma anti_diagonal_maps_to_diagonal_witness :
  Z.abs 2048 < 2 ^ 51 /\ Z.abs 100 < 2 ^ 51
  /\ IM.convertXY_PixToIM (PyInt (2048 - 100)) (PyInt 100) (dec 1625 (-3))
       (dec 10963 (-3)) (dec 10963 (-3)) (PyInt 2048) (PyInt 2048)
     = Ok (dec 12464 (-3), dec 12464 (-3))
  /\ dec 12464 (-3) = dec 12464 (-3).
Proof.
  assert (H : IM.convertXY_PixToIM (PyInt (2048 - 100)) (PyInt 100)
                (dec 1625 (-3)) (dec 10963 (-3)) (dec 10963 (-3))
                (PyInt 2048) (PyInt 2048)
              = Ok (dec 12464 (-3), dec 12464 (-3)))
    by (vm_compute; reflexivity).
  split; [simpl; lia |]. split; [simpl; lia |]. split; [exact H |].
  exact (anti_diagonal_maps_to_diagonal 2048 100 _ _ _ _
           ltac:(simpl; lia) ltac:(simpl; lia) H).
Defined.
